(** * Synthesize: the dual-provider orchestration pipeline

    A shallow embedding of the four variants of the pipeline:
    - [Server]  : model-combiner-js/index.js, the one-shot JSON endpoint;
    - [Stream]  : the server-sent-events endpoint with chat history;
    - [Batch]   : the two offline evaluation scripts ([runDynamicTest]).

    JavaScript strings are modelled by [string]; every definition of module
    [JS] is exact on strings whose code units are 7-bit (ASCII), which is the
    range all literals of the program live in.  The generative backends are
    external: their behaviour is an input of the model (a [completion] per
    call site), and the order in which the event loop resumes the two base
    tasks is an input too (a schedule). *)

From Stdlib Require Import String Ascii List Bool Arith Lia.
Import ListNotations.
Open Scope string_scope.
Open Scope list_scope.

(** Template literals are written with [^]; [++] is kept for lists. *)
Infix "^" := String.append (at level 30, right associativity) : string_scope.

(** ** The fragment of the String and Array prototypes the program uses *)

Module JS.

Definition nl : ascii := "010"%char.

(** WhiteSpace and LineTerminator code units below 128, as [trim] strips them. *)
Definition isWhiteSpace (c : ascii) : bool :=
  match nat_of_ascii c with
  | 9 | 10 | 11 | 12 | 13 | 32 => true
  | _ => false
  end.

Fixpoint trimStart (s : string) : string :=
  match s with
  | EmptyString => EmptyString
  | String c s' => if isWhiteSpace c then trimStart s' else s
  end.

Fixpoint trimEnd (s : string) : string :=
  match s with
  | EmptyString => EmptyString
  | String c s' =>
      match trimEnd s' with
      | EmptyString => if isWhiteSpace c then EmptyString else String c EmptyString
      | r => String c r
      end
  end.

(** [s.trim()] *)
Definition trim (s : string) : string := trimEnd (trimStart s).

(** [s.split(sep)] for a one-unit separator: never the empty array. *)
Fixpoint split (sep : ascii) (s : string) : list string :=
  match s with
  | EmptyString => [EmptyString]
  | String c s' =>
      if Ascii.eqb c sep then EmptyString :: split sep s'
      else match split sep s' with
           | h :: t => String c h :: t
           | [] => [String c EmptyString]
           end
  end.

(** [a.pop()]: the last element ([None] stands for [undefined]) and the
    array as the call leaves it. *)
Fixpoint pop {A : Type} (a : list A) : option A * list A :=
  match a with
  | [] => (None, [])
  | [x] => (Some x, [])
  | x :: a' => let (r, rest) := pop a' in (r, x :: rest)
  end.

Definition toUpperChar (c : ascii) : ascii :=
  let n := nat_of_ascii c in
  if Nat.leb 97 n && Nat.leb n 122 then ascii_of_nat (n - 32) else c.

(** [s.toUpperCase()] *)
Fixpoint toUpperCase (s : string) : string :=
  match s with
  | EmptyString => EmptyString
  | String c s' => String (toUpperChar c) (toUpperCase s')
  end.

(** [s.startsWith(p)] *)
Definition startsWith (s p : string) : bool := String.prefix p s.

(** [s.includes(p)] *)
Fixpoint includes (s p : string) : bool :=
  match s with
  | EmptyString => String.prefix p EmptyString
  | String _ s' => String.prefix p s || includes s' p
  end.

(** [a.join(sep)] *)
Fixpoint join (sep : string) (a : list string) : string :=
  match a with
  | [] => EmptyString
  | [x] => x
  | x :: a' => x ^ sep ^ join sep a'
  end.

Fixpoint drop (n : nat) (s : string) : string :=
  match n, s with
  | O, _ => s
  | S _, EmptyString => EmptyString
  | S n', String _ s' => drop n' s'
  end.

(** [s.replace(p, '')] with a string pattern: the first occurrence only. *)
Fixpoint removeFirst (p s : string) : string :=
  if String.prefix p s then drop (String.length p) s
  else match s with
       | EmptyString => EmptyString
       | String c s' => String c (removeFirst p s')
       end.

(** truthiness of a string: [!s] is [negb (truthy s)] *)
Definition truthy (s : string) : bool :=
  match s with EmptyString => false | _ => true end.

(** [a.slice(0, -1)] *)
Definition slice_0_m1 {A : Type} (a : list A) : list A := removelast a.

(** The double quote, for the templates that print one. *)
Definition dq : string := String (ascii_of_nat 34) EmptyString.
Definition lf : string := String nl EmptyString.

End JS.

(** No unit of [p] is white space. *)
Fixpoint solid (p : string) : bool :=
  match p with
  | EmptyString => true
  | String c p' => negb (JS.isWhiteSpace c) && solid p'
  end.


(** ** Configuration shared by the four files *)

Inductive Intent := FACTUAL | CREATIVE.

Record Config := mkConfig { gpt : string; gemini : string; synthesizer : string }.
Record Pipeline := mkPipeline { name : string; config : Config }.

Definition CLASSIFIER_MODEL : string := "gpt-4o".

Definition DYNAMIC_PIPELINES (i : Intent) : Pipeline :=
  match i with
  | FACTUAL =>
      mkPipeline "Factual Pipeline (SOTA Base -> Quick Synth)"
        (mkConfig "gpt-5" "gemini-2.5-pro" "gpt-4o")
  | CREATIVE =>
      mkPipeline "Creative Pipeline (SOTA Base -> SOTA Synth)"
        (mkConfig "gpt-5" "gemini-2.5-pro" "gemini-2.5-pro")
  end.

(** ** Parsing the classifier response (the same four lines in every file)

    [None] is the [TypeError] that [classifierLines.pop().trim()] raises when
    [pop] answers [undefined]. *)

Record Classification := mkClassification {
  finalClassification : string;
  reasoning : string;
  intent : Intent
}.

Definition parseClassification (classificationResponse : string)
  : option Classification :=
  let classifierLines := JS.split JS.nl (JS.trim classificationResponse) in
  match JS.pop classifierLines with
  | (None, _) => None
  | (Some lastLine, classifierLines') =>
      let finalClassification := JS.toUpperCase (JS.trim lastLine) in
      let reasoning :=
        JS.trim (JS.removeFirst "Reasoning:" (JS.join " " classifierLines')) in
      let intent :=
        if JS.includes finalClassification "CREATIVE" then CREATIVE else FACTUAL in
      Some (mkClassification finalClassification reasoning intent)
  end.

(** What the parser makes of the marker text the classifier adapter
    returns when its call has raised. *)
Definition classifierDefault : Classification :=
  mkClassification "ERROR: OPENAI API CALL FAILED FOR MODEL GPT-4O."
    EmptyString FACTUAL.

(** The parsing rule in the words of the specification: the lines of the
    trimmed response, the last non-empty one, uppercased, searched for the
    label. *)
Module SpecRule.

Definition nonEmpty (l : string) : bool := negb (String.eqb l EmptyString).

Definition lastNonEmptyLine (t : string) : option string :=
  match rev (filter nonEmpty (JS.split JS.nl t)) with
  | [] => None
  | l :: _ => Some l
  end.

Definition intentOf (classifierResponse : string) : Intent :=
  match lastNonEmptyLine (JS.trim classifierResponse) with
  | Some l => if JS.includes (JS.toUpperCase l) "CREATIVE" then CREATIVE else FACTUAL
  | None => FACTUAL
  end.

End SpecRule.

(** The rule once more, this time with none of the string functions of the
    program: what white space is, what trimming leaves, what a line is,
    which letter is the upper case of which, and what a substring is. *)
Module ParsingRule.

(** Space, tab, line feed, vertical tab, form feed, carriage return. *)
Definition whiteSpace : list ascii :=
  [" "; "009"; "010"; "011"; "012"; "013"]%char.

Definition newline : ascii := "010"%char.

(** [s] holds nothing but white space. *)
Definition Blank (s : string) : Prop :=
  forall c, In c (list_ascii_of_string s) -> In c whiteSpace.

(** [t] is [s] trimmed: [s] is [t] with white space before it and after
    it, and [t] neither starts nor ends with white space. *)
Definition Trimmed (s t : string) : Prop :=
  (exists lead trail, s = lead ^ t ^ trail /\ Blank lead /\ Blank trail) /\
  (forall c r, t = String c r -> ~ In c whiteSpace) /\
  (forall r c, t = r ^ String c EmptyString -> ~ In c whiteSpace).

(** [l] is the last non-empty line of [t]: it is not empty and holds no
    newline, it starts [t] or follows a newline, and nothing but newlines
    (so empty lines only) comes after it. *)
Definition LastNonEmptyLine (t l : string) : Prop :=
  l <> EmptyString /\
  ~ In newline (list_ascii_of_string l) /\
  exists before after,
    t = before ^ l ^ after /\
    (before = EmptyString \/ exists b, before = b ^ String newline EmptyString) /\
    (forall c, In c (list_ascii_of_string after) -> c = newline).

(** The alphabet, lower case and upper case, letter for letter. *)
Definition lowerCase : string := "abcdefghijklmnopqrstuvwxyz".
Definition upperCase : string := "ABCDEFGHIJKLMNOPQRSTUVWXYZ".

(** The letter of [upper] at the place [c] has in [lower]; [c] itself when
    it is not in [lower]. *)
Fixpoint letterAt (lower upper : string) (c : ascii) : ascii :=
  match lower, upper with
  | String l lower', String u upper' =>
      if Ascii.eqb c l then u else letterAt lower' upper' c
  | _, _ => c
  end.

Definition upperOf (c : ascii) : ascii := letterAt lowerCase upperCase c.

Fixpoint uppercased (l : string) : string :=
  match l with
  | EmptyString => EmptyString
  | String c l' => String (upperOf c) (uppercased l')
  end.

(** [w] is a substring of [s]. *)
Definition Contains (s w : string) : Prop :=
  exists pre post, s = pre ^ w ^ post.

(** The responses the rule reads as CREATIVE: after trimming, the last
    non-empty line, uppercased, contains the label. *)
Definition Creative (response : string) : Prop :=
  exists t l,
    Trimmed response t /\ LastNonEmptyLine t l /\
    Contains (uppercased l) "CREATIVE".

End ParsingRule.

(** ** Requests, backends, and what a run does to the outside *)

Record Turn := mkTurn { role : string; content : string }.

(** [req.body]: a field that is absent is [None]. *)
Record Request := mkRequest {
  prompt : option string;
  constraints : option string;
  chatHistory : option (list Turn)
}.

(** One answer of a generative backend: the text it produces, fragment by
    fragment, and whether the call raises once these are delivered (with
    [error.message]).  A streaming call hands the fragments over one by one; a
    one-shot call hands over their concatenation, or raises.  For a one-shot
    adapter [raises] stands for whatever throws inside its [try] block: the
    call itself, or the reading of the answer ([choices[0]], [usage]). *)
Record Completion (A : Type) := mkCompletion {
  fragments : list A;
  raises : option string
}.
Arguments mkCompletion {A} _ _.
Arguments fragments {A} _.
Arguments raises {A} _.

(** [chunk.choices[0]?.delta?.content || ""] *)
Definition deltaText (d : option string) : string :=
  match d with
  | Some s => if JS.truthy s then s else EmptyString
  | None => EmptyString
  end.

Definition concatText (l : list string) : string :=
  fold_right String.append EmptyString l.

Inductive Side := ModelA | ModelB.
Inductive Role := Classifier | Base (s : Side) | Synthesizer.

(** A turn in the schema of each backend. *)
Inductive ApiTurn :=
  | OpenAITurn (role content : string)
  | GeminiTurn (role : string) (parts : list string).

Inductive StreamEvent :=
  | status (message : string)
  | initial_data (pipelineName classifierReasoning : string)
  | modelA_chunk (text : string)
  | modelB_chunk (text : string)
  | fallback_log (log : string)
  | synthesis_chunk (text : string)
  | done (message : string)
  | error (message : string).

(** The body of a JSON answer of index.js. *)
Inductive JsonBody :=
  | ErrorBody (error : string)
  | ResultBody (finalResponse gptResult geminiResult pipelineName
                fallbackLog classifierReasoning : string).

(** What a handler does, in order.  [Call*] records a request to a backend
    with its call site; [Settled] marks the moment the promise of a base call
    is fulfilled. *)
Inductive Action :=
  | Json (code : nat) (body : JsonBody)
  | FlushHeaders
  | Send (e : StreamEvent)
  | CallOpenAI (r : Role) (model : string) (messages : list ApiTurn) (stream : bool)
  | CallGemini (r : Role) (model : string) (history : list ApiTurn)
               (message : string) (stream : bool)
  | Settled (s : Side)
  | End.

(** ** A log-and-exception monad for the handlers *)

Inductive Result (X : Type) :=
  | Val (x : X)
  | Exc (message : string).
Arguments Val {X} _.
Arguments Exc {X} _.

Definition M (X : Type) : Type := list Action * Result X.

Definition ret {X} (x : X) : M X := ([], Val x).
Definition throw {X} (message : string) : M X := ([], Exc message).
Definition tell (a : Action) : M unit := ([a], Val tt).

Definition bind {X Y} (m : M X) (k : X -> M Y) : M Y :=
  match m with
  | (l, Val x) => let (l', r) := k x in (l ++ l', r)
  | (l, Exc e) => (l, Exc e)
  end.

Definition tryCatch {X} (m : M X) (handler : string -> M X) : M X :=
  match m with
  | (l, Exc e) => let (l', r) := handler e in (l ++ l', r)
  | v => v
  end.

Declare Scope js_scope.
Delimit Scope js_scope with js.
Notation "x <- m ;; k" := (bind m (fun x => k))
  (at level 61, m at next level, right associativity) : js_scope.
Notation "m ;; k" := (bind m (fun _ => k))
  (at level 61, right associativity) : js_scope.
Open Scope js_scope.

Definition trace {X} (m : M X) : list Action := fst m.

(** One-shot delivery of a completion.  The [content] of the answer is taken
    to be a string, the fragments put together.  The API declares it as a
    string or [null]; on [null] the adapters would hand it on as it is and
    the handlers would raise at the first string method they call on it:
    such an answer is not among the behaviours of the backends here. *)
Definition awaitOneShot {X} (text : X -> string) (c : Completion X) : M string :=
  match raises c with
  | Some e => throw e
  | None => ret (concatText (map text (fragments c)))
  end.

(** The message of the [TypeError] a property read on [undefined] raises
    (as Node.js words it). *)
Definition typeErrorOfUndefined (prop : string) : string :=
  "Cannot read properties of undefined (reading '" ^ prop ^ "')".

(** ** The streaming endpoint with chat history *)

Module Stream.

(** The backends as this endpoint meets them, one completion per call site,
    and the order in which the two base tasks are resumed ([true]: the task
    of model A, when it can run). *)
Record World := mkWorld {
  classifierCall : Completion (option string);
  baseA : Completion (option string);
  baseB : Completion string;
  synthOpenAI : Completion (option string);
  synthGemini : Completion string;
  schedule : list bool
}.

Definition formatTurn (turn : Turn) : string :=
  (if String.eqb (role turn) "user" then "User" else "Assistant")
  ^ ": " ^ content turn.

Definition formatChatHistory (history : option (list Turn)) : string :=
  match history with
  | None | Some [] => "No previous conversation."
  | Some h => JS.join JS.lf (map formatTurn h)
  end.

Definition constraintInstruction (constraints : string) : string :=
  if JS.truthy constraints
  then JS.lf ^ JS.lf ^ "CRITICAL INSTRUCTION: Adhere to this constraint: "
       ^ constraints ^ JS.lf
  else EmptyString.

Definition getSynthesisPrompt (prompt gptResponse geminiResponse : string)
    (constraints : option string) (chatHistory : option (list Turn)) : string :=
  let constraints := match constraints with Some c => c | None => EmptyString end in
  let chatHistory := match chatHistory with Some h => Some h | None => Some [] end in
  let historyText := formatChatHistory chatHistory in
  "You are an expert synthesizer. Given a conversation history and two new draft responses to the user's latest prompt, your task is to merge them into one superior, cohesive response."
  ^ JS.lf ^ JS.lf ^ "Conversation History:" ^ JS.lf ^ historyText
  ^ JS.lf ^ JS.lf ^ "User's Latest Prompt: " ^ JS.dq ^ prompt ^ JS.dq
  ^ JS.lf ^ JS.lf ^ "---" ^ JS.lf ^ "Draft Response A:" ^ JS.lf
  ^ JS.dq ^ gptResponse ^ JS.dq
  ^ JS.lf ^ JS.lf ^ "---" ^ JS.lf ^ "Draft Response B:" ^ JS.lf
  ^ JS.dq ^ geminiResponse ^ JS.dq
  ^ JS.lf ^ "---" ^ JS.lf ^ constraintInstruction constraints ^ JS.lf
  ^ "Synthesize the two drafts into a single, final response that directly and thoughtfully answers the user's latest prompt, maintaining the context of the conversation. Final Response:".

Definition getRefinementPrompt (prompt singleResponse : string)
    (constraints : option string) (chatHistory : option (list Turn)) : string :=
  let constraints := match constraints with Some c => c | None => EmptyString end in
  let chatHistory := match chatHistory with Some h => Some h | None => Some [] end in
  let historyText := formatChatHistory chatHistory in
  "You are an expert editor. Review the following draft response in the context of the conversation history and the user's latest prompt. Your task is to refine and improve it."
  ^ JS.lf ^ JS.lf ^ "Conversation History:" ^ JS.lf ^ historyText
  ^ JS.lf ^ JS.lf ^ "User's Latest Prompt: " ^ JS.dq ^ prompt ^ JS.dq
  ^ JS.lf ^ JS.lf ^ "---" ^ JS.lf ^ "Draft Response to Refine:" ^ JS.lf
  ^ JS.dq ^ singleResponse ^ JS.dq
  ^ JS.lf ^ "---" ^ JS.lf ^ constraintInstruction constraints ^ JS.lf
  ^ "Rewrite the draft to be a superior, final response that directly answers the user's latest prompt and adheres to any constraints. Final Response:".

Definition getClassificationPrompt (prompt : string)
    (chatHistory : option (list Turn)) : string :=
  let chatHistory := match chatHistory with Some h => Some h | None => Some [] end in
  let historyText := formatChatHistory chatHistory in
  "Analyze the user's LATEST prompt in the context of the conversation history. Classify the intent of the LATEST prompt as "
  ^ JS.dq ^ "FACTUAL" ^ JS.dq ^ " or " ^ JS.dq ^ "CREATIVE" ^ JS.dq ^ "."
  ^ JS.lf ^ JS.lf
  ^ "- " ^ JS.dq ^ "FACTUAL" ^ JS.dq
  ^ ": Requests for explanations, code, technical info, summaries." ^ JS.lf
  ^ "- " ^ JS.dq ^ "CREATIVE" ^ JS.dq
  ^ ": Requests for stories, brainstorming, poetry, open-ended tasks."
  ^ JS.lf ^ JS.lf
  ^ "First, provide a brief reasoning. Second, on a new line, provide the classification."
  ^ JS.lf ^ JS.lf ^ "Conversation History:" ^ JS.lf ^ historyText
  ^ JS.lf ^ JS.lf ^ "User's Latest Prompt: " ^ JS.dq ^ prompt ^ JS.dq
  ^ JS.lf ^ JS.lf ^ "Reasoning:" ^ JS.lf ^ "Classification:".

(** [getGptResponse]: the adapter swallows the exception of the backend and
    answers a marker text. *)
Definition getGptResponse (r : Role) (backend : Completion (option string))
    (prompt modelName : string) (chatHistoryForApi : list ApiTurn) : M string :=
  tryCatch
    (let messages := chatHistoryForApi ++ [OpenAITurn "user" prompt] in
     tell (CallOpenAI r modelName messages false) ;;
     awaitOneShot deltaText backend)
    (fun _ => ret ("ERROR: OpenAI API call failed for model " ^ modelName ^ ".")).

Definition getGeminiResponse (r : Role) (backend : Completion string)
    (prompt modelName : string) (chatHistoryForApi : list ApiTurn) : M string :=
  tryCatch
    (tell (CallGemini r modelName chatHistoryForApi prompt false) ;;
     awaitOneShot (fun t => t) backend)
    (fun _ => ret ("ERROR: Google AI API call failed for model " ^ modelName ^ ".")).

Definition convertHistoryForApi (history : option (list Turn)) (apiType : string)
  : list ApiTurn :=
  match history with
  | None => []
  | Some h =>
      if String.eqb apiType "openai"
      then map (fun turn => OpenAITurn (role turn) (content turn)) h
      else if String.eqb apiType "gemini"
      then map (fun turn => GeminiTurn (role turn) [content turn]) h
      else []
  end.

(** The variables the two base tasks write and the tail of the handler reads. *)
Record Vars := mkVars {
  gptResult : string;
  geminiResult : string;
  gptFailed : bool;
  geminiFailed : bool
}.

(** A base task between two resumptions: the fragments still to come and how
    the stream ends, or nothing left to do. *)
Inductive Task :=
  | Running (rest : list string) (raises : option string)
  | Finished.

(** The body of [for await] for one chunk. *)
Definition onChunk (s : Side) (text : string) (v : Vars) : list Action * Vars :=
  match s with
  | ModelA =>
      ([Send (modelA_chunk text)],
       mkVars (gptResult v ^ text) (geminiResult v) (gptFailed v) (geminiFailed v))
  | ModelB =>
      ([Send (modelB_chunk text)],
       mkVars (gptResult v) (geminiResult v ^ text) (gptFailed v) (geminiFailed v))
  end.

(** The [catch] clause of a base task. *)
Definition onCatch (s : Side) (v : Vars) : list Action * Vars :=
  match s with
  | ModelA =>
      ([Send (modelA_chunk (JS.lf ^ JS.lf ^ "--- ERROR: OpenAI API call failed. ---"))],
       mkVars (gptResult v) (geminiResult v) true (geminiFailed v))
  | ModelB =>
      ([Send (modelB_chunk (JS.lf ^ JS.lf ^ "--- ERROR: Google AI API call failed. ---"))],
       mkVars (gptResult v) (geminiResult v) (gptFailed v) true)
  end.

(** One resumption of a running task. *)
Definition resume (s : Side) (rest : list string) (raises : option string)
    (v : Vars) : list Action * Task * Vars :=
  match rest with
  | text :: rest' =>
      let (l, v') := onChunk s text v in (l, Running rest' raises, v')
  | [] =>
      match raises with
      | Some _ => let (l, v') := onCatch s v in (l ++ [Settled s], Finished, v')
      | None => ([Settled s], Finished, v)
      end
  end.

(** A task run to its end without the other one in between. *)
Fixpoint runToEnd (s : Side) (rest : list string) (raises : option string)
    (v : Vars) : list Action * Vars :=
  match rest with
  | text :: rest' =>
      let (l, v') := onChunk s text v in
      let (l', v'') := runToEnd s rest' raises v' in
      (l ++ l', v'')
  | [] =>
      match raises with
      | Some _ => let (l, v') := onCatch s v in (l ++ [Settled s], v')
      | None => ([Settled s], v)
      end
  end.

Definition finish (s : Side) (t : Task) (v : Vars) : list Action * Vars :=
  match t with
  | Running rest raises => runToEnd s rest raises v
  | Finished => ([], v)
  end.

(** [await Promise.all([gptStreamPromise, geminiStreamPromise])]: the tasks
    are resumed as the schedule says until both are finished; a schedule
    that ends early lets A finish, then B. *)
Fixpoint promiseAll (schedule : list bool) (ta tb : Task) (v : Vars)
  : list Action * Vars :=
  match schedule with
  | [] =>
      let (la, va) := finish ModelA ta v in
      let (lb, vb) := finish ModelB tb va in
      (la ++ lb, vb)
  | pickA :: schedule' =>
      match ta, tb with
      | Finished, Finished => ([], v)
      | Running rest raises, Finished =>
          let '(l, ta', v') := resume ModelA rest raises v in
          let (l', v'') := promiseAll schedule' ta' tb v' in (l ++ l', v'')
      | Finished, Running rest raises =>
          let '(l, tb', v') := resume ModelB rest raises v in
          let (l', v'') := promiseAll schedule' ta tb' v' in (l ++ l', v'')
      | Running restA raisesA, Running restB raisesB =>
          if pickA : bool
          then let '(l, ta', v') := resume ModelA restA raisesA v in
               let (l', v'') := promiseAll schedule' ta' tb v' in (l ++ l', v'')
          else let '(l, tb', v') := resume ModelB restB raisesB v in
               let (l', v'') := promiseAll schedule' ta tb' v' in (l ++ l', v'')
      end
  end.

Definition sendEvent (e : StreamEvent) : M unit := tell (Send e).

(** [for await (const chunk of stream) { sendEvent('synthesis-chunk', ...) }] *)
Fixpoint forAwaitSynthesis (rest : list string) (raises : option string) : M unit :=
  match rest with
  | text :: rest' =>
      sendEvent (synthesis_chunk text) ;; forAwaitSynthesis rest' raises
  | [] =>
      match raises with
      | Some e => throw e
      | None => ret tt
      end
  end.

Definition vars0 : Vars := mkVars EmptyString EmptyString false false.

(** Step 2 (Base Generation): both requests leave, then the handler waits
    for the two tasks. *)
Definition baseGeneration (w : World) (prompt : string) (config : Config)
    (historyForPrompting : list Turn) : M Vars :=
  let gptHistoryForApi := convertHistoryForApi (Some historyForPrompting) "openai" in
  let geminiHistoryForApi := convertHistoryForApi (Some historyForPrompting) "gemini" in
  tell (CallOpenAI (Base ModelA) (gpt config)
          (gptHistoryForApi ++ [OpenAITurn "user" prompt]) true) ;;
  tell (CallGemini (Base ModelB) (gemini config) geminiHistoryForApi prompt true) ;;
  let (l, v) :=
    promiseAll (schedule w)
      (Running (map deltaText (fragments (baseA w))) (raises (baseA w)))
      (Running (fragments (baseB w)) (raises (baseB w)))
      vars0
  in (l, Val v).

(** The [try] block of step 4 (Synthesis Stream). *)
Definition synthesisStream (w : World) (synthesizerModel synthesisPrompt : string)
    (historyForPrompting : list Turn) : M unit :=
  let synthHistoryForApi :=
    convertHistoryForApi (Some historyForPrompting)
      (if JS.startsWith synthesizerModel "gemini" then "gemini" else "openai") in
  if JS.startsWith synthesizerModel "gemini"
  then
    tell (CallGemini Synthesizer synthesizerModel synthHistoryForApi
            synthesisPrompt true) ;;
    forAwaitSynthesis (fragments (synthGemini w)) (raises (synthGemini w))
  else
    tell (CallOpenAI Synthesizer synthesizerModel
            (synthHistoryForApi ++ [OpenAITurn "user" synthesisPrompt]) true) ;;
    forAwaitSynthesis (map deltaText (fragments (synthOpenAI w)))
      (raises (synthOpenAI w)).

(** Step 3, once at least one base task has succeeded: the prompt for the
    synthesizer and the fallback log. *)
Definition prepareSynthesis (prompt : string) (constraints : option string)
    (historyForPrompting : list Turn) (v : Vars) : string * string :=
  if gptFailed v
  then (getRefinementPrompt prompt (geminiResult v) constraints
          (Some historyForPrompting),
        "Model A failed. Refining Model B's response.")
  else if geminiFailed v
  then (getRefinementPrompt prompt (gptResult v) constraints
          (Some historyForPrompting),
        "Model B failed. Refining Model A's response.")
  else (getSynthesisPrompt prompt (gptResult v) (geminiResult v) constraints
          (Some historyForPrompting),
        EmptyString).

(** Steps 3 and 4, from the fallback decision to the end of the answer. *)
Definition synthesis (w : World) (prompt : string) (constraints : option string)
    (historyForPrompting : list Turn) (config : Config) (v : Vars) : M unit :=
  if gptFailed v && geminiFailed v then tell End
  else
    let '(synthesisPrompt, fallbackLog) :=
      prepareSynthesis prompt constraints historyForPrompting v in
    sendEvent (fallback_log fallbackLog) ;;
    sendEvent (status "Synthesizing final response...") ;;
    let synthesizerModel := synthesizer config in
    tryCatch
      (synthesisStream w synthesizerModel synthesisPrompt historyForPrompting)
      (fun _ =>
         let fallbackLog :=
           fallbackLog ^ " Synthesis step failed. Displaying best available response." in
         sendEvent (fallback_log fallbackLog) ;;
         let fallbackResponse :=
           if negb (gptFailed v) then gptResult v else geminiResult v in
         sendEvent (synthesis_chunk
           (JS.lf ^ JS.lf ^ "--- SYNTHESIS FAILED ---" ^ JS.lf
            ^ "Displaying best available base response:" ^ JS.lf ^ JS.lf
            ^ fallbackResponse))) ;;
    sendEvent (done "Stream complete.") ;;
    tell End.

(** [app.post('/combine', ...)] *)
Definition combine (req : Request) (w : World) : M unit :=
  let '(mkRequest prompt constraints chatHistory) := req in
  match prompt with
  | None => tell (Json 400 (ErrorBody "Prompt is required."))
  | Some prompt =>
  if negb (JS.truthy prompt) then tell (Json 400 (ErrorBody "Prompt is required."))
  else
  tell FlushHeaders ;;
  tryCatch
    (historyForPrompting <-
       match chatHistory with
       | Some h => ret (JS.slice_0_m1 h)
       | None => throw (typeErrorOfUndefined "slice")
       end ;;
     (* Step 1: Classify intent *)
     sendEvent (status "Classifying prompt intent...") ;;
     classificationResponse <-
       getGptResponse Classifier (classifierCall w)
         (getClassificationPrompt prompt (Some historyForPrompting))
         CLASSIFIER_MODEL [] ;;
     c <- match parseClassification classificationResponse with
          | Some c => ret c
          | None => throw (typeErrorOfUndefined "trim")
          end ;;
     let pipeline := DYNAMIC_PIPELINES (intent c) in
     let config := config pipeline in
     sendEvent (initial_data (name pipeline) (reasoning c)) ;;
     sendEvent (status "Generating base responses...") ;;
     v <- baseGeneration w prompt config historyForPrompting ;;
     synthesis w prompt constraints historyForPrompting config v)
    (fun message =>
       sendEvent (error ("An unexpected error occurred: " ^ message)) ;;
       tell End)
  end.

End Stream.

(** ** The one-shot endpoint of model-combiner-js/index.js

    The [console.error] lines of the adapters and of the handler are left
    out: they write to the log of the process only. *)

Module Server.

Record World := mkWorld {
  classifierCall : Completion (option string);
  baseA : Completion (option string);
  baseB : Completion string;
  synthOpenAI : Completion (option string);
  synthGemini : Completion string;
  (** which of the two base calls is answered first *)
  aSettlesFirst : bool
}.

Definition getSynthesisPrompt (prompt gptResponse geminiResponse : string) : string :=
  "Your persona is a helpful and pragmatic expert. Your task is to synthesize two AI-generated responses into a single, superior answer. Original User Prompt: "
  ^ JS.dq ^ prompt ^ JS.dq ^ JS.lf ^ JS.lf ^ "---" ^ JS.lf ^ "Response A:" ^ JS.lf
  ^ JS.dq ^ gptResponse ^ JS.dq ^ JS.lf ^ JS.lf ^ "---" ^ JS.lf ^ "Response B:" ^ JS.lf
  ^ JS.dq ^ geminiResponse ^ JS.dq ^ JS.lf ^ JS.lf ^ "---" ^ JS.lf
  ^ "Instructions:" ^ JS.lf
  ^ "1. Assess Helpfulness: Prioritize information from the more helpful response." ^ JS.lf
  ^ "2. Extract Core Information: Identify key facts." ^ JS.lf
  ^ "3. Synthesize: Create a single, cohesive answer." ^ JS.lf
  ^ "4. Final Output: Be direct. Do not mention the synthesis process." ^ JS.lf ^ JS.lf
  ^ "Synthesized and Superior Response:".

Definition getRefinementPrompt (prompt singleResponse : string) : string :=
  "Your persona is a helpful and pragmatic expert. Your task is to review and improve the following AI-generated response. The goal is to make it clearer, more comprehensive, and more direct. Original User Prompt: "
  ^ JS.dq ^ prompt ^ JS.dq ^ JS.lf ^ JS.lf ^ "---" ^ JS.lf
  ^ "AI Response to Refine:" ^ JS.lf
  ^ JS.dq ^ singleResponse ^ JS.dq ^ JS.lf ^ JS.lf ^ "---" ^ JS.lf
  ^ "Instructions:" ^ JS.lf
  ^ "1. Analyze the response for clarity, accuracy, and completeness." ^ JS.lf
  ^ "2. Rewrite it to be a superior version. Ensure it directly answers the user's prompt." ^ JS.lf
  ^ "3. Do not mention the refinement process." ^ JS.lf ^ JS.lf
  ^ "Refined and Superior Response:".

Definition getClassificationPrompt (prompt : string) : string :=
  "You are an expert at analyzing user prompts. Your task is to classify the user's intent as either "
  ^ JS.dq ^ "FACTUAL" ^ JS.dq ^ " or " ^ JS.dq ^ "CREATIVE" ^ JS.dq ^ "." ^ JS.lf ^ JS.lf
  ^ "- " ^ JS.dq ^ "FACTUAL" ^ JS.dq
  ^ " intent involves requests for explanations, code, technical information, summaries, or structured answers." ^ JS.lf
  ^ "- " ^ JS.dq ^ "CREATIVE" ^ JS.dq
  ^ " intent involves requests for stories, brainstorming, poetry, or other open-ended generative tasks." ^ JS.lf ^ JS.lf
  ^ "First, provide a brief, step-by-step reasoning for your decision in one or two sentences." ^ JS.lf
  ^ "Second, on a new line, provide the final classification as a single word: FACTUAL or CREATIVE." ^ JS.lf ^ JS.lf
  ^ "User Prompt: " ^ JS.dq ^ prompt ^ JS.dq ^ JS.lf ^ JS.lf
  ^ "Reasoning:" ^ JS.lf ^ "Classification:".

(** The adapters, each split at its [await]: the request it sends, and what
    it returns once the backend has answered or raised. *)
Definition gptRequest (r : Role) (prompt modelName : string) : Action :=
  CallOpenAI r modelName [OpenAITurn "user" prompt] false.

Definition gptAnswer (backend : Completion (option string)) (modelName : string)
  : M string :=
  tryCatch (awaitOneShot deltaText backend)
    (fun _ => ret ("ERROR: OpenAI API call failed for model " ^ modelName ^ ".")).

Definition getGptResponse (r : Role) (backend : Completion (option string))
    (prompt modelName : string) : M string :=
  tell (gptRequest r prompt modelName) ;; gptAnswer backend modelName.

Definition geminiRequest (r : Role) (prompt modelName : string) : Action :=
  CallGemini r modelName [] prompt false.

Definition geminiAnswer (backend : Completion string) (modelName : string)
  : M string :=
  tryCatch (awaitOneShot (fun t => t) backend)
    (fun _ => ret ("ERROR: Google AI API call failed for model " ^ modelName ^ ".")).

Definition getGeminiResponse (r : Role) (backend : Completion string)
    (prompt modelName : string) : M string :=
  tell (geminiRequest r prompt modelName) ;; geminiAnswer backend modelName.

(** [await Promise.all([getGptResponse(...), getGeminiResponse(...)])]: both
    requests leave, in this order, before either answer is in. *)
Definition promiseAll (w : World) (prompt : string) (config : Config)
  : M (string * string) :=
  tell (gptRequest (Base ModelA) prompt (gpt config)) ;;
  tell (geminiRequest (Base ModelB) prompt (gemini config)) ;;
  (if aSettlesFirst w
   then tell (Settled ModelA) ;; tell (Settled ModelB)
   else tell (Settled ModelB) ;; tell (Settled ModelA)) ;;
  gptResult <- gptAnswer (baseA w) (gpt config) ;;
  geminiResult <- geminiAnswer (baseB w) (gemini config) ;;
  ret (gptResult, geminiResult).

(** Step 4, once at least one base text is taken as good: the prompt for
    the synthesizer and the fallback log. *)
Definition prepareSynthesis (prompt gptResult geminiResult : string)
    (gptFailed geminiFailed : bool) : string * string :=
  if gptFailed
  then (getRefinementPrompt prompt geminiResult,
        "A primary model was unavailable. Refining the best available response.")
  else if geminiFailed
  then (getRefinementPrompt prompt gptResult,
        "A primary model was unavailable. Refining the best available response.")
  else (getSynthesisPrompt prompt gptResult geminiResult, EmptyString).

(** Steps 4 and 5, from the fallback decision to the answer. *)
Definition synthesis (w : World) (prompt : string) (pipeline : Pipeline)
    (reasoning gptResult geminiResult : string) : M unit :=
  let config := config pipeline in
  let gptFailed := JS.includes gptResult "ERROR" in
  let geminiFailed := JS.includes geminiResult "ERROR" in
  if gptFailed && geminiFailed
  then tell (Json 200 (ResultBody
               "FATAL: Both primary models failed. Please try again."
               gptResult geminiResult (name pipeline)
               "Both base models failed." reasoning))
  else
    let '(synthesisPrompt, fallbackLog) :=
      prepareSynthesis prompt gptResult geminiResult gptFailed geminiFailed in
    (* Step 5: Run Synthesis *)
    let synthesizerModel := synthesizer config in
    finalResponse <-
      (if JS.startsWith synthesizerModel "gemini"
       then getGeminiResponse Synthesizer (synthGemini w) synthesisPrompt synthesizerModel
       else getGptResponse Synthesizer (synthOpenAI w) synthesisPrompt synthesizerModel) ;;
    let '(finalResponse, fallbackLog) :=
      if JS.includes finalResponse "ERROR"
      then (if negb gptFailed then gptResult else geminiResult,
            fallbackLog ^ (if JS.truthy fallbackLog then " " else EmptyString)
            ^ "The final synthesis step failed. Displaying the best available response.")
      else (finalResponse, fallbackLog) in
    tell (Json 200 (ResultBody finalResponse gptResult geminiResult
                      (name pipeline) fallbackLog reasoning)).

(** [app.post('/combine', ...)] *)
Definition combine (req : Request) (w : World) : M unit :=
  match prompt req with
  | None => tell (Json 400 (ErrorBody "Prompt is required."))
  | Some prompt =>
  if negb (JS.truthy prompt) then tell (Json 400 (ErrorBody "Prompt is required."))
  else
  tryCatch
    ((* Step 1: Classify intent *)
     let classificationPrompt := getClassificationPrompt prompt in
     classificationResponse <-
       getGptResponse Classifier (classifierCall w) classificationPrompt
         CLASSIFIER_MODEL ;;
     c <- match parseClassification classificationResponse with
          | Some c => ret c
          | None => throw (typeErrorOfUndefined "trim")
          end ;;
     (* Step 2: Select pipeline *)
     let pipeline := DYNAMIC_PIPELINES (intent c) in
     (* Step 3: Base Generation (in parallel) *)
     results <- promiseAll w prompt (config pipeline) ;;
     let '(gptResult, geminiResult) := results in
     synthesis w prompt pipeline (reasoning c) gptResult geminiResult)
    (fun _ => tell (Json 500 (ErrorBody "An unexpected error occurred.")))
  end.

End Server.

(** ** The offline evaluation script with constraints ([runDynamicTest])

    A test is modelled with its requests, the response cache, the fallback
    steps and the log entry; costs and durations are not. *)

Module Batch.

(** [getGptResponse(...).content]: the text of the answer, taken to be a
    string as in [awaitOneShot], or the text of the [catch] clause. *)
Definition gptContent (backend : Completion (option string)) : string :=
  match raises backend with
  | Some message => "ERROR from OpenAI: " ^ message
  | None => concatText (map deltaText (fragments backend))
  end.

(** [getGeminiResponse(...).content] *)
Definition geminiContent (backend : Completion string) : string :=
  match raises backend with
  | Some message => "ERROR from Google AI: " ^ message
  | None => concatText (fragments backend)
  end.

Definition gptFailed (gptRunContent : string) : bool :=
  JS.includes gptRunContent "ERROR".

Definition geminiFailed (geminiRunContent : string) : bool :=
  JS.includes geminiRunContent "ERROR".

(** The rest of [runDynamicTest].  A run object is kept by its [content]:
    its [cost] and [duration] are floating-point bookkeeping, and so are
    [runStep], [totalCost] and the token counts the Gemini adapter asks for;
    the trace records the generation requests only. *)

Record World := mkWorld {
  classifierCall : Completion (option string);
  baseA : Completion (option string);
  baseB : Completion string;
  synthOpenAI : Completion (option string);
  synthGemini : Completion string
}.

Record Run := mkRun { content : string }.

(** [baseResponseCache]: an object used as a map from keys to runs; the
    newest entry of a key is the one a lookup sees. *)
Definition Cache : Type := list (string * Run).

(** [cache[key]] *)
Definition cacheGet (key : string) (cache : Cache) : option Run :=
  match find (fun e => String.eqb (fst e) key) cache with
  | Some e => Some (snd e)
  | None => None
  end.

(** [cache[key] = run] *)
Definition cacheSet (key : string) (run : Run) (cache : Cache) : Cache :=
  (key, run) :: cache.

Definition constraintInstruction (constraints : string) : string :=
  if JS.truthy constraints
  then JS.lf ^ JS.lf
       ^ "CRITICAL INSTRUCTION: You must adhere to the following user-defined constraint when generating the final response:"
       ^ JS.lf ^ "- " ^ constraints ^ JS.lf
  else EmptyString.

Definition getSynthesisPrompt (prompt gptResponse geminiResponse : string)
    (constraints : option string) : string :=
  let constraints := match constraints with Some c => c | None => EmptyString end in
  "Your persona is a helpful and pragmatic expert. Your task is to synthesize two AI-generated responses into a single, superior answer. Original User Prompt: "
  ^ JS.dq ^ prompt ^ JS.dq ^ JS.lf ^ JS.lf ^ "---" ^ JS.lf ^ "Response A:" ^ JS.lf
  ^ JS.dq ^ gptResponse ^ JS.dq ^ JS.lf ^ JS.lf ^ "---" ^ JS.lf ^ "Response B:" ^ JS.lf
  ^ JS.dq ^ geminiResponse ^ JS.dq ^ JS.lf ^ JS.lf ^ "---"
  ^ constraintInstruction constraints ^ JS.lf ^ JS.lf
  ^ "Instructions:" ^ JS.lf
  ^ "1. Synthesize the responses into a single, cohesive answer that strictly follows the user's constraints if provided."
  ^ JS.lf
  ^ "2. Be direct. Do not mention the synthesis process." ^ JS.lf ^ JS.lf
  ^ "Synthesized and Superior Response:".

Definition getRefinementPrompt (prompt singleResponse : string)
    (constraints : option string) : string :=
  let constraints := match constraints with Some c => c | None => EmptyString end in
  "Your persona is a helpful and pragmatic expert. Your task is to review and improve the following AI-generated response. Original User Prompt: "
  ^ JS.dq ^ prompt ^ JS.dq ^ JS.lf ^ JS.lf ^ "---" ^ JS.lf
  ^ "AI Response to Refine:" ^ JS.lf
  ^ JS.dq ^ singleResponse ^ JS.dq ^ JS.lf ^ JS.lf ^ "---"
  ^ constraintInstruction constraints ^ JS.lf ^ JS.lf
  ^ "Instructions:" ^ JS.lf
  ^ "1. Rewrite the response to be a superior version that strictly follows the user's constraints if provided."
  ^ JS.lf
  ^ "2. Do not mention the refinement process." ^ JS.lf ^ JS.lf
  ^ "Refined and Superior Response:".

(** The classification prompt is the one of index.js, letter for letter. *)
Definition getClassificationPrompt (prompt : string) : string :=
  Server.getClassificationPrompt prompt.

(** The adapters never raise.  The cost they compute inside the [try]
    block reads [PRICING[modelName]], which has an entry for the classifier
    and for every model of the two pipelines. *)
Definition getGptResponse (r : Role) (backend : Completion (option string))
    (prompt modelName : string) : M Run :=
  tell (CallOpenAI r modelName [OpenAITurn "user" prompt] false) ;;
  ret (mkRun (gptContent backend)).

Definition getGeminiResponse (r : Role) (backend : Completion string)
    (prompt modelName : string) : M Run :=
  tell (CallGemini r modelName [] prompt false) ;;
  ret (mkRun (geminiContent backend)).

(** What [runDynamicTest] returns, costs and durations apart.  The record
    of a dual failure has no [finalResponse]. *)
Record TestResult := mkTestResult {
  prompt : string;
  constraints : option string;
  pipelineName : string;
  fallbackLog : string;
  classifierReasoning : string;
  gptModel : string;
  geminiModel : string;
  synthModel : string;
  finalResponse : option string;
  gptRun : Run;
  geminiRun : Run;
  txtEntry : string
}.

Definition rule (c : ascii) : string := string_of_list_ascii (repeat c 70).

Definition finalResponseTitle (fallbackLog : string) : string :=
  if JS.includes fallbackLog "Synthesis step failed"
  then "FALLBACK RESPONSE" else "FINAL RESPONSE".

Definition createTxtEntry (prompt : string) (constraints : option string)
    (pipelineName fallbackLog : string) (config : Config)
    (gptRun geminiRun : Run) (finalResponse : string) : string :=
  let finalResponseTitle := finalResponseTitle fallbackLog in
  let constraints := match constraints with Some c => c | None => EmptyString end in
  JS.lf ^ JS.lf ^ rule "#" ^ JS.lf
  ^ "## DYNAMICALLY ROUTED TO: " ^ pipelineName ^ JS.lf
  ^ (if JS.truthy fallbackLog
     then "## FALLBACK TRIGGERED: " ^ fallbackLog ^ JS.lf else EmptyString)
  ^ rule "#" ^ JS.lf
  ^ rule "=" ^ JS.lf
  ^ "== PROMPT: " ^ prompt ^ JS.lf
  ^ (if JS.truthy constraints
     then "== CONSTRAINTS: " ^ constraints ^ JS.lf else EmptyString)
  ^ rule "=" ^ JS.lf
  ^ "--- MODEL A (" ^ gpt config ^ ") RESPONSE ---" ^ JS.lf
  ^ content gptRun ^ JS.lf
  ^ rule "-" ^ JS.lf
  ^ "--- MODEL B (" ^ gemini config ^ ") RESPONSE ---" ^ JS.lf
  ^ content geminiRun ^ JS.lf
  ^ rule "-" ^ JS.lf
  ^ "--- " ^ finalResponseTitle ^ " (using " ^ synthesizer config ^ ") ---" ^ JS.lf
  ^ finalResponse ^ JS.lf.

Definition gptCacheKey (prompt : string) (config : Config) : string :=
  prompt ^ "-" ^ gpt config.

Definition geminiCacheKey (prompt : string) (config : Config) : string :=
  prompt ^ "-" ^ gemini config.

(** Step 2 for one provider: [cache[key] || await runStep(...)], then
    [cache[key] = run]. *)
Definition cached (key : string) (call : M Run) (cache : Cache) : M (Run * Cache) :=
  run <- match cacheGet key cache with
         | Some run => ret run
         | None => call
         end ;;
  ret (run, cacheSet key run cache).

(** Steps 3 to 6 of [runDynamicTest]: from the two base runs to the
    result. *)
Definition fallbackSteps (w : World) (prompt : string)
    (constraints : option string) (pipeline : Pipeline) (reasoning : string)
    (gptRun geminiRun : Run) : M TestResult :=
  let config := config pipeline in
  (* Step 3: Handle fallbacks *)
  let gptFailed := gptFailed (content gptRun) in
  let geminiFailed := geminiFailed (content geminiRun) in
  if gptFailed && geminiFailed
  then
    let fallbackLog := "FALLBACK: Both base models failed." in
    ret (mkTestResult prompt constraints (name pipeline) fallbackLog reasoning
           (gpt config) (gemini config) (synthesizer config) None gptRun geminiRun
           (createTxtEntry prompt constraints (name pipeline) fallbackLog config
              gptRun geminiRun "FATAL: Both base models failed."))
  else
    let '(synthesisPrompt, fallbackLog) :=
      if gptFailed
      then (getRefinementPrompt prompt (content geminiRun) constraints,
            "FALLBACK: GPT-5 base failed. Refining Gemini response.")
      else if geminiFailed
      then (getRefinementPrompt prompt (content gptRun) constraints,
            "FALLBACK: Gemini base failed. Refining GPT-5 response.")
      else (getSynthesisPrompt prompt (content gptRun) (content geminiRun)
              constraints,
            EmptyString) in
    (* Step 4: Run synthesis *)
    let synthesizerModel := synthesizer config in
    synthRun <-
      (if JS.startsWith synthesizerModel "gemini"
       then getGeminiResponse Synthesizer (synthGemini w) synthesisPrompt
              synthesizerModel
       else getGptResponse Synthesizer (synthOpenAI w) synthesisPrompt
              synthesizerModel) ;;
    (* Step 5: Handle synthesizer failure *)
    let '(finalResponse, fallbackLog) :=
      if JS.includes (content synthRun) "ERROR"
      then (if negb gptFailed then content gptRun else content geminiRun,
            fallbackLog ^ (if JS.truthy fallbackLog then " " else EmptyString)
            ^ "FALLBACK: Synthesis step failed; returning "
            ^ (if negb gptFailed then "GPT-5" else "Gemini") ^ " base.")
      else (content synthRun, fallbackLog) in
    (* Step 6: Assemble results *)
    ret (mkTestResult prompt constraints (name pipeline) fallbackLog reasoning
           (gpt config) (gemini config) synthesizerModel (Some finalResponse)
           gptRun geminiRun
           (createTxtEntry prompt constraints (name pipeline) fallbackLog config
              gptRun geminiRun finalResponse)).

(** [runDynamicTest({ prompt, constraints, cache })]: the result and the
    cache as the test leaves it. *)
Definition runDynamicTest (w : World) (prompt : string)
    (constraints : option string) (cache : Cache) : M (TestResult * Cache) :=
  (* Step 1: Classify intent *)
  let classificationPrompt := getClassificationPrompt prompt in
  classifierRun <-
    getGptResponse Classifier (classifierCall w) classificationPrompt
      CLASSIFIER_MODEL ;;
  c <- match parseClassification (content classifierRun) with
       | Some c => ret c
       | None => throw (typeErrorOfUndefined "trim")
       end ;;
  let pipeline := DYNAMIC_PIPELINES (intent c) in
  let config := config pipeline in
  (* Step 2: Get base responses *)
  a <- cached (gptCacheKey prompt config)
         (getGptResponse (Base ModelA) (baseA w) prompt (gpt config)) cache ;;
  let '(gptRun, cache) := a in
  b <- cached (geminiCacheKey prompt config)
         (getGeminiResponse (Base ModelB) (baseB w) prompt (gemini config)) cache ;;
  let '(geminiRun, cache) := b in
  result <- fallbackSteps w prompt constraints pipeline (reasoning c)
              gptRun geminiRun ;;
  ret (result, cache).

End Batch.

(** ** Reading a trace *)

Module Obs.

(** The base task an action belongs to, if any. *)
Definition sideOf (a : Action) : option Side :=
  match a with
  | Send (modelA_chunk _) => Some ModelA
  | Send (modelB_chunk _) => Some ModelB
  | Settled s => Some s
  | _ => None
  end.

Definition isBaseTaskAction (a : Action) : bool :=
  match sideOf a with Some _ => true | None => false end.

(** [done] and [error] are the terminal events. *)
Definition isTerminal (a : Action) : bool :=
  match a with
  | Send (done _) | Send (error _) => true
  | _ => false
  end.

Definition isError (a : Action) : bool :=
  match a with
  | Send (error _) => true
  | _ => false
  end.

(** Everything steps 3 and 4 do before the stream is closed: the fallback
    log, the status line of the synthesis, the request to the synthesizer and
    the synthesis chunks. *)
Definition isSynthesisAction (a : Action) : bool :=
  match a with
  | Send (fallback_log _) | Send (synthesis_chunk _) => true
  | Send (status message) => String.eqb message "Synthesizing final response..."
  | CallOpenAI Synthesizer _ _ _ | CallGemini Synthesizer _ _ _ _ => true
  | _ => false
  end.

(** The prompt of a request to the synthesizer. *)
Definition synthesisPromptOf (a : Action) : option string :=
  match a with
  | CallGemini Synthesizer _ _ message _ => Some message
  | CallOpenAI Synthesizer _ messages _ =>
      match last messages (OpenAITurn EmptyString EmptyString) with
      | OpenAITurn _ content => Some content
      | GeminiTurn _ _ => None
      end
  | _ => None
  end.

Fixpoint collect {X} (f : Action -> option X) (l : list Action) : list X :=
  match l with
  | [] => []
  | a :: l' =>
      match f a with
      | Some x => x :: collect f l'
      | None => collect f l'
      end
  end.

Definition synthesisPrompts : list Action -> list string :=
  collect synthesisPromptOf.

Definition chunksA : list Action -> list string :=
  collect (fun a => match a with Send (modelA_chunk t) => Some t | _ => None end).

Definition chunksB : list Action -> list string :=
  collect (fun a => match a with Send (modelB_chunk t) => Some t | _ => None end).

Definition fallbackLogs : list Action -> list string :=
  collect (fun a => match a with Send (fallback_log t) => Some t | _ => None end).

Definition synthesisChunks : list Action -> list string :=
  collect (fun a => match a with Send (synthesis_chunk t) => Some t | _ => None end).

(** The actions that close the response: a JSON answer, or [res.end()]. *)
Definition isClosing (a : Action) : bool :=
  match a with
  | Json _ _ | End => true
  | _ => false
  end.

(** The call site of a request to a backend. *)
Definition roleOf (a : Action) : option Role :=
  match a with
  | CallOpenAI r _ _ _ | CallGemini r _ _ _ _ => Some r
  | _ => None
  end.

(** The requests of a trace, by call site, in order. *)
Definition calls : list Action -> list Role := collect roleOf.

Definition isOpenAITurn (t : ApiTurn) : bool :=
  match t with OpenAITurn _ _ => true | GeminiTurn _ _ => false end.

Definition isGeminiTurn (t : ApiTurn) : bool :=
  match t with GeminiTurn _ [_] => true | _ => false end.

(** A request goes to the backend its model name stands for, with the turns
    in the schema of that backend. *)
Definition wellRouted (a : Action) : bool :=
  match a with
  | CallOpenAI _ model messages _ =>
      negb (JS.startsWith model "gemini") && forallb isOpenAITurn messages
  | CallGemini _ model history _ _ =>
      JS.startsWith model "gemini" && forallb isGeminiTurn history
  | _ => true
  end.

(** The turn a backend turn stands for. *)
Definition turnOfApi (t : ApiTurn) : option Turn :=
  match t with
  | OpenAITurn role content => Some (mkTurn role content)
  | GeminiTurn role [text] => Some (mkTurn role text)
  | GeminiTurn _ _ => None
  end.

(** The join comes first: whatever synthesis action a trace holds, both base
    promises are settled before it, and no action of a base task comes
    with or after it. *)
Definition JoinFirst (l : list Action) : Prop :=
  forall l1 a l2,
    l = l1 ++ a :: l2 -> isSynthesisAction a = true ->
    In (Settled ModelA) l1 /\ In (Settled ModelB) l1 /\
    forallb (fun b => negb (isBaseTaskAction b)) (a :: l2) = true.

(** The four ways out of the fallback decision. *)
Inductive FallbackDecision :=
  | DualFailureAbort
  | RefineB
  | RefineA
  | SynthesizeBoth.

Definition decide (aFailed bFailed : bool) : FallbackDecision :=
  match aFailed, bFailed with
  | true, true => DualFailureAbort
  | true, false => RefineB
  | false, true => RefineA
  | false, false => SynthesizeBoth
  end.

Definition isSome {X} (o : option X) : bool :=
  match o with Some _ => true | None => false end.

(** [l] interleaves [l1] and [l2], each in its own order. *)
Inductive Merge {X : Type} : list X -> list X -> list X -> Prop :=
  | merge_nil : Merge [] [] []
  | merge_left x l1 l2 l : Merge l1 l2 l -> Merge (x :: l1) l2 (x :: l)
  | merge_right x l1 l2 l : Merge l1 l2 l -> Merge l1 (x :: l2) (x :: l).

End Obs.

(** What the streaming endpoint is expected to leave behind for its tasks. *)
Module StreamObs.
Import Stream.

Definition chunkEvent (s : Side) (text : string) : Action :=
  match s with
  | ModelA => Send (modelA_chunk text)
  | ModelB => Send (modelB_chunk text)
  end.

(** All a task does from a point on: its chunks, the marker of its [catch]
    clause when the stream raises, and its settlement. *)
Definition taskActions (s : Side) (t : Task) : list Action :=
  match t with
  | Running rest raises =>
      map (chunkEvent s) rest
      ++ match raises with
         | Some _ => fst (onCatch s vars0)
         | None => []
         end
      ++ [Settled s]
  | Finished => []
  end.

Definition restOf (t : Task) : list string :=
  match t with Running rest _ => rest | Finished => [] end.

Definition raisesOf (t : Task) : bool :=
  match t with Running _ (Some _) => true | _ => false end.

(** The variables once both tasks are finished. *)
Definition after (ta tb : Task) (v : Vars) : Vars :=
  mkVars (gptResult v ^ concatText (restOf ta))
         (geminiResult v ^ concatText (restOf tb))
         (gptFailed v || raisesOf ta)
         (geminiFailed v || raisesOf tb).

Definition taskA (w : World) : Task :=
  Running (map deltaText (fragments (baseA w))) (raises (baseA w)).

Definition taskB (w : World) : Task :=
  Running (fragments (baseB w)) (raises (baseB w)).

(** The variables at the join of a run. *)
Definition joined (w : World) : Vars := after (taskA w) (taskB w) vars0.

(** The text the classifier adapter hands to the parser. *)
Definition classifierText (w : World) : string :=
  match raises (classifierCall w) with
  | Some _ => "ERROR: OpenAI API call failed for model " ^ CLASSIFIER_MODEL ^ "."
  | None => concatText (map deltaText (fragments (classifierCall w)))
  end.

(** Whether the synthesizer of a pipeline raises in this world. *)
Definition synthesizerRaises (w : World) (config : Config) : bool :=
  if JS.startsWith (synthesizer config) "gemini"
  then match raises (synthGemini w) with Some _ => true | None => false end
  else match raises (synthOpenAI w) with Some _ => true | None => false end.

(** The request step 4 sends to the synthesizer of a pipeline. *)
Definition synthesisCall (config : Config) (h : list Turn) (synthesisPrompt : string)
  : Action :=
  if JS.startsWith (synthesizer config) "gemini"
  then CallGemini Synthesizer (synthesizer config)
         (convertHistoryForApi (Some h) "gemini") synthesisPrompt true
  else CallOpenAI Synthesizer (synthesizer config)
         (convertHistoryForApi (Some h) "openai"
          ++ [OpenAITurn "user" synthesisPrompt]) true.

(** The fragments the synthesizer of a pipeline delivers in this world. *)
Definition synthesizerTexts (w : World) (config : Config) : list string :=
  if JS.startsWith (synthesizer config) "gemini"
  then fragments (synthGemini w)
  else map deltaText (fragments (synthOpenAI w)).

(** The label put in front of a base result shown in place of a synthesis. *)
Definition fallbackLabel : string :=
  JS.lf ^ JS.lf ^ "--- SYNTHESIS FAILED ---" ^ JS.lf
  ^ "Displaying best available base response:" ^ JS.lf ^ JS.lf.

Definition synthesisFailedNote : string :=
  " Synthesis step failed. Displaying best available response.".

(** The events before the base calls, for a classification [c]. *)
Definition prelude (prompt : string) (h : list Turn) (c : Classification)
  : list Action :=
  [ FlushHeaders;
    Send (status "Classifying prompt intent...");
    CallOpenAI Classifier CLASSIFIER_MODEL
      [OpenAITurn "user" (getClassificationPrompt prompt (Some h))] false;
    Send (initial_data (name (DYNAMIC_PIPELINES (intent c))) (reasoning c));
    Send (status "Generating base responses...") ].

Definition baseCalls (prompt : string) (h : list Turn) (config : Config)
  : list Action :=
  [ CallOpenAI (Base ModelA) (gpt config)
      (convertHistoryForApi (Some h) "openai" ++ [OpenAITurn "user" prompt]) true;
    CallGemini (Base ModelB) (gemini config)
      (convertHistoryForApi (Some h) "gemini") prompt true ].

(** The same world with another answer of base A, or of base B. *)
Definition withBaseA (w : World) (c : Completion (option string)) : World :=
  mkWorld (classifierCall w) c (baseB w) (synthOpenAI w) (synthGemini w)
    (schedule w).

Definition withBaseB (w : World) (c : Completion string) : World :=
  mkWorld (classifierCall w) (baseA w) c (synthOpenAI w) (synthGemini w)
    (schedule w).

(** The same world with another order of resumptions. *)
Definition withSchedule (w : World) (schedule : list bool) : World :=
  mkWorld (classifierCall w) (baseA w) (baseB w) (synthOpenAI w) (synthGemini w)
    schedule.

(** No newline in the content of a turn. *)
Definition oneLine (turn : Turn) : bool :=
  negb (JS.includes (content turn) JS.lf).

(** A request the endpoint accepts: a non-empty prompt and a history. *)
Definition accepted (req : Request) : bool :=
  match prompt req, chatHistory req with
  | Some p, Some _ => JS.truthy p
  | _, _ => false
  end.

End StreamObs.

(** What the one-shot endpoint is expected to leave behind. *)
Module ServerObs.
Import Server.

Definition classifierText (w : World) : string :=
  match raises (classifierCall w) with
  | Some _ => "ERROR: OpenAI API call failed for model " ^ CLASSIFIER_MODEL ^ "."
  | None => concatText (map deltaText (fragments (classifierCall w)))
  end.

(** The text [getGptResponse] returns for base A. *)
Definition gptText (w : World) (config : Config) : string :=
  match raises (baseA w) with
  | Some _ => "ERROR: OpenAI API call failed for model " ^ gpt config ^ "."
  | None => concatText (map deltaText (fragments (baseA w)))
  end.

(** The text [getGeminiResponse] returns for base B. *)
Definition geminiText (w : World) (config : Config) : string :=
  match raises (baseB w) with
  | Some _ => "ERROR: Google AI API call failed for model " ^ gemini config ^ "."
  | None => concatText (fragments (baseB w))
  end.

(** The actions before steps 4 and 5, for a classification [c]. *)
Definition prelude (w : World) (prompt : string) (c : Classification)
  : list Action :=
  let config := config (DYNAMIC_PIPELINES (intent c)) in
  [ gptRequest Classifier (getClassificationPrompt prompt) CLASSIFIER_MODEL;
    gptRequest (Base ModelA) prompt (gpt config);
    geminiRequest (Base ModelB) prompt (gemini config) ]
  ++ (if aSettlesFirst w
      then [Settled ModelA; Settled ModelB]
      else [Settled ModelB; Settled ModelA]).

(** The log of step 4 when exactly one base text is taken as failed. *)
Definition unavailableLog : string :=
  "A primary model was unavailable. Refining the best available response.".

(** The request step 5 sends to the synthesizer of a pipeline. *)
Definition synthesisCall (config : Config) (synthesisPrompt : string) : Action :=
  if JS.startsWith (synthesizer config) "gemini"
  then geminiRequest Synthesizer synthesisPrompt (synthesizer config)
  else gptRequest Synthesizer synthesisPrompt (synthesizer config).

(** The text the adapter of the synthesizer returns. *)
Definition synthesizerText (w : World) (config : Config) : string :=
  if JS.startsWith (synthesizer config) "gemini"
  then match raises (synthGemini w) with
       | Some _ => "ERROR: Google AI API call failed for model "
                   ^ synthesizer config ^ "."
       | None => concatText (fragments (synthGemini w))
       end
  else match raises (synthOpenAI w) with
       | Some _ => "ERROR: OpenAI API call failed for model "
                   ^ synthesizer config ^ "."
       | None => concatText (map deltaText (fragments (synthOpenAI w)))
       end.

(** What step 5 appends to the fallback log [log]. *)
Definition synthesisNote (w : World) (config : Config) (log : string) : string :=
  if JS.includes (synthesizerText w config) "ERROR"
  then (if JS.truthy log then " " else EmptyString)
       ^ "The final synthesis step failed. Displaying the best available response."
  else EmptyString.

(** The answers of a trace, in order. *)
Definition answers : list Action -> list (nat * JsonBody) :=
  Obs.collect (fun a => match a with Json code body => Some (code, body) | _ => None end).

Definition fallbackLogOf (body : JsonBody) : string :=
  match body with
  | ResultBody _ _ _ _ fallbackLog _ => fallbackLog
  | ErrorBody _ => EmptyString
  end.

Definition pipelineNameOf (body : JsonBody) : string :=
  match body with
  | ResultBody _ _ _ pipelineName _ _ => pipelineName
  | ErrorBody _ => EmptyString
  end.

Definition finalResponseOf (body : JsonBody) : string :=
  match body with
  | ResultBody finalResponse _ _ _ _ _ => finalResponse
  | ErrorBody _ => EmptyString
  end.

End ServerObs.

(** What a test of the evaluation script is expected to leave behind. *)
Module BatchObs.
Import Batch.

(** The last unit of a string. *)
Fixpoint lastUnit (s : string) : option ascii :=
  match s with
  | EmptyString => None
  | String c EmptyString => Some c
  | String _ s' => lastUnit s'
  end.

(** The pipeline a test is routed to. *)
Definition pipelineOf (w : World) : Pipeline :=
  DYNAMIC_PIPELINES (SpecRule.intentOf (gptContent (classifierCall w))).

(** The run of base A a test works with: the cached one when the cache has
    its key, the answer of the backend otherwise; likewise for base B. *)
Definition runA (w : World) (prompt : string) (cache : Cache) : Run :=
  match cacheGet (gptCacheKey prompt (config (pipelineOf w))) cache with
  | Some run => run
  | None => mkRun (gptContent (baseA w))
  end.

Definition runB (w : World) (prompt : string) (cache : Cache) : Run :=
  match cacheGet (geminiCacheKey prompt (config (pipelineOf w))) cache with
  | Some run => run
  | None => mkRun (geminiContent (baseB w))
  end.

(** The content of the run of the synthesizer. *)
Definition synthContent (w : World) (config : Config) : string :=
  if JS.startsWith (synthesizer config) "gemini"
  then geminiContent (synthGemini w)
  else gptContent (synthOpenAI w).

(** The same world with other answers of the two base models. *)
Definition withBases (w : World) (a : Completion (option string))
    (b : Completion string) : World :=
  mkWorld (classifierCall w) a b (synthOpenAI w) (synthGemini w).

End BatchObs.

(** ** Concrete requests and backends *)

Module Fixtures.

Definition answers {X} (l : list X) : Completion X := mkCompletion l None.

Definition breaks {X} (l : list X) : Completion X :=
  mkCompletion l (Some "socket hang up").

Definition tcp : string := "Explain TCP congestion control".

(** The history ends with the turn just submitted. *)
Definition request : Request :=
  mkRequest (Some tcp) None (Some [mkTurn "user" tcp]).

(** The same prompt, the [chatHistory] field left out. *)
Definition requestNoHistory : Request := mkRequest (Some tcp) None None.

Definition factualLabel : Completion (option string) :=
  answers [Some ("Reasoning: a technical explanation." ^ JS.lf); Some "FACTUAL"].

Definition draftA : Completion (option string) :=
  answers [None; Some "TCP probes "; Some "for bandwidth."].

Definition draftB : Completion string :=
  answers ["AIMD: additive increase, "; "multiplicative decrease."].

(** Every backend answers. *)
Definition healthy : Stream.World :=
  Stream.mkWorld factualLabel draftA draftB
    (answers [Some "TCP adapts "; Some "its window."]) (answers ["unused"])
    [true; false; false; true].

(** Both base calls raise at once. *)
Definition bothDown : Stream.World :=
  Stream.mkWorld factualLabel (breaks []) (breaks [])
    (answers [Some "unused"]) (answers ["unused"]) [false; true].

(** The classifier call raises; everything else answers. *)
Definition classifierDown : Stream.World :=
  Stream.mkWorld (breaks []) draftA draftB
    (answers [Some "TCP adapts "; Some "its window."]) (answers ["unused"])
    [true; true; false].

(** Base A raises after a first fragment; B answers. *)
Definition aBreaks : Stream.World :=
  Stream.mkWorld factualLabel (breaks [Some "TCP pro"]) draftB
    (answers [Some "Refined."]) (answers ["unused"]) [false; true; true].

(** Base B raises at once and the synthesizer raises after a fragment. *)
Definition synthesizerDown : Stream.World :=
  Stream.mkWorld factualLabel draftA (breaks [])
    (breaks [Some "TCP ad"]) (answers ["unused"]) [true].

Definition request404 : Request :=
  mkRequest (Some "What does HTTP status 404 mean?") None None.

(** The one-shot endpoint: base A answers a text that speaks of an error. *)
Definition aMentionsError : Server.World :=
  Server.mkWorld factualLabel
    (answers [Some "A 404 ERROR means the page was not found."])
    (answers ["HTTP 404: not found."])
    (answers [Some "Refined."]) (answers ["unused"]) true.

Definition serverClassifierDown : Server.World :=
  Server.mkWorld (breaks []) (answers [Some "draft A"]) (answers ["draft B"])
    (answers [Some "Merged."]) (answers ["unused"]) false.

Definition serverADown : Server.World :=
  Server.mkWorld factualLabel (breaks []) (answers ["draft B"])
    (answers [Some "Refined B."]) (answers ["unused"]) true.

Definition serverBDown : Server.World :=
  Server.mkWorld factualLabel (answers [Some "draft A"]) (breaks [])
    (answers [Some "Refined A."]) (answers ["unused"]) true.

Definition serverSynthDown : Server.World :=
  Server.mkWorld factualLabel (answers [Some "draft A"]) (answers ["draft B"])
    (breaks []) (answers ["unused"]) true.

Definition batchWorld : Batch.World :=
  Batch.mkWorld factualLabel (answers [Some "draft A"]) (breaks [])
    (breaks []) (answers ["unused"]).

End Fixtures.

(** * Properties *)

(** ** Strings *)

Section StringFacts.

Lemma trimEnd_empty_or_last (s : string) :
  JS.trimEnd s = EmptyString \/
  exists p c, JS.trimEnd s = p ^ String c EmptyString /\ JS.isWhiteSpace c = false.
Proof.
  induction s as [|c s IH]; simpl; [now left|].
  destruct (JS.trimEnd s) as [|d r] eqn:E.
  - destruct (JS.isWhiteSpace c) eqn:W; [now left|].
    right. exists EmptyString, c. now split.
  - right. destruct IH as [IH|(p & e & Hp & He)]; [discriminate|].
    exists (String c p), e. split; [|exact He]. simpl. now rewrite Hp.
Qed.

Lemma split_not_nil (sep : ascii) (s : string) : JS.split sep s <> [].
Proof.
  destruct s as [|c s]; simpl; [discriminate|].
  destruct (Ascii.eqb c sep); [discriminate|].
  destruct (JS.split sep s); discriminate.
Qed.

(** A string that ends in a unit other than the separator has a last
    segment that ends in that unit. *)
Lemma split_last_segment (sep : ascii) (p : string) (c : ascii) :
  Ascii.eqb c sep = false ->
  exists q, last (JS.split sep (p ^ String c EmptyString)) EmptyString
            = q ^ String c EmptyString.
Proof.
  intros Hc. induction p as [|d p IH]; simpl.
  - rewrite Hc. simpl. now exists EmptyString.
  - destruct IH as (q & Hq).
    pose proof (split_not_nil sep (p ^ String c EmptyString)) as Hne.
    destruct (Ascii.eqb d sep).
    + destruct (JS.split sep (p ^ String c EmptyString)) as [|h t] eqn:E;
        [contradiction|].
      exists q. exact Hq.
    + destruct (JS.split sep (p ^ String c EmptyString)) as [|h t] eqn:E;
        [contradiction|].
      destruct t as [|h' t'].
      * simpl in Hq. subst h. now exists (String d q).
      * exists q. exact Hq.
Qed.

Lemma pop_last {X} (l : list X) (d : X) :
  l <> [] -> fst (JS.pop l) = Some (last l d).
Proof.
  induction l as [|x l IH]; [contradiction|]. intros _.
  destruct l as [|y l]; [reflexivity|].
  change (JS.pop (x :: y :: l))
    with (let (r, rest) := JS.pop (y :: l) in (r, x :: rest)).
  change (last (x :: y :: l) d) with (last (y :: l) d).
  specialize (IH ltac:(discriminate)).
  destruct (JS.pop (y :: l)) as [r rest]. exact IH.
Qed.

Lemma append_unit_not_empty (q : string) (c : ascii) :
  q ^ String c EmptyString <> EmptyString.
Proof. destruct q; discriminate. Qed.

Lemma rev_filter_last (f : string -> bool) (l : list string) (d : string) :
  l <> [] -> f (last l d) = true ->
  exists t, rev (filter f l) = last l d :: t.
Proof.
  intros Hne Hf.
  destruct (exists_last Hne) as (l' & x & ->).
  rewrite last_last in *. rewrite filter_app, rev_app_distr. simpl.
  rewrite Hf. simpl. eauto.
Qed.

Lemma isWhiteSpace_toUpperChar (c : ascii) :
  JS.isWhiteSpace (JS.toUpperChar c) = JS.isWhiteSpace c.
Proof.
  destruct c as [[] [] [] [] [] [] [] []]; reflexivity.
Qed.

Lemma toUpperCase_trimStart (s : string) :
  JS.toUpperCase (JS.trimStart s) = JS.trimStart (JS.toUpperCase s).
Proof.
  induction s as [|c s IH]; simpl; [reflexivity|].
  rewrite isWhiteSpace_toUpperChar.
  destruct (JS.isWhiteSpace c); [exact IH | reflexivity].
Qed.

Lemma toUpperCase_trimEnd (s : string) :
  JS.toUpperCase (JS.trimEnd s) = JS.trimEnd (JS.toUpperCase s).
Proof.
  induction s as [|c s IH]; simpl; [reflexivity|].
  rewrite <- IH, isWhiteSpace_toUpperChar.
  destruct (JS.trimEnd s); simpl; [|reflexivity].
  destruct (JS.isWhiteSpace c); reflexivity.
Qed.

Lemma prefix_trimEnd (p s : string) :
  solid p = true -> String.prefix p (JS.trimEnd s) = String.prefix p s.
Proof.
  revert p. induction s as [|c s IH]; intros p Hp; [reflexivity|].
  destruct p as [|a p]; [now destruct (JS.trimEnd (String c s))|].
  simpl in Hp. apply andb_prop in Hp as [Ha Hp].
  simpl. specialize (IH p Hp).
  destruct (JS.trimEnd s) as [|d r] eqn:E.
  - destruct (JS.isWhiteSpace c) eqn:W.
    + simpl. destruct (ascii_dec a c) as [->|]; [|reflexivity].
      rewrite W in Ha. discriminate.
    + simpl. destruct (ascii_dec a c); [|reflexivity]. exact IH.
  - simpl. destruct (ascii_dec a c); [|reflexivity]. exact IH.
Qed.

Lemma includes_trimEnd (p s : string) :
  solid p = true -> JS.includes (JS.trimEnd s) p = JS.includes s p.
Proof.
  intros Hp. induction s as [|c s IH]; [reflexivity|].
  pose proof (prefix_trimEnd p (String c s) Hp) as HP.
  cbn [JS.includes]. rewrite <- HP, <- IH.
  cbn [JS.trimEnd] in *.
  destruct (JS.trimEnd s) as [|d r] eqn:E.
  - destruct (JS.isWhiteSpace c).
    + cbn [JS.includes]. now rewrite orb_diag.
    + reflexivity.
  - reflexivity.
Qed.

Lemma includes_trimStart (a : ascii) (p s : string) :
  JS.isWhiteSpace a = false ->
  JS.includes (JS.trimStart s) (String a p) = JS.includes s (String a p).
Proof.
  intros Ha. induction s as [|c s IH]; [reflexivity|].
  cbn [JS.trimStart]. destruct (JS.isWhiteSpace c) eqn:W; [|reflexivity].
  rewrite IH. cbn [JS.includes String.prefix].
  destruct (ascii_dec a c) as [->|]; [|reflexivity].
  rewrite W in Ha. discriminate.
Qed.

Lemma includes_upper_trim (l : string) :
  JS.includes (JS.toUpperCase (JS.trim l)) "CREATIVE"
  = JS.includes (JS.toUpperCase l) "CREATIVE".
Proof.
  unfold JS.trim.
  rewrite toUpperCase_trimEnd, toUpperCase_trimStart.
  rewrite includes_trimEnd by reflexivity.
  now apply includes_trimStart.
Qed.

End StringFacts.

(** ** Classification *)

Lemma parseClassification_last (response : string) :
  exists c,
    parseClassification response = Some c /\
    finalClassification c =
      JS.toUpperCase (JS.trim
        (last (JS.split JS.nl (JS.trim response)) EmptyString)) /\
    intent c =
      (if JS.includes (finalClassification c) "CREATIVE" then CREATIVE else FACTUAL).
Proof.
  unfold parseClassification.
  pose proof (pop_last (JS.split JS.nl (JS.trim response)) EmptyString
                (split_not_nil _ _)) as H.
  destruct (JS.pop (JS.split JS.nl (JS.trim response))) as [[x|] rest];
    simpl in H; [|discriminate].
  injection H as ->. eexists. split; [reflexivity|]. split; reflexivity.
Qed.

Lemma parseClassification_total (response : string) :
  parseClassification response <> None.
Proof.
  destruct (parseClassification_last response) as (c & -> & _). discriminate.
Qed.

Lemma lastNonEmptyLine_trim (response : string) :
  (JS.trim response = EmptyString /\
   SpecRule.lastNonEmptyLine (JS.trim response) = None) \/
  SpecRule.lastNonEmptyLine (JS.trim response)
  = Some (last (JS.split JS.nl (JS.trim response)) EmptyString).
Proof.
  unfold SpecRule.lastNonEmptyLine, JS.trim.
  destruct (trimEnd_empty_or_last (JS.trimStart response))
    as [->|(p & c & -> & Hc)]; [now left|right].
  assert (Hsep : Ascii.eqb c JS.nl = false).
  { destruct (Ascii.eqb_spec c JS.nl) as [->|]; [discriminate | reflexivity]. }
  destruct (split_last_segment JS.nl p c Hsep) as (q & Hq).
  destruct (rev_filter_last SpecRule.nonEmpty
              (JS.split JS.nl (p ^ String c EmptyString)) EmptyString
              (split_not_nil _ _)) as (t & ->); [|reflexivity].
  rewrite Hq. unfold SpecRule.nonEmpty.
  destruct (String.eqb_spec (q ^ String c EmptyString) EmptyString) as [E|];
    [|reflexivity].
  now apply append_unit_not_empty in E.
Qed.

Lemma parseClassification_spec (response : string) :
  exists c,
    parseClassification response = Some c /\
    intent c = SpecRule.intentOf response.
Proof.
  destruct (parseClassification_last response) as (c & Hc & Hfin & Hint).
  exists c. split; [exact Hc|].
  rewrite Hfin, includes_upper_trim in Hint. unfold SpecRule.intentOf.
  destruct (lastNonEmptyLine_trim response) as [[E ->]| ->]; [|exact Hint].
  rewrite E in Hint. exact Hint.
Qed.

(** ** The monad *)

Section MonadFacts.

Context {X Y : Type}.

Lemma bind_val (m : M X) (k : X -> M Y) (x : X) :
  snd m = Val x ->
  bind m k = (trace m ++ trace (k x), snd (k x)).
Proof.
  destruct m as [l r]. simpl. intros ->. unfold trace. simpl.
  now destruct (k x).
Qed.

Lemma bind_exc (m : M X) (k : X -> M Y) (e : string) :
  snd m = Exc e -> bind m k = (trace m, Exc e).
Proof. destruct m as [l r]. simpl. now intros ->. Qed.

Lemma tryCatch_val (m : M X) (h : string -> M X) (x : X) :
  snd m = Val x -> tryCatch m h = m.
Proof. destruct m as [l r]. simpl. now intros ->. Qed.

Lemma tryCatch_exc (m : M X) (h : string -> M X) (e : string) :
  snd m = Exc e -> tryCatch m h = (trace m ++ trace (h e), snd (h e)).
Proof.
  destruct m as [l r]. simpl. intros ->. unfold trace. simpl.
  now destruct (h e).
Qed.

End MonadFacts.

Lemma append_assoc (a b c : string) : (a ^ b) ^ c = a ^ b ^ c.
Proof. induction a as [|x a IH]; simpl; [reflexivity | now rewrite IH]. Qed.

Lemma append_empty (a : string) : a ^ EmptyString = a.
Proof. induction a as [|x a IH]; simpl; [reflexivity | now rewrite IH]. Qed.

Lemma concatText_app (l1 l2 : list string) :
  concatText (l1 ++ l2) = concatText l1 ^ concatText l2.
Proof.
  induction l1 as [|x l1 IH]; simpl; [reflexivity|].
  now rewrite IH, append_assoc.
Qed.

(** ** Interleavings *)

Section MergeFacts.

Import Obs.
Context {X : Type}.

Lemma Merge_nil_l (l : list X) : Merge [] l l.
Proof. induction l; constructor; assumption. Qed.

Lemma Merge_nil_r (l : list X) : Merge l [] l.
Proof. induction l; constructor; assumption. Qed.

Lemma Merge_app (l1 l2 : list X) : Merge l1 l2 (l1 ++ l2).
Proof. induction l1; simpl; [apply Merge_nil_l | now constructor]. Qed.

Lemma Merge_prefix_left (p l1 l2 l : list X) :
  Merge l1 l2 l -> Merge (p ++ l1) l2 (p ++ l).
Proof. intros H. induction p; simpl; [exact H | now constructor]. Qed.

Lemma Merge_prefix_right (p l1 l2 l : list X) :
  Merge l1 l2 l -> Merge l1 (p ++ l2) (p ++ l).
Proof. intros H. induction p; simpl; [exact H | now constructor]. Qed.

Lemma Merge_In (l1 l2 l : list X) (x : X) :
  Merge l1 l2 l -> (In x l <-> In x l1 \/ In x l2).
Proof.
  induction 1; simpl; [tauto | tauto | tauto].
Qed.

(** What a filter keeps of an interleaving, when it keeps all of one side
    and nothing of the other. *)
Lemma Merge_filter_left (f : X -> bool) (l1 l2 l : list X) :
  Merge l1 l2 l ->
  forallb f l1 = true -> forallb (fun x => negb (f x)) l2 = true ->
  filter f l = l1.
Proof.
  induction 1; simpl; intros H1 H2; [reflexivity| |].
  - apply andb_prop in H1 as [Hx H1]. rewrite Hx. f_equal. now apply IHMerge.
  - apply andb_prop in H2 as [Hx H2].
    destruct (f x); [discriminate|]. now apply IHMerge.
Qed.

End MergeFacts.

(** ** The two base tasks and their join *)

Section BaseTasks.

Import Obs Stream StreamObs.

Lemma vars_eta (v : Vars) :
  mkVars (gptResult v) (geminiResult v) (gptFailed v) (geminiFailed v) = v.
Proof. now destruct v. Qed.

Lemma after_finished (v : Vars) : after Finished Finished v = v.
Proof.
  unfold after. simpl. rewrite !append_empty, !orb_false_r. apply vars_eta.
Qed.

(** One resumption peels its actions off the task and keeps the join. *)
Lemma resume_A (rest : list string) (raises : option string) (v : Vars) :
  forall l ta' v', resume ModelA rest raises v = (l, ta', v') ->
  taskActions ModelA (Running rest raises) = l ++ taskActions ModelA ta' /\
  forall tb, after (Running rest raises) tb v = after ta' tb v'.
Proof.
  intros l ta' v' H. destruct rest as [|text rest]; simpl in H.
  - destruct raises as [e|]; injection H as <- <- <-; simpl.
    + split; [reflexivity|]. intros tb. unfold after. simpl.
      now rewrite orb_true_r.
    + split; [reflexivity|]. intros tb. reflexivity.
  - injection H as <- <- <-. simpl. split; [reflexivity|].
    intros tb. unfold after. simpl. now rewrite append_assoc.
Qed.

Lemma resume_B (rest : list string) (raises : option string) (v : Vars) :
  forall l tb' v', resume ModelB rest raises v = (l, tb', v') ->
  taskActions ModelB (Running rest raises) = l ++ taskActions ModelB tb' /\
  forall ta, after ta (Running rest raises) v = after ta tb' v'.
Proof.
  intros l tb' v' H. destruct rest as [|text rest]; simpl in H.
  - destruct raises as [e|]; injection H as <- <- <-; simpl.
    + split; [reflexivity|]. intros ta. unfold after. simpl.
      now rewrite orb_true_r.
    + split; [reflexivity|]. intros ta. reflexivity.
  - injection H as <- <- <-. simpl. split; [reflexivity|].
    intros ta. unfold after. simpl. now rewrite append_assoc.
Qed.

Lemma runToEnd_A (rest : list string) (raises : option string) (v : Vars) :
  runToEnd ModelA rest raises v
  = (taskActions ModelA (Running rest raises), after (Running rest raises) Finished v).
Proof.
  revert v. induction rest as [|text rest IH]; intros v.
  - destruct raises; simpl; unfold after; simpl;
      rewrite ?append_empty, ?orb_false_r, ?orb_true_r;
      now destruct v.
  - simpl. rewrite IH. simpl. f_equal. unfold after. simpl.
    now rewrite append_assoc.
Qed.

Lemma runToEnd_B (rest : list string) (raises : option string) (v : Vars) :
  runToEnd ModelB rest raises v
  = (taskActions ModelB (Running rest raises), after Finished (Running rest raises) v).
Proof.
  revert v. induction rest as [|text rest IH]; intros v.
  - destruct raises; simpl; unfold after; simpl;
      rewrite ?append_empty, ?orb_false_r, ?orb_true_r;
      now destruct v.
  - simpl. rewrite IH. simpl. f_equal. unfold after. simpl.
    now rewrite append_assoc.
Qed.

Lemma finish_A (ta : Task) (v : Vars) :
  finish ModelA ta v = (taskActions ModelA ta, after ta Finished v).
Proof.
  destruct ta; simpl; [apply runToEnd_A | now rewrite after_finished].
Qed.

Lemma finish_B (tb : Task) (v : Vars) :
  finish ModelB tb v = (taskActions ModelB tb, after Finished tb v).
Proof.
  destruct tb; simpl; [apply runToEnd_B | now rewrite after_finished].
Qed.

Lemma after_split (ta tb : Task) (v : Vars) :
  after Finished tb (after ta Finished v) = after ta tb v.
Proof.
  unfold after. simpl. now rewrite !append_empty, !orb_false_r.
Qed.

(** Whatever the schedule, the join is reached with both tasks run to
    their end: the actions of the wait interleave all the actions of A
    with all those of B, and the variables hold the whole of each text. *)
Lemma promiseAll_spec (sched : list bool) :
  forall ta tb v, exists l,
    promiseAll sched ta tb v = (l, after ta tb v) /\
    Merge (taskActions ModelA ta) (taskActions ModelB tb) l.
Proof.
  induction sched as [|pickA sched IH]; intros ta tb v.
  - simpl. rewrite finish_A, finish_B, after_split.
    eexists. split; [reflexivity | apply Merge_app].
  - assert (stepA : forall rest raises,
      ta = Running rest raises ->
      exists l,
        (let '(l0, ta', v') := resume ModelA rest raises v in
         let (l', v'') := promiseAll sched ta' tb v' in (l0 ++ l', v''))
        = (l, after ta tb v) /\
        Merge (taskActions ModelA ta) (taskActions ModelB tb) l).
    { intros rest raises ->.
      destruct (resume ModelA rest raises v) as [[l0 ta'] v'] eqn:R.
      destruct (resume_A _ _ _ _ _ _ R) as [Hact Haft].
      destruct (IH ta' tb v') as (l' & -> & HM).
      exists (l0 ++ l'). rewrite Haft, Hact. split; [reflexivity|].
      now apply Merge_prefix_left. }
    assert (stepB : forall rest raises,
      tb = Running rest raises ->
      exists l,
        (let '(l0, tb', v') := resume ModelB rest raises v in
         let (l', v'') := promiseAll sched ta tb' v' in (l0 ++ l', v''))
        = (l, after ta tb v) /\
        Merge (taskActions ModelA ta) (taskActions ModelB tb) l).
    { intros rest raises ->.
      destruct (resume ModelB rest raises v) as [[l0 tb'] v'] eqn:R.
      destruct (resume_B _ _ _ _ _ _ R) as [Hact Haft].
      destruct (IH ta tb' v') as (l' & -> & HM).
      exists (l0 ++ l'). rewrite Haft, Hact. split; [reflexivity|].
      now apply Merge_prefix_right. }
    destruct ta as [restA raisesA|], tb as [restB raisesB|].
    + cbn [promiseAll]. destruct pickA.
      * exact (stepA _ _ eq_refl).
      * exact (stepB _ _ eq_refl).
    + exact (stepA _ _ eq_refl).
    + exact (stepB _ _ eq_refl).
    + exists []. simpl. rewrite after_finished. split; [reflexivity | constructor].
Qed.

Lemma baseGeneration_spec (w : World) (prompt : string) (config : Config)
    (h : list Turn) :
  exists l,
    baseGeneration w prompt config h
    = (CallOpenAI (Base ModelA) (gpt config)
         (convertHistoryForApi (Some h) "openai" ++ [OpenAITurn "user" prompt]) true
       :: CallGemini (Base ModelB) (gemini config)
            (convertHistoryForApi (Some h) "gemini") prompt true
       :: l,
       Val (joined w)) /\
    Merge (taskActions ModelA (taskA w)) (taskActions ModelB (taskB w)) l.
Proof.
  unfold baseGeneration.
  destruct (promiseAll_spec (schedule w) (taskA w) (taskB w) vars0)
    as (l & Hl & HM).
  exists l. split; [|exact HM].
  unfold taskA, taskB in Hl. rewrite Hl. reflexivity.
Qed.

End BaseTasks.

(** ** The streaming handler, phase by phase *)

Section StreamPhases.

Import Obs Stream StreamObs.

Lemma getGptResponse_spec (r : Role) (backend : Completion (option string))
    (prompt modelName : string) (hist : list ApiTurn) :
  getGptResponse r backend prompt modelName hist
  = ([CallOpenAI r modelName (hist ++ [OpenAITurn "user" prompt]) false],
     Val match raises backend with
         | Some _ => "ERROR: OpenAI API call failed for model " ^ modelName ^ "."
         | None => concatText (map deltaText (fragments backend))
         end).
Proof.
  unfold getGptResponse, awaitOneShot. now destruct (raises backend).
Qed.

Lemma forAwaitSynthesis_spec (rest : list string) (raises : option string) :
  forAwaitSynthesis rest raises
  = (map (fun t => Send (synthesis_chunk t)) rest,
     match raises with Some e => Exc e | None => Val tt end).
Proof.
  induction rest as [|t rest IH]; simpl.
  - now destruct raises.
  - rewrite IH. now destruct raises.
Qed.

Lemma synthesisStream_spec (w : World) (config : Config) (sp : string)
    (h : list Turn) :
  exists r,
    synthesisStream w (synthesizer config) sp h
    = (synthesisCall config h sp
       :: map (fun t => Send (synthesis_chunk t)) (synthesizerTexts w config), r) /\
    (synthesizerRaises w config = true -> exists e, r = Exc e) /\
    (synthesizerRaises w config = false -> r = Val tt).
Proof.
  unfold synthesisStream, synthesisCall, synthesizerTexts, synthesizerRaises.
  destruct (JS.startsWith (synthesizer config) "gemini");
    rewrite forAwaitSynthesis_spec; simpl.
  - destruct (raises (synthGemini w)) as [e|]; eexists;
      (split; [reflexivity|]); split; intros; try discriminate; eauto.
  - destruct (raises (synthOpenAI w)) as [e|]; eexists;
      (split; [reflexivity|]); split; intros; try discriminate; eauto.
Qed.

(** Steps 3 and 4 in full. *)
Lemma synthesis_spec (w : World) (prompt : string) (constraints : option string)
    (h : list Turn) (config : Config) (v : Vars) :
  synthesis w prompt constraints h config v
  = (if gptFailed v && geminiFailed v then [End]
     else
       let (sp, log) := prepareSynthesis prompt constraints h v in
       [Send (fallback_log log); Send (status "Synthesizing final response...")]
       ++ synthesisCall config h sp
       :: map (fun t => Send (synthesis_chunk t)) (synthesizerTexts w config)
       ++ (if synthesizerRaises w config
           then [Send (fallback_log (log ^ synthesisFailedNote));
                 Send (synthesis_chunk
                   (fallbackLabel
                    ^ (if negb (gptFailed v) then gptResult v else geminiResult v)))]
           else [])
       ++ [Send (done "Stream complete."); End],
     Val tt).
Proof.
  unfold synthesis.
  destruct (gptFailed v && geminiFailed v); [reflexivity|].
  destruct (prepareSynthesis prompt constraints h v) as [sp log].
  destruct (synthesisStream_spec w config sp h) as (r & Hs & Ht & Hf).
  unfold sendEvent, tell. cbn [bind app].
  rewrite Hs.
  destruct (synthesizerRaises w config).
  - destruct (Ht eq_refl) as (e & ->). cbn.
    rewrite <- app_assoc. reflexivity.
  - rewrite (Hf eq_refl). cbn. reflexivity.
Qed.

End StreamPhases.

(** ** The streaming handler as a whole *)

Section StreamRuns.

Import Obs Stream StreamObs.

Lemma combine_no_prompt (req : Request) (w : World) :
  match prompt req with Some p => JS.truthy p | None => false end = false ->
  combine req w = ([Json 400 (ErrorBody "Prompt is required.")], Val tt).
Proof.
  destruct req as [[p|] cs ch]; simpl; [|reflexivity].
  now intros ->.
Qed.

Lemma combine_no_history (p : string) (cs : option string) (w : World) :
  JS.truthy p = true ->
  combine (mkRequest (Some p) cs None) w
  = ([FlushHeaders;
      Send (error ("An unexpected error occurred: " ^ typeErrorOfUndefined "slice"));
      End], Val tt).
Proof. intros Hp. unfold combine. rewrite Hp. reflexivity. Qed.

(** A run on an accepted request: the prelude, the two base requests, an
    interleaving of the two tasks, then steps 3 and 4 on the joined
    variables; no exception reaches the outer handler. *)
Lemma combine_accepted (p : string) (cs : option string) (h0 : list Turn)
    (w : World) :
  JS.truthy p = true ->
  exists c l,
    parseClassification (classifierText w) = Some c /\
    intent c = SpecRule.intentOf (classifierText w) /\
    Merge (taskActions ModelA (taskA w)) (taskActions ModelB (taskB w)) l /\
    combine (mkRequest (Some p) cs (Some h0)) w
    = (prelude p (JS.slice_0_m1 h0) c
       ++ baseCalls p (JS.slice_0_m1 h0) (config (DYNAMIC_PIPELINES (intent c)))
       ++ l
       ++ trace (synthesis w p cs (JS.slice_0_m1 h0)
                   (config (DYNAMIC_PIPELINES (intent c))) (joined w)),
       Val tt).
Proof.
  intros Hp.
  destruct (parseClassification_spec (classifierText w)) as (c & Hc & Hint).
  destruct (baseGeneration_spec w p (config (DYNAMIC_PIPELINES (intent c)))
              (JS.slice_0_m1 h0)) as (l & Hb & HM).
  exists c, l. repeat split; try assumption.
  unfold combine. rewrite Hp. cbn [negb].
  unfold sendEvent, tell, ret. cbn [bind app].
  rewrite getGptResponse_spec. fold (classifierText w). cbn [bind app].
  rewrite Hc. cbn [bind app]. rewrite Hb. cbn [bind app].
  rewrite synthesis_spec. cbn [tryCatch trace fst].
  unfold prelude, baseCalls. cbn [app]. reflexivity.
Qed.

End StreamRuns.

(** ** The one-shot handler as a whole *)

Section ServerRuns.

Import Obs Server ServerObs.

Lemma gptAnswer_spec (backend : Completion (option string)) (modelName : string) :
  gptAnswer backend modelName
  = ([], Val match raises backend with
             | Some _ => "ERROR: OpenAI API call failed for model " ^ modelName ^ "."
             | None => concatText (map deltaText (fragments backend))
             end).
Proof. unfold gptAnswer, awaitOneShot. now destruct (raises backend). Qed.

Lemma geminiAnswer_spec (backend : Completion string) (modelName : string) :
  geminiAnswer backend modelName
  = ([], Val match raises backend with
             | Some _ => "ERROR: Google AI API call failed for model " ^ modelName ^ "."
             | None => concatText (fragments backend)
             end).
Proof.
  unfold geminiAnswer, awaitOneShot. destruct (raises backend); [reflexivity|].
  simpl. now rewrite map_id.
Qed.

(** Steps 4 and 5 never raise, and end with one answer of code 200. *)
Lemma synthesis_shape (w : World) (p : string) (pipeline : Pipeline)
    (r g m : string) :
  exists body,
    Server.synthesis w p pipeline r g m
    = ((if JS.includes g "ERROR" && JS.includes m "ERROR" then []
        else [if JS.startsWith (synthesizer (config pipeline)) "gemini"
              then geminiRequest Synthesizer
                     (fst (Server.prepareSynthesis p g m (JS.includes g "ERROR")
                             (JS.includes m "ERROR")))
                     (synthesizer (config pipeline))
              else gptRequest Synthesizer
                     (fst (Server.prepareSynthesis p g m (JS.includes g "ERROR")
                             (JS.includes m "ERROR")))
                     (synthesizer (config pipeline))])
       ++ [Json 200 body], Val tt) /\
    pipelineNameOf body = name pipeline.
Proof.
  unfold Server.synthesis.
  destruct (JS.includes g "ERROR" && JS.includes m "ERROR").
  - eexists. split; reflexivity.
  - destruct (Server.prepareSynthesis p g m _ _) as [sp log]. cbn [fst].
    unfold getGeminiResponse, getGptResponse, tell.
    destruct (JS.startsWith (synthesizer (config pipeline)) "gemini").
    + cbn [bind app]. rewrite geminiAnswer_spec. cbn [bind].
      match goal with
      | |- context [if JS.includes ?x "ERROR" then (_, _) else (_, _)] =>
          destruct (JS.includes x "ERROR")
      end; eexists; split; reflexivity.
    + cbn [bind app]. rewrite gptAnswer_spec. cbn [bind].
      match goal with
      | |- context [if JS.includes ?x "ERROR" then (_, _) else (_, _)] =>
          destruct (JS.includes x "ERROR")
      end; eexists; split; reflexivity.
Qed.

(** Steps 4 and 5 in full. *)
Lemma server_synthesis_spec (w : World) (p : string) (pipeline : Pipeline)
    (r g m : string) :
  Server.synthesis w p pipeline r g m
  = (if JS.includes g "ERROR" && JS.includes m "ERROR"
     then [Json 200 (ResultBody
             "FATAL: Both primary models failed. Please try again."
             g m (name pipeline) "Both base models failed." r)]
     else
       let (sp, log) :=
         Server.prepareSynthesis p g m (JS.includes g "ERROR") (JS.includes m "ERROR") in
       [synthesisCall (config pipeline) sp;
        Json 200 (ResultBody
          (if JS.includes (synthesizerText w (config pipeline)) "ERROR"
           then (if negb (JS.includes g "ERROR") then g else m)
           else synthesizerText w (config pipeline))
          g m (name pipeline)
          (log ^ synthesisNote w (config pipeline) log) r)],
     Val tt).
Proof.
  unfold Server.synthesis, synthesisCall, synthesisNote, synthesizerText.
  destruct (JS.includes g "ERROR" && JS.includes m "ERROR"); [reflexivity|].
  destruct (Server.prepareSynthesis p g m _ _) as [sp log].
  unfold getGeminiResponse, getGptResponse, tell.
  destruct (JS.startsWith (synthesizer (config pipeline)) "gemini");
    cbn [bind app]; rewrite ?geminiAnswer_spec, ?gptAnswer_spec; cbn [bind];
    match goal with
    | |- context [if JS.includes ?x "ERROR" then (_, _) else (_, _)] =>
        destruct (JS.includes x "ERROR")
    end; cbn [app]; rewrite ?append_empty; reflexivity.
Qed.

Lemma server_combine_no_prompt (req : Request) (w : World) :
  match prompt req with Some p => JS.truthy p | None => false end = false ->
  Server.combine req w = ([Json 400 (ErrorBody "Prompt is required.")], Val tt).
Proof.
  unfold Server.combine. destruct (prompt req) as [p|]; [|reflexivity].
  now intros ->.
Qed.

(** A run of the one-shot handler on a request with a prompt: the three
    requests, the two settlements, then steps 4 and 5; no exception reaches
    the outer handler. *)
Lemma server_combine_accepted (req : Request) (p : string) (w : World) :
  prompt req = Some p -> JS.truthy p = true ->
  exists c,
    parseClassification (classifierText w) = Some c /\
    intent c = SpecRule.intentOf (classifierText w) /\
    Server.combine req w
    = (prelude w p c
       ++ trace (Server.synthesis w p (DYNAMIC_PIPELINES (intent c)) (reasoning c)
                   (gptText w (config (DYNAMIC_PIPELINES (intent c))))
                   (geminiText w (config (DYNAMIC_PIPELINES (intent c))))),
       Val tt).
Proof.
  intros Hreq Hp.
  destruct (parseClassification_spec (classifierText w)) as (c & Hc & Hint).
  exists c. repeat split; try assumption.
  unfold Server.combine. rewrite Hreq, Hp. cbn [negb].
  unfold getGptResponse, promiseAll, tell, ret. cbn [bind app].
  rewrite gptAnswer_spec. fold (classifierText w). cbn [bind app].
  rewrite Hc. cbn [bind app].
  rewrite gptAnswer_spec, geminiAnswer_spec.
  fold (gptText w (config (DYNAMIC_PIPELINES (intent c)))).
  fold (geminiText w (config (DYNAMIC_PIPELINES (intent c)))).
  destruct (synthesis_shape w p (DYNAMIC_PIPELINES (intent c)) (reasoning c)
              (gptText w (config (DYNAMIC_PIPELINES (intent c))))
              (geminiText w (config (DYNAMIC_PIPELINES (intent c)))))
    as (body & Hs & _).
  unfold prelude.
  destruct (aSettlesFirst w); cbn [bind app]; rewrite Hs;
    cbn [tryCatch trace fst app]; reflexivity.
Qed.

End ServerRuns.

(** ** What the phases contribute to the observations *)

Section Observations.

Import Obs Stream StreamObs.

Lemma collect_app {X} (f : Action -> option X) (l1 l2 : list Action) :
  collect f (l1 ++ l2) = collect f l1 ++ collect f l2.
Proof.
  induction l1 as [|a l1 IH]; simpl; [reflexivity|].
  destruct (f a); simpl; now rewrite IH.
Qed.

Lemma Merge_forallb (f : Action -> bool) (l1 l2 l : list Action) :
  Merge l1 l2 l ->
  forallb f l1 = true -> forallb f l2 = true -> forallb f l = true.
Proof.
  induction 1; simpl; intros H1 H2; [reflexivity| |].
  - apply andb_prop in H1 as [-> H1]. simpl. now apply IHMerge.
  - apply andb_prop in H2 as [-> H2]. simpl. now apply IHMerge.
Qed.

Lemma Merge_collect_left {X} (f : Action -> option X) (l1 l2 l : list Action) :
  Merge l1 l2 l -> collect f l2 = [] -> collect f l = collect f l1.
Proof.
  induction 1; simpl; intros H2; [reflexivity| |].
  - destruct (f x); [f_equal|]; now apply IHMerge.
  - destruct (f x); [discriminate|]. now apply IHMerge.
Qed.

Lemma Merge_collect_right {X} (f : Action -> option X) (l1 l2 l : list Action) :
  Merge l1 l2 l -> collect f l1 = [] -> collect f l = collect f l2.
Proof.
  induction 1; simpl; intros H1; [reflexivity| |].
  - destruct (f x); [discriminate|]. now apply IHMerge.
  - destruct (f x); [f_equal|]; now apply IHMerge.
Qed.

Lemma taskActions_base (s : Side) (t : Task) :
  forallb isBaseTaskAction (taskActions s t) = true.
Proof.
  destruct t as [rest raises|]; [|reflexivity]. simpl.
  rewrite !forallb_app. apply andb_true_intro. split.
  - induction rest as [|x rest IH]; [reflexivity|]. simpl. rewrite IH.
    now destruct s.
  - destruct raises; destruct s; reflexivity.
Qed.

Lemma base_merge_base (w : World) (l : list Action) :
  Merge (taskActions ModelA (taskA w)) (taskActions ModelB (taskB w)) l ->
  forallb isBaseTaskAction l = true.
Proof.
  intros HM. eapply Merge_forallb; [exact HM | apply taskActions_base ..].
Qed.

(** A filter that rejects the actions of the base tasks rejects the wait. *)
Lemma filter_base (f : Action -> bool) (l : list Action) :
  (forall a, isBaseTaskAction a = true -> f a = false) ->
  forallb isBaseTaskAction l = true -> filter f l = [].
Proof.
  intros Hf. induction l as [|a l IH]; simpl; [reflexivity|].
  intros H. apply andb_prop in H as [Ha H]. rewrite (Hf a Ha). now apply IH.
Qed.

Lemma collect_base {X} (f : Action -> option X) (l : list Action) :
  (forall a, isBaseTaskAction a = true -> f a = None) ->
  forallb isBaseTaskAction l = true -> collect f l = [].
Proof.
  intros Hf. induction l as [|a l IH]; simpl; [reflexivity|].
  intros H. apply andb_prop in H as [Ha H]. rewrite (Hf a Ha). now apply IH.
Qed.

Lemma base_not_terminal (a : Action) :
  isBaseTaskAction a = true -> isTerminal a = false.
Proof.
  unfold isBaseTaskAction.
  destruct a as [| |[]| | | |]; simpl; intros H; try reflexivity; discriminate H.
Qed.

Lemma base_not_synthesis (a : Action) :
  isBaseTaskAction a = true -> isSynthesisAction a = false.
Proof.
  unfold isBaseTaskAction.
  destruct a as [| |[]| | | |]; simpl; intros H; try reflexivity; discriminate H.
Qed.

Lemma base_no_prompt (a : Action) :
  isBaseTaskAction a = true -> synthesisPromptOf a = None.
Proof.
  unfold isBaseTaskAction.
  destruct a as [| |[]| | | |]; simpl; intros H; try reflexivity; discriminate H.
Qed.

Lemma filter_chunks (f : Action -> bool) (texts : list string) :
  (forall t, f (Send (synthesis_chunk t)) = false) ->
  filter f (map (fun t => Send (synthesis_chunk t)) texts) = [].
Proof.
  intros Hf. induction texts as [|t texts IH]; simpl; [reflexivity|].
  now rewrite Hf.
Qed.

Lemma collect_chunks {X} (f : Action -> option X) (texts : list string) :
  (forall t, f (Send (synthesis_chunk t)) = None) ->
  collect f (map (fun t => Send (synthesis_chunk t)) texts) = [].
Proof.
  intros Hf. induction texts as [|t texts IH]; simpl; [reflexivity|].
  now rewrite Hf.
Qed.

Lemma chunksA_taskA (rest : list string) (raises : option string) :
  chunksA (taskActions ModelA (Running rest raises))
  = rest ++ match raises with
            | Some _ => [JS.lf ^ JS.lf ^ "--- ERROR: OpenAI API call failed. ---"]
            | None => []
            end.
Proof.
  unfold chunksA. simpl. induction rest as [|t rest IH]; simpl.
  - now destruct raises.
  - now rewrite IH.
Qed.

Lemma chunksA_taskB (t : Task) : chunksA (taskActions ModelB t) = [].
Proof.
  destruct t as [rest raises|]; [|reflexivity].
  unfold chunksA. simpl. induction rest as [|x rest IH]; simpl.
  - now destruct raises.
  - exact IH.
Qed.

Lemma synthesisCall_prompt (config : Config) (h : list Turn) (sp : string) :
  synthesisPromptOf (synthesisCall config h sp) = Some sp.
Proof.
  unfold synthesisCall. destruct (JS.startsWith (synthesizer config) "gemini");
    simpl; [reflexivity|].
  now rewrite last_last.
Qed.

Lemma synthesisCall_not_terminal (config : Config) (h : list Turn) (sp : string) :
  isTerminal (synthesisCall config h sp) = false.
Proof.
  unfold synthesisCall. now destruct (JS.startsWith (synthesizer config) "gemini").
Qed.

Lemma joined_fields (w : World) :
  joined w
  = mkVars (concatText (map deltaText (fragments (baseA w))))
           (concatText (fragments (baseB w)))
           (isSome (raises (baseA w))) (isSome (raises (baseB w))).
Proof.
  unfold joined, after, taskA, taskB. simpl.
  now destruct (raises (baseA w)), (raises (baseB w)).
Qed.

End Observations.

(** ** Terminal events of the streaming endpoint *)

Section TerminalEvents.

Import Obs Stream StreamObs.

Lemma synthesis_terminal (w : World) (p : string) (cs : option string)
    (h : list Turn) (config : Config) (v : Vars) :
  filter isTerminal (trace (synthesis w p cs h config v))
  = if gptFailed v && geminiFailed v then []
    else [Send (done "Stream complete.")].
Proof.
  rewrite synthesis_spec. cbn [trace fst].
  destruct (gptFailed v && geminiFailed v); [reflexivity|].
  destruct (prepareSynthesis p cs h v) as [sp log].
  cbn [app filter isTerminal]. rewrite synthesisCall_not_terminal.
  rewrite !filter_app, filter_chunks by reflexivity.
  now destruct (synthesizerRaises w config).
Qed.

(** On an accepted request the stream carries [done] once, unless both base
    calls raise: then it carries no terminal event at all. *)
Lemma stream_terminal_events (p : string) (cs : option string) (h0 : list Turn)
    (w : World) :
  JS.truthy p = true ->
  filter isTerminal (trace (combine (mkRequest (Some p) cs (Some h0)) w))
  = if isSome (raises (baseA w)) && isSome (raises (baseB w)) then []
    else [Send (done "Stream complete.")].
Proof.
  intros Hp.
  destruct (combine_accepted p cs h0 w Hp) as (c & l & _ & _ & HM & ->).
  cbn [trace fst]. rewrite !filter_app.
  rewrite (filter_base isTerminal l base_not_terminal (base_merge_base w l HM)).
  rewrite synthesis_terminal, joined_fields. reflexivity.
Qed.

End TerminalEvents.


(** ** The join *)

Section Join.

Import Obs.

Lemma quiet_no_split (f : Action -> bool) (l l1 l2 : list Action) (a : Action) :
  filter f l = [] -> l = l1 ++ a :: l2 -> f a = true -> False.
Proof.
  intros Hq -> Ha. rewrite filter_app in Hq. simpl in Hq. rewrite Ha in Hq.
  now destruct (filter f l1).
Qed.

(** A split at an action the front part rejects falls in the back part. *)
Lemma split_after_quiet (f : Action -> bool) (front : list Action) :
  forall back l1 l2 a,
    filter f front = [] -> front ++ back = l1 ++ a :: l2 -> f a = true ->
    exists back1, l1 = front ++ back1 /\ back = back1 ++ a :: l2.
Proof.
  induction front as [|x front IH]; intros back l1 l2 a Hq Heq Ha.
  - exists l1. now split.
  - simpl in Hq. destruct (f x) eqn:Hx; [discriminate|].
    destruct l1 as [|y l1]; simpl in Heq; injection Heq as -> Heq.
    + congruence.
    + destruct (IH back l1 l2 a Hq Heq Ha) as (back1 & -> & ->).
      exists back1. now split.
Qed.

(** The shape both handlers share: a front part free of synthesis actions
    that holds both settlements, then a back part free of base actions. *)
Lemma JoinFirst_intro (front back : list Action) :
  filter isSynthesisAction front = [] ->
  In (Settled ModelA) front -> In (Settled ModelB) front ->
  forallb (fun b => negb (isBaseTaskAction b)) back = true ->
  JoinFirst (front ++ back).
Proof.
  intros Hq HA HB Hback l1 a l2 Heq Ha.
  destruct (split_after_quiet _ front back l1 l2 a Hq Heq Ha) as (b1 & -> & ->).
  repeat split; try (apply in_or_app; now left).
  rewrite forallb_app in Hback. now apply andb_prop in Hback as [_ ?].
Qed.

Lemma JoinFirst_quiet (l : list Action) :
  filter isSynthesisAction l = [] -> JoinFirst l.
Proof.
  intros Hq l1 a l2 Heq Ha. destruct (quiet_no_split _ _ _ _ _ Hq Heq Ha).
Qed.

Lemma settled_in_task (s : Side) (rest : list string) (raises : option string) :
  In (Settled s) (StreamObs.taskActions s (Stream.Running rest raises)).
Proof.
  simpl. apply in_or_app. right. apply in_or_app. right. now left.
Qed.

Lemma stream_synthesis_no_base (w : Stream.World) (p : string)
    (cs : option string) (h : list Turn) (config : Config) (v : Stream.Vars) :
  forallb (fun b => negb (isBaseTaskAction b))
    (trace (Stream.synthesis w p cs h config v)) = true.
Proof.
  rewrite synthesis_spec. cbn [trace fst].
  destruct (Stream.gptFailed v && Stream.geminiFailed v); [reflexivity|].
  destruct (Stream.prepareSynthesis p cs h v) as [sp log].
  cbn [app forallb]. rewrite !forallb_app.
  assert (Hcall : isBaseTaskAction (StreamObs.synthesisCall config h sp) = false).
  { unfold StreamObs.synthesisCall.
    now destruct (JS.startsWith (synthesizer config) "gemini"). }
  rewrite Hcall.
  assert (Hchunks : forall texts,
    forallb (fun b => negb (isBaseTaskAction b))
      (map (fun t => Send (synthesis_chunk t)) texts) = true).
  { induction texts as [|t texts IH]; [reflexivity | exact IH]. }
  rewrite Hchunks.
  now destruct (StreamObs.synthesizerRaises w config).
Qed.

Lemma stream_join_first (req : Request) (w : Stream.World) :
  JoinFirst (trace (Stream.combine req w)).
Proof.
  destruct req as [[p|] cs ch].
  2:{ now apply JoinFirst_quiet. }
  destruct (JS.truthy p) eqn:Hp.
  2:{ apply JoinFirst_quiet. unfold Stream.combine. now rewrite Hp. }
  destruct ch as [h0|].
  2:{ rewrite combine_no_history by exact Hp. now apply JoinFirst_quiet. }
  destruct (combine_accepted p cs h0 w Hp) as (c & l & _ & _ & HM & ->).
  cbn [trace fst]. rewrite !app_assoc. apply JoinFirst_intro.
  - rewrite !filter_app.
    rewrite (filter_base _ l base_not_synthesis (base_merge_base w l HM)).
    reflexivity.
  - apply in_or_app. right. apply (Merge_In _ _ _ _ HM). left.
    apply settled_in_task.
  - apply in_or_app. right. apply (Merge_In _ _ _ _ HM). right.
    apply settled_in_task.
  - apply stream_synthesis_no_base.
Qed.

Lemma server_join_first (req : Request) (w : Server.World) :
  JoinFirst (trace (Server.combine req w)).
Proof.
  destruct (prompt req) as [p|] eqn:Hreq.
  2:{ rewrite server_combine_no_prompt by now rewrite Hreq.
      now apply JoinFirst_quiet. }
  destruct (JS.truthy p) eqn:Hp.
  2:{ rewrite server_combine_no_prompt by now rewrite Hreq.
      now apply JoinFirst_quiet. }
  destruct (server_combine_accepted req p w Hreq Hp) as (c & _ & _ & ->).
  cbn [trace fst]. apply JoinFirst_intro.
  - unfold ServerObs.prelude. now destruct (Server.aSettlesFirst w).
  - unfold ServerObs.prelude. destruct (Server.aSettlesFirst w); simpl; tauto.
  - unfold ServerObs.prelude. destruct (Server.aSettlesFirst w); simpl; tauto.
  - destruct (synthesis_shape w p (DYNAMIC_PIPELINES (intent c)) (reasoning c)
                (ServerObs.gptText w (config (DYNAMIC_PIPELINES (intent c))))
                (ServerObs.geminiText w (config (DYNAMIC_PIPELINES (intent c)))))
      as (body & -> & _).
    cbn [trace fst].
    destruct (JS.includes _ "ERROR" && JS.includes _ "ERROR"); [reflexivity|].
    now destruct (JS.startsWith _ "gemini").
Qed.

End Join.

(** ** Prompts and logs of a run *)

Section PromptsAndLogs.

Import Obs.

Lemma stream_synthesis_prompts (w : Stream.World) (p : string)
    (cs : option string) (h : list Turn) (config : Config) (v : Stream.Vars) :
  synthesisPrompts (trace (Stream.synthesis w p cs h config v))
  = if Stream.gptFailed v && Stream.geminiFailed v then []
    else [fst (Stream.prepareSynthesis p cs h v)].
Proof.
  rewrite synthesis_spec. cbn [trace fst].
  destruct (Stream.gptFailed v && Stream.geminiFailed v); [reflexivity|].
  destruct (Stream.prepareSynthesis p cs h v) as [sp log].
  unfold synthesisPrompts. cbn [app collect synthesisPromptOf fst].
  rewrite synthesisCall_prompt, !collect_app, collect_chunks by reflexivity.
  now destruct (StreamObs.synthesizerRaises w config).
Qed.

Lemma stream_synthesis_logs (w : Stream.World) (p : string)
    (cs : option string) (h : list Turn) (config : Config) (v : Stream.Vars) :
  fallbackLogs (trace (Stream.synthesis w p cs h config v))
  = if Stream.gptFailed v && Stream.geminiFailed v then []
    else snd (Stream.prepareSynthesis p cs h v)
         :: if StreamObs.synthesizerRaises w config
            then [snd (Stream.prepareSynthesis p cs h v)
                  ^ StreamObs.synthesisFailedNote]
            else [].
Proof.
  rewrite synthesis_spec. cbn [trace fst].
  destruct (Stream.gptFailed v && Stream.geminiFailed v); [reflexivity|].
  destruct (Stream.prepareSynthesis p cs h v) as [sp log].
  unfold fallbackLogs. cbn [app collect snd]. f_equal.
  assert (Hcall : forall X (f : string -> option X),
    (match StreamObs.synthesisCall config h sp with
     | Send (fallback_log t) => f t
     | _ => None
     end) = None).
  { intros X f. unfold StreamObs.synthesisCall.
    now destruct (JS.startsWith (synthesizer config) "gemini"). }
  rewrite Hcall, !collect_app, collect_chunks by reflexivity.
  now destruct (StreamObs.synthesizerRaises w config).
Qed.

(** The prompts the synthesizer receives in a run on an accepted request. *)
Lemma stream_prompts (p : string) (cs : option string) (h0 : list Turn)
    (w : Stream.World) :
  JS.truthy p = true ->
  synthesisPrompts (trace (Stream.combine (mkRequest (Some p) cs (Some h0)) w))
  = if Stream.gptFailed (StreamObs.joined w) && Stream.geminiFailed (StreamObs.joined w)
    then []
    else [fst (Stream.prepareSynthesis p cs (JS.slice_0_m1 h0) (StreamObs.joined w))].
Proof.
  intros Hp.
  destruct (combine_accepted p cs h0 w Hp) as (c & l & _ & _ & HM & ->).
  cbn [trace fst]. unfold synthesisPrompts. rewrite !collect_app.
  rewrite (collect_base _ l base_no_prompt (base_merge_base w l HM)).
  apply stream_synthesis_prompts.
Qed.

Lemma base_no_log (a : Action) :
  isBaseTaskAction a = true ->
  match a with Send (fallback_log t) => Some t | _ => None end = None.
Proof.
  unfold isBaseTaskAction.
  destruct a as [| |[]| | | |]; simpl; intros H; try reflexivity; discriminate H.
Qed.

(** The fallback logs of a run on an accepted request. *)
Lemma stream_logs (p : string) (cs : option string) (h0 : list Turn)
    (w : Stream.World) :
  JS.truthy p = true ->
  exists c,
    parseClassification (StreamObs.classifierText w) = Some c /\
    fallbackLogs (trace (Stream.combine (mkRequest (Some p) cs (Some h0)) w))
    = fallbackLogs (trace (Stream.synthesis w p cs (JS.slice_0_m1 h0)
                             (config (DYNAMIC_PIPELINES (intent c)))
                             (StreamObs.joined w))).
Proof.
  intros Hp.
  destruct (combine_accepted p cs h0 w Hp) as (c & l & Hc & _ & HM & ->).
  exists c. split; [exact Hc|].
  cbn [trace fst]. unfold fallbackLogs. rewrite !collect_app.
  rewrite (collect_base _ l base_no_log (base_merge_base w l HM)).
  reflexivity.
Qed.

Lemma server_prompts_and_answers (req : Request) (p : string) (w : Server.World) :
  prompt req = Some p -> JS.truthy p = true ->
  exists c,
    parseClassification (ServerObs.classifierText w) = Some c /\
    intent c = SpecRule.intentOf (ServerObs.classifierText w) /\
    let run := trace (Server.combine req w) in
    let post := trace (Server.synthesis w p (DYNAMIC_PIPELINES (intent c))
                         (reasoning c)
                         (ServerObs.gptText w (config (DYNAMIC_PIPELINES (intent c))))
                         (ServerObs.geminiText w (config (DYNAMIC_PIPELINES (intent c))))) in
    synthesisPrompts run = synthesisPrompts post /\
    ServerObs.answers run = ServerObs.answers post.
Proof.
  intros Hreq Hp.
  destruct (server_combine_accepted req p w Hreq Hp) as (c & Hc & Hint & ->).
  exists c. repeat split; try assumption; cbn [trace fst];
    unfold synthesisPrompts, ServerObs.answers, ServerObs.prelude;
    rewrite collect_app; now destruct (Server.aSettlesFirst w).
Qed.

Lemma server_synthesisCall_prompt (config : Config) (sp : string) :
  synthesisPromptOf (ServerObs.synthesisCall config sp) = Some sp.
Proof.
  unfold ServerObs.synthesisCall.
  now destruct (JS.startsWith (synthesizer config) "gemini").
Qed.

Lemma server_synthesisCall_no_answer (config : Config) (sp : string) :
  match ServerObs.synthesisCall config sp with
  | Json code body => Some (code, body)
  | _ => None
  end = None.
Proof.
  unfold ServerObs.synthesisCall.
  now destruct (JS.startsWith (synthesizer config) "gemini").
Qed.

(** The pipeline a streaming run announces and uses is the one of the
    Intent the rule gives on the text of the classifier. *)
Lemma stream_pipeline_follows_rule (p : string) (cs : option string)
    (h0 : list Turn) (w : Stream.World) :
  JS.truthy p = true ->
  let pipeline :=
    DYNAMIC_PIPELINES (SpecRule.intentOf (StreamObs.classifierText w)) in
  exists r rest,
    trace (Stream.combine (mkRequest (Some p) cs (Some h0)) w)
    = [ FlushHeaders;
        Send (status "Classifying prompt intent...");
        CallOpenAI Classifier CLASSIFIER_MODEL
          [OpenAITurn "user"
             (Stream.getClassificationPrompt p (Some (JS.slice_0_m1 h0)))] false;
        Send (initial_data (name pipeline) r);
        Send (status "Generating base responses...") ]
      ++ StreamObs.baseCalls p (JS.slice_0_m1 h0) (config pipeline)
      ++ rest.
Proof.
  intros Hp. cbv zeta.
  destruct (combine_accepted p cs h0 w Hp) as (c & l & _ & Hint & _ & ->).
  rewrite <- Hint. cbn [trace fst]. unfold StreamObs.prelude. eauto.
Qed.

End PromptsAndLogs.

(** ** Errors and chunks of an accepted request *)

Section ErrorsAndChunks.

Import Obs Stream StreamObs.

Lemma filter_error_terminal (l : list Action) :
  filter isError l = filter isError (filter isTerminal l).
Proof.
  induction l as [|a l IH]; [reflexivity|]. simpl.
  destruct a as [| |[]| | | |]; simpl; now rewrite IH.
Qed.

Lemma stream_accepted_no_error (p : string) (cs : option string)
    (h0 : list Turn) (w : World) :
  JS.truthy p = true ->
  filter isError (trace (combine (mkRequest (Some p) cs (Some h0)) w)) = [].
Proof.
  intros Hp. rewrite filter_error_terminal, stream_terminal_events by exact Hp.
  now destruct (isSome (raises (baseA w)) && isSome (raises (baseB w))).
Qed.

(** In the streaming endpoint the flags are those of the [catch] clauses:
    whatever the schedule and whatever the texts. *)
Lemma stream_flags_follow_the_catch (w : World) (sched : list bool) :
  snd (promiseAll sched (taskA w) (taskB w) vars0)
  = mkVars (concatText (map deltaText (fragments (baseA w))))
           (concatText (fragments (baseB w)))
           (isSome (raises (baseA w))) (isSome (raises (baseB w))).
Proof.
  destruct (promiseAll_spec sched (taskA w) (taskB w) vars0) as (l & -> & _).
  apply joined_fields.
Qed.

Lemma nonbase_no_chunkA (l : list Action) :
  forallb (fun b => negb (isBaseTaskAction b)) l = true -> chunksA l = [].
Proof.
  unfold chunksA. induction l as [|a l IH]; [reflexivity|]. simpl.
  intros H. apply andb_prop in H as [Ha H].
  destruct a as [| |[]| | | |]; try discriminate Ha; now apply IH.
Qed.

(** The chunks of model A in a run: the fragments of the backend in their
    order, then the marker when the call raises. *)
Lemma stream_chunksA (p : string) (cs : option string) (h0 : list Turn)
    (w : World) :
  JS.truthy p = true ->
  chunksA (trace (combine (mkRequest (Some p) cs (Some h0)) w))
  = map deltaText (fragments (baseA w))
    ++ match raises (baseA w) with
       | Some _ => [JS.lf ^ JS.lf ^ "--- ERROR: OpenAI API call failed. ---"]
       | None => []
       end.
Proof.
  intros Hp.
  destruct (combine_accepted p cs h0 w Hp) as (c & l & _ & _ & HM & ->).
  cbn [trace fst]. unfold chunksA. rewrite !collect_app.
  fold chunksA.
  rewrite (nonbase_no_chunkA _ (stream_synthesis_no_base _ _ _ _ _ _)).
  unfold chunksA at 3.
  rewrite (Merge_collect_left _ _ _ _ HM (chunksA_taskB (taskB w))).
  fold chunksA. unfold taskA. rewrite chunksA_taskA.
  now rewrite app_nil_r.
Qed.

Lemma chunksB_taskB (rest : list string) (raises : option string) :
  chunksB (taskActions ModelB (Running rest raises))
  = rest ++ match raises with
            | Some _ => [JS.lf ^ JS.lf ^ "--- ERROR: Google AI API call failed. ---"]
            | None => []
            end.
Proof.
  unfold chunksB. simpl. induction rest as [|t rest IH]; simpl.
  - now destruct raises.
  - now rewrite IH.
Qed.

Lemma chunksB_taskA (t : Task) : chunksB (taskActions ModelA t) = [].
Proof.
  destruct t as [rest raises|]; [|reflexivity].
  unfold chunksB. simpl. induction rest as [|x rest IH]; simpl.
  - now destruct raises.
  - exact IH.
Qed.

Lemma nonbase_no_chunkB (l : list Action) :
  forallb (fun b => negb (isBaseTaskAction b)) l = true -> chunksB l = [].
Proof.
  unfold chunksB. induction l as [|a l IH]; [reflexivity|]. simpl.
  intros H. apply andb_prop in H as [Ha H].
  destruct a as [| |[]| | | |]; try discriminate Ha; now apply IH.
Qed.

(** The chunks of model B in a run, likewise. *)
Lemma stream_chunksB (p : string) (cs : option string) (h0 : list Turn)
    (w : World) :
  JS.truthy p = true ->
  chunksB (trace (combine (mkRequest (Some p) cs (Some h0)) w))
  = fragments (baseB w)
    ++ match raises (baseB w) with
       | Some _ => [JS.lf ^ JS.lf ^ "--- ERROR: Google AI API call failed. ---"]
       | None => []
       end.
Proof.
  intros Hp.
  destruct (combine_accepted p cs h0 w Hp) as (c & l & _ & _ & HM & ->).
  cbn [trace fst]. unfold chunksB. rewrite !collect_app.
  fold chunksB.
  rewrite (nonbase_no_chunkB _ (stream_synthesis_no_base _ _ _ _ _ _)).
  unfold chunksB at 3.
  rewrite (Merge_collect_right _ _ _ _ HM (chunksB_taskA (taskA w))).
  fold chunksB. unfold taskB. rewrite chunksB_taskB.
  now rewrite app_nil_r.
Qed.

End ErrorsAndChunks.

(** ** Concrete runs *)

Section Runs.

Import Obs Fixtures.

Example parse_creative :
  option_map intent (parseClassification
     ("Reasoning: a poem." ^ JS.lf ^ "Classification: creative" ^ JS.lf ^ " "))
  = Some CREATIVE.
Proof. reflexivity. Qed.

Example parse_garbage :
  option_map intent (parseClassification "zzz") = Some FACTUAL.
Proof. reflexivity. Qed.

Example parse_blank :
  parseClassification (" " ^ JS.lf ^ " ")
  = Some (mkClassification EmptyString EmptyString FACTUAL).
Proof. reflexivity. Qed.

Example parse_reasoning :
  option_map reasoning (parseClassification
     ("Reasoning: a poem." ^ JS.lf ^ "so creative" ^ JS.lf ^ "CREATIVE"))
  = Some "a poem. so creative".
Proof. reflexivity. Qed.

Example healthy_run_events :
  filter (fun a => match a with Send _ => true | _ => false end)
    (trace (Stream.combine request healthy))
  = [ Send (status "Classifying prompt intent...");
      Send (initial_data "Factual Pipeline (SOTA Base -> Quick Synth)"
              "a technical explanation.");
      Send (status "Generating base responses...");
      Send (modelA_chunk EmptyString);
      Send (modelB_chunk "AIMD: additive increase, ");
      Send (modelB_chunk "multiplicative decrease.");
      Send (modelA_chunk "TCP probes ");
      Send (modelA_chunk "for bandwidth.");
      Send (fallback_log EmptyString);
      Send (status "Synthesizing final response...");
      Send (synthesis_chunk "TCP adapts ");
      Send (synthesis_chunk "its window.");
      Send (done "Stream complete.") ].
Proof. reflexivity. Qed.

(** The one-shot endpoint, when the text of the synthesizer is taken as
    failed: the answer carries the text of A (of B when A is flagged), and
    the log ends with the note. *)
Lemma server_synthesizer_failure_falls_back (w : Server.World) (p : string)
    (pipeline : Pipeline) (r g m : string) :
  JS.includes g "ERROR" && JS.includes m "ERROR" = false ->
  JS.includes (ServerObs.synthesizerText w (config pipeline)) "ERROR" = true ->
  exists sp log,
    trace (Server.synthesis w p pipeline r g m)
    = [ ServerObs.synthesisCall (config pipeline) sp;
        Json 200 (ResultBody (if JS.includes g "ERROR" then m else g) g m
                    (name pipeline)
                    (log ^ (if JS.truthy log then " " else EmptyString)
                     ^ "The final synthesis step failed. Displaying the best available response.")
                    r) ].
Proof.
  intros Hone Hs. rewrite server_synthesis_spec, Hone. cbn [trace fst].
  destruct (Server.prepareSynthesis p g m _ _) as [sp log].
  exists sp, log. unfold ServerObs.synthesisNote. rewrite Hs.
  now destruct (JS.includes g "ERROR").
Qed.

End Runs.
(** ** More on strings *)

Section MoreStringFacts.

Lemma prefix_append (p s : string) : String.prefix p (p ^ s) = true.
Proof.
  induction p as [|c p IH]; simpl; [now destruct s|].
  destruct (ascii_dec c c); [exact IH | contradiction].
Qed.

Lemma prefix_mono (p a b : string) :
  String.prefix p a = true -> String.prefix p (a ^ b) = true.
Proof.
  revert a. induction p as [|c p IH]; intros a H.
  - now destruct (a ^ b).
  - destruct a as [|d a]; [discriminate|]. simpl in *.
    destruct (ascii_dec c d); [now apply IH | discriminate].
Qed.

Lemma prefix_includes (s p : string) :
  String.prefix p s = true -> JS.includes s p = true.
Proof. destruct s; simpl; intros ->; reflexivity. Qed.

Lemma includes_empty (s : string) : JS.includes s EmptyString = true.
Proof. apply prefix_includes. now destruct s. Qed.

Lemma includes_append_r (a b p : string) :
  JS.includes b p = true -> JS.includes (a ^ b) p = true.
Proof.
  intros H. induction a as [|c a IH]; [exact H|].
  cbn [String.append JS.includes]. rewrite IH. apply orb_true_r.
Qed.

Lemma includes_append_l (a b p : string) :
  JS.includes a p = true -> JS.includes (a ^ b) p = true.
Proof.
  induction a as [|c a IH]; intros H.
  - simpl in H. destruct p; [apply includes_empty | discriminate].
  - cbn [String.append JS.includes] in *.
    apply orb_prop in H as [H|H].
    + change (String c (a ^ b)) with (String c a ^ b).
      now rewrite (prefix_mono _ _ _ H).
    + rewrite (IH H). apply orb_true_r.
Qed.

(** A text occurs in whatever is written around it. *)
Lemma includes_middle (a p b : string) : JS.includes (a ^ p ^ b) p = true.
Proof. apply includes_append_r, prefix_includes, prefix_append. Qed.

Lemma no_newline_cons (c : ascii) (s : string) :
  JS.includes (String c s) JS.lf = false ->
  Ascii.eqb c JS.nl = false /\ JS.includes s JS.lf = false.
Proof.
  cbn [JS.includes]. intros H. apply orb_false_elim in H as [H1 H2].
  split; [|exact H2].
  destruct (Ascii.eqb_spec c JS.nl) as [->|]; [|reflexivity].
  now destruct s.
Qed.

Lemma no_newline_append (a b : string) :
  JS.includes a JS.lf = false -> JS.includes b JS.lf = false ->
  JS.includes (a ^ b) JS.lf = false.
Proof.
  intros Ha Hb. induction a as [|c a IH]; [exact Hb|].
  destruct (no_newline_cons _ _ Ha) as [Hc Ha'].
  cbn [String.append JS.includes]. rewrite (IH Ha'), orb_false_r.
  unfold JS.lf. cbn [String.prefix].
  destruct (ascii_dec JS.nl c) as [<-|]; [discriminate | reflexivity].
Qed.

(** Splitting after a text without newline. *)
Lemma split_one_line (x y : string) :
  JS.includes x JS.lf = false ->
  JS.split JS.nl (x ^ y)
  = (x ^ hd EmptyString (JS.split JS.nl y)) :: tl (JS.split JS.nl y).
Proof.
  intros Hx. induction x as [|c x IH].
  - simpl. destruct (JS.split JS.nl y) eqn:E; [|reflexivity].
    now apply split_not_nil in E.
  - destruct (no_newline_cons _ _ Hx) as [Hc Hx'].
    cbn [String.append JS.split]. rewrite Hc, (IH Hx'). reflexivity.
Qed.

(** [split] undoes [join] on lines without newline. *)
Lemma split_join (l : list string) :
  l <> [] -> forallb (fun x => negb (JS.includes x JS.lf)) l = true ->
  JS.split JS.nl (JS.join JS.lf l) = l.
Proof.
  induction l as [|x l IH]; [contradiction|]. intros _ H.
  cbn [forallb] in H. apply andb_prop in H as [Hx Hl].
  apply negb_true_iff in Hx.
  destruct l as [|y l].
  - simpl. rewrite <- (append_empty x) at 1.
    rewrite (split_one_line x EmptyString Hx). simpl. now rewrite append_empty.
  - change (JS.join JS.lf (x :: y :: l))
      with (x ^ JS.lf ^ JS.join JS.lf (y :: l)).
    rewrite (split_one_line _ _ Hx).
    change (JS.lf ^ JS.join JS.lf (y :: l))
      with (String JS.nl (JS.join JS.lf (y :: l))).
    cbn [JS.split]. rewrite Ascii.eqb_refl. cbn [hd tl].
    rewrite append_empty. f_equal. apply IH; [discriminate | exact Hl].
Qed.

End MoreStringFacts.

(** * The claims *)

(** ** The parsing rule *)

Section ParsingRuleFacts.

Import Obs Fixtures ParsingRule.

Lemma whiteSpace_spec (c : ascii) :
  In c whiteSpace <-> JS.isWhiteSpace c = true.
Proof.
  assert (H : JS.isWhiteSpace c = existsb (Ascii.eqb c) whiteSpace)
    by (destruct c as [[] [] [] [] [] [] [] []]; reflexivity).
  rewrite H, existsb_exists. split.
  - intros Hin. exists c. split; [exact Hin | apply Ascii.eqb_refl].
  - intros (d & Hin & E). apply Ascii.eqb_eq in E. now subst d.
Qed.

Lemma upperOf_toUpperChar (c : ascii) : upperOf c = JS.toUpperChar c.
Proof. destruct c as [[] [] [] [] [] [] [] []]; reflexivity. Qed.

Lemma uppercased_toUpperCase (l : string) : uppercased l = JS.toUpperCase l.
Proof.
  induction l as [|c l IH]; simpl; [reflexivity|].
  now rewrite IH, upperOf_toUpperChar.
Qed.

Lemma prefix_split (p s : string) :
  String.prefix p s = true -> exists post, s = p ^ post.
Proof.
  revert s. induction p as [|c p IH]; intros s H.
  - now exists s.
  - destruct s as [|d s]; [discriminate|]. simpl in H.
    destruct (ascii_dec c d) as [->|]; [|discriminate].
    destruct (IH s H) as (post & ->). now exists post.
Qed.

Lemma Contains_includes (s w : string) :
  Contains s w <-> JS.includes s w = true.
Proof.
  split.
  - intros (pre & post & ->). apply includes_middle.
  - induction s as [|c s IH]; cbn [JS.includes]; intros H.
    + destruct (prefix_split _ _ H) as (post & E).
      now exists EmptyString, post.
    + apply orb_prop in H as [H|H].
      * destruct (prefix_split _ _ H) as (post & E).
        now exists EmptyString, post.
      * destruct (IH H) as (pre & post & ->).
        now exists (String c pre), post.
Qed.

(** *** White space and trimming *)

Lemma Blank_empty : Blank EmptyString.
Proof. intros c []. Qed.

Lemma Blank_cons (c : ascii) (s : string) :
  Blank (String c s) <-> JS.isWhiteSpace c = true /\ Blank s.
Proof.
  unfold Blank. cbn [list_ascii_of_string In]. split.
  - intros H. split; [apply whiteSpace_spec, H; now left|].
    intros d Hd. apply H. now right.
  - intros [Hc Hs] d [<-|Hd]; [now apply whiteSpace_spec | now apply Hs].
Qed.

Lemma trimStart_blank (lead x : string) :
  Blank lead -> JS.trimStart (lead ^ x) = JS.trimStart x.
Proof.
  induction lead as [|c lead IH]; intros H; [reflexivity|].
  apply Blank_cons in H as [Hc H]. cbn [String.append JS.trimStart].
  rewrite Hc. now apply IH.
Qed.

Lemma trimStart_all_blank (s : string) : Blank s -> JS.trimStart s = EmptyString.
Proof.
  intros H. rewrite <- (append_empty s). now rewrite trimStart_blank.
Qed.

Lemma trimStart_decomp (s : string) :
  exists lead, s = lead ^ JS.trimStart s /\ Blank lead.
Proof.
  induction s as [|c s (lead & E & H)]; [exists EmptyString; split; [reflexivity | apply Blank_empty]|].
  cbn [JS.trimStart]. destruct (JS.isWhiteSpace c) eqn:W.
  - exists (String c lead). split; [simpl; now rewrite <- E|].
    now apply Blank_cons.
  - exists EmptyString. split; [reflexivity | apply Blank_empty].
Qed.

Lemma trimStart_head (s : string) (c : ascii) (r : string) :
  JS.trimStart s = String c r -> JS.isWhiteSpace c = false.
Proof.
  induction s as [|d s IH]; [discriminate|]. cbn [JS.trimStart].
  destruct (JS.isWhiteSpace d) eqn:W; [exact IH|].
  intros H. injection H as <- _. exact W.
Qed.

Lemma trimEnd_all_blank (s : string) : Blank s -> JS.trimEnd s = EmptyString.
Proof.
  induction s as [|c s IH]; intros H; [reflexivity|].
  apply Blank_cons in H as [Hc H]. cbn [JS.trimEnd].
  now rewrite (IH H), Hc.
Qed.

Lemma trimEnd_blank (a b : string) :
  Blank b -> JS.trimEnd (a ^ b) = JS.trimEnd a.
Proof.
  intros H. induction a as [|c a IH]; [now apply trimEnd_all_blank|].
  cbn [String.append JS.trimEnd]. now rewrite IH.
Qed.

Lemma trimEnd_decomp (s : string) :
  exists trail, s = JS.trimEnd s ^ trail /\ Blank trail.
Proof.
  induction s as [|c s (trail & E & H)];
    [exists EmptyString; split; [reflexivity | apply Blank_empty]|].
  cbn [JS.trimEnd]. destruct (JS.trimEnd s) as [|d r] eqn:T.
  - destruct (JS.isWhiteSpace c) eqn:W.
    + exists (String c trail). split; [now rewrite E|].
      now apply Blank_cons.
    + exists trail. split; [now rewrite E | exact H].
  - exists trail. split; [now rewrite E | exact H].
Qed.

Lemma trimEnd_head (s : string) (c : ascii) (r : string) :
  JS.trimEnd s = String c r -> exists r', s = String c r'.
Proof.
  destruct s as [|d s]; [discriminate|]. cbn [JS.trimEnd].
  destruct (JS.trimEnd s).
  - destruct (JS.isWhiteSpace d); [discriminate|].
    intros H. injection H as <- _. eauto.
  - intros H. injection H as <- _. eauto.
Qed.

Lemma append_unit_inj (r p : string) (c d : ascii) :
  r ^ String c EmptyString = p ^ String d EmptyString -> r = p /\ c = d.
Proof.
  revert p. induction r as [|x r IH]; intros [|y p] H; simpl in H.
  - injection H as ->. now split.
  - injection H as -> H. now destruct p.
  - injection H as -> H. now destruct r.
  - injection H as -> H. destruct (IH p H) as [-> ->]. now split.
Qed.

Lemma string_last (s : string) :
  s <> EmptyString -> exists r c, s = r ^ String c EmptyString.
Proof.
  induction s as [|x s IH]; [contradiction|]. intros _.
  destruct s as [|y s]; [now exists EmptyString, x|].
  destruct IH as (r & c & E); [discriminate|].
  exists (String x r), c. simpl. now rewrite <- E.
Qed.

Lemma trimEnd_last (s r : string) (c : ascii) :
  JS.trimEnd s = r ^ String c EmptyString -> JS.isWhiteSpace c = false.
Proof.
  intros H. destruct (trimEnd_empty_or_last s) as [E|(p & d & E & W)].
  - rewrite E in H. now destruct r.
  - rewrite E in H. now destruct (append_unit_inj _ _ _ _ H) as [_ <-].
Qed.

Lemma trimEnd_fixed (t : string) :
  (forall r c, t = r ^ String c EmptyString -> JS.isWhiteSpace c = false) ->
  JS.trimEnd t = t.
Proof.
  intros H. destruct (trimEnd_decomp t) as (trail & E & B).
  destruct trail as [|x trail]; [now rewrite append_empty in E|].
  destruct (string_last (String x trail)) as (r & c & Ex); [discriminate|].
  assert (W : JS.isWhiteSpace c = true).
  { apply whiteSpace_spec, B. rewrite Ex.
    clear. induction r as [|y r IH]; simpl; [now left | now right]. }
  rewrite Ex, <- append_assoc in E.
  now rewrite (H _ _ E) in W.
Qed.

(** [trim] leaves what [Trimmed] says, and nothing else does. *)
Lemma Trimmed_trim (s : string) : Trimmed s (JS.trim s).
Proof.
  unfold JS.trim. split; [|split].
  - destruct (trimStart_decomp s) as (lead & E & Hl).
    destruct (trimEnd_decomp (JS.trimStart s)) as (trail & E' & Ht).
    exists lead, trail. split; [|now split].
    now rewrite <- E'.
  - intros c r H W.
    destruct (trimEnd_head _ _ _ H) as (r' & E).
    apply trimStart_head in E. apply whiteSpace_spec in W. congruence.
  - intros r c H W. apply trimEnd_last in H.
    apply whiteSpace_spec in W. congruence.
Qed.

Lemma Trimmed_unique (s t : string) : Trimmed s t -> t = JS.trim s.
Proof.
  intros ((lead & trail & -> & Hl & Ht) & Hhead & Hlast).
  unfold JS.trim. rewrite trimStart_blank by exact Hl.
  destruct t as [|c r].
  - cbn [String.append]. now rewrite trimStart_all_blank.
  - assert (W : JS.isWhiteSpace c = false).
    { destruct (JS.isWhiteSpace c) eqn:W; [|reflexivity].
      now apply whiteSpace_spec, (Hhead c r) in W. }
    cbn [String.append JS.trimStart]. rewrite W.
    change (String c (r ^ trail)) with (String c r ^ trail).
    rewrite trimEnd_blank by exact Ht.
    symmetry. apply trimEnd_fixed. intros r' d E.
    destruct (JS.isWhiteSpace d) eqn:Wd; [|reflexivity].
    now apply whiteSpace_spec, (Hlast r' d) in Wd.
Qed.

(** *** Lines *)

Lemma split_app_newline (b y : string) :
  JS.split JS.nl (b ^ String JS.nl y) = JS.split JS.nl b ++ JS.split JS.nl y.
Proof.
  induction b as [|c b IH]; [reflexivity|].
  cbn [String.append JS.split]. rewrite IH.
  destruct (Ascii.eqb c JS.nl); [reflexivity|].
  destruct (JS.split JS.nl b) as [|h t] eqn:E; [|reflexivity].
  now apply split_not_nil in E.
Qed.

Lemma no_newline_includes (l : string) :
  ~ In newline (list_ascii_of_string l) -> JS.includes l JS.lf = false.
Proof.
  induction l as [|c l IH]; intros H; [reflexivity|].
  cbn [list_ascii_of_string In] in H.
  cbn [JS.includes]. rewrite IH by tauto. rewrite orb_false_r.
  unfold JS.lf. cbn [String.prefix].
  destruct (ascii_dec JS.nl c) as [E|]; [|reflexivity].
  exfalso. apply H. now left.
Qed.

Lemma split_line (l : string) :
  ~ In newline (list_ascii_of_string l) -> JS.split JS.nl l = [l].
Proof.
  intros H. apply no_newline_includes in H.
  rewrite <- (append_empty l) at 1.
  rewrite (split_one_line l EmptyString H). simpl. now rewrite append_empty.
Qed.

Lemma last_app_nonempty {X} (l1 l2 : list X) (d : X) :
  l2 <> [] -> last (l1 ++ l2) d = last l2 d.
Proof.
  intros H. induction l1 as [|x l1 IH]; [reflexivity|].
  cbn [app]. destruct (l1 ++ l2) eqn:E; [|exact IH].
  now destruct l1, l2.
Qed.

Lemma split_segments (t : string) :
  Forall (fun l => ~ In newline (list_ascii_of_string l)) (JS.split JS.nl t).
Proof.
  induction t as [|c t IH]; [repeat constructor; intros []|].
  cbn [JS.split]. destruct (Ascii.eqb_spec c JS.nl) as [->|Hc].
  - constructor; [intros [] | exact IH].
  - destruct (JS.split JS.nl t) as [|h tl]; [repeat constructor; simpl; tauto|].
    inversion IH as [|? ? Hh Htl]; subst. constructor; [|exact Htl].
    cbn [list_ascii_of_string In]. intros [E|E]; [|now apply Hh].
    apply Hc. exact E.
Qed.

Lemma join_split (t : string) : JS.join JS.lf (JS.split JS.nl t) = t.
Proof.
  induction t as [|c t IH]; [reflexivity|].
  cbn [JS.split]. destruct (Ascii.eqb_spec c JS.nl) as [->|Hc].
  - destruct (JS.split JS.nl t) as [|h tl] eqn:E; [now apply split_not_nil in E|].
    change (JS.join JS.lf (EmptyString :: h :: tl))
      with (JS.lf ^ JS.join JS.lf (h :: tl)).
    now rewrite IH.
  - destruct (JS.split JS.nl t) as [|h tl] eqn:E; [now apply split_not_nil in E|].
    rewrite <- IH. now destruct tl.
Qed.

Lemma join_last (init : list string) (l : string) :
  JS.join JS.lf (init ++ [l])
  = match init with
    | [] => l
    | _ => (JS.join JS.lf init ^ JS.lf) ^ l
    end.
Proof.
  induction init as [|x init IH]; [reflexivity|].
  destruct init as [|y init]; [simpl; now rewrite append_assoc|].
  change (JS.join JS.lf ((x :: y :: init) ++ [l]))
    with (x ^ JS.lf ^ JS.join JS.lf ((y :: init) ++ [l])).
  rewrite IH.
  change (JS.join JS.lf (x :: y :: init))
    with (x ^ JS.lf ^ JS.join JS.lf (y :: init)).
  now rewrite !append_assoc.
Qed.

(** The last segment of [split] is a line that ends the text, at its start
    or after a newline. *)
Lemma split_last_line (t : string) :
  let l := last (JS.split JS.nl t) EmptyString in
  ~ In newline (list_ascii_of_string l) /\
  exists before,
    t = before ^ l /\
    (before = EmptyString \/ exists b, before = b ^ String newline EmptyString).
Proof.
  cbv zeta.
  destruct (exists_last (split_not_nil JS.nl t)) as (init & l & E).
  rewrite E, last_last. split.
  - pose proof (split_segments t) as H. rewrite E in H.
    apply Forall_app in H as [_ H]. now inversion H.
  - pose proof (join_split t) as J. rewrite E, join_last in J.
    destruct init as [|x init].
    + exists EmptyString. split; [now symmetry | now left].
    + eexists. split; [symmetry; exact J|]. right. eexists. reflexivity.
Qed.

Lemma split_last_unique (before l : string) :
  ~ In newline (list_ascii_of_string l) ->
  before = EmptyString \/ (exists b, before = b ^ String newline EmptyString) ->
  last (JS.split JS.nl (before ^ l)) EmptyString = l.
Proof.
  intros Hl [->|(b & ->)].
  - cbn [String.append]. now rewrite split_line.
  - rewrite append_assoc. change (String newline EmptyString ^ l) with (String JS.nl l).
    rewrite split_app_newline, last_app_nonempty by apply split_not_nil.
    now rewrite split_line.
Qed.

Lemma all_newlines_empty (t x after : string) :
  (forall r c, t = r ^ String c EmptyString -> ~ In c whiteSpace) ->
  t = x ^ after ->
  (forall c, In c (list_ascii_of_string after) -> c = newline) ->
  after = EmptyString.
Proof.
  intros Hlast E Hn. destruct after as [|a after]; [reflexivity|].
  destruct (string_last (String a after)) as (r & c & Ea); [discriminate|].
  assert (Hc : c = newline).
  { apply Hn. rewrite Ea. clear.
    induction r as [|y r IH]; simpl; [now left | now right]. }
  subst c. rewrite Ea, <- append_assoc in E.
  exfalso. apply (Hlast _ _ E). simpl. tauto.
Qed.

(** The rule and the parser read the same line. *)
Lemma Creative_spec (response : string) :
  Creative response <->
  JS.includes
    (JS.toUpperCase (last (JS.split JS.nl (JS.trim response)) EmptyString))
    "CREATIVE" = true.
Proof.
  split.
  - intros (t & l & Ht & (_ & Hl & before & after & E & Hb & Ha) & Hc).
    pose proof (Trimmed_unique _ _ Ht) as <-.
    destruct Ht as (_ & _ & Hlast).
    rewrite <- append_assoc in E.
    pose proof (all_newlines_empty _ _ _ Hlast E Ha) as ->.
    rewrite append_empty in E. subst t.
    rewrite split_last_unique by assumption.
    rewrite <- uppercased_toUpperCase. now apply Contains_includes.
  - intros H.
    destruct (split_last_line (JS.trim response)) as (Hl & before & E & Hb).
    exists (JS.trim response),
      (last (JS.split JS.nl (JS.trim response)) EmptyString).
    split; [apply Trimmed_trim|]. split.
    + split; [|split; [exact Hl|]].
      * intros E0. rewrite E0 in H. discriminate H.
      * exists before, EmptyString. split; [|split; [exact Hb|intros c []]].
        now rewrite append_empty.
    + rewrite uppercased_toUpperCase. now apply Contains_includes.
Qed.


Lemma intent_Creative (response : string) :
  exists c,
    parseClassification response = Some c /\
    (Creative response -> intent c = CREATIVE) /\
    (~ Creative response -> intent c = FACTUAL).
Proof.
  destruct (parseClassification_last response) as (c & Hc & Hfin & Hint).
  exists c. split; [exact Hc|].
  rewrite Hfin, includes_upper_trim in Hint.
  split; intros H.
  - apply Creative_spec in H. now rewrite H in Hint.
  - destruct (JS.includes _ "CREATIVE") eqn:E; [|exact Hint].
    now apply Creative_spec in E.
Qed.

(** The Intent named [SpecRule.intentOf] in the statements about runs is
    the one of the rule. *)
Lemma intentOf_Creative (response : string) :
  SpecRule.intentOf response = CREATIVE <-> Creative response.
Proof.
  destruct (parseClassification_spec response) as (c & Hc & <-).
  destruct (intent_Creative response) as (c' & Hc' & Hyes & Hno).
  rewrite Hc in Hc'. injection Hc' as <-. split; [|exact Hyes].
  intros H. destruct (JS.includes
    (JS.toUpperCase (last (JS.split JS.nl (JS.trim response)) EmptyString))
    "CREATIVE") eqn:E; [now apply Creative_spec|].
  assert (Hn : ~ Creative response).
  { intros Hc0. apply Creative_spec in Hc0. congruence. }
  rewrite (Hno Hn) in H. discriminate H.
Qed.



End ParsingRuleFacts.


Section Claims.

Import Obs Fixtures.

(** C1 (defect of the code). The claim asks for exactly one terminal event
    on every request with a non-empty prompt.  When both base calls raise, the
    streaming endpoint closes the response right after the two error markers:
    the run below ends with [End] and carries neither [done] nor [error]. *)
Theorem C1_dual_failure_ends_without_terminal_event :
  StreamObs.accepted request = true /\
  skipn 7 (trace (Stream.combine request bothDown))
  = [ Send (modelB_chunk (JS.lf ^ JS.lf ^ "--- ERROR: Google AI API call failed. ---"));
      Settled ModelB;
      Send (modelA_chunk (JS.lf ^ JS.lf ^ "--- ERROR: OpenAI API call failed. ---"));
      Settled ModelA;
      End ] /\
  filter isTerminal (trace (Stream.combine request bothDown)) = [].
Proof. repeat split; reflexivity. Qed.

(** C7 (defect of the code). The claim asks that a request without
    [chatHistory] be served as one with an empty history.  The streaming
    endpoint calls [slice] on the absent field: the request below gets the
    [error] event and nothing else, while the same prompt with an empty
    history runs to [done]. *)
Theorem C7_absent_history_ends_in_error :
  chatHistory requestNoHistory = None /\
  trace (Stream.combine requestNoHistory healthy)
  = [ FlushHeaders;
      Send (error "An unexpected error occurred: Cannot read properties of undefined (reading 'slice')");
      End ] /\
  filter isTerminal
    (trace (Stream.combine (mkRequest (Some tcp) None (Some [])) healthy))
  = [ Send (done "Stream complete.") ].
Proof. repeat split; reflexivity. Qed.

(** C8. In both endpoints, synthesis or refinement never begins before both
    base calls have settled: in every run, each action of the synthesis part
    (fallback log, synthesis status, request to the synthesizer, synthesis
    chunk) comes after the settlement of A and the settlement of B, whatever
    the order in which the two tasks were resumed, and no action of a base
    task comes after it.  The prompt is built between the join and the first
    of these actions. *)
Theorem C8_join_before_synthesis (req : Request) (w : Stream.World)
    (w' : Server.World) :
  JoinFirst (trace (Stream.combine req w)) /\
  JoinFirst (trace (Server.combine req w')).
Proof. split; [apply stream_join_first | apply server_join_first]. Qed.

Lemma C8_join_before_synthesis_witness :
  In (Settled ModelA) (firstn 13 (trace (Stream.combine request aBreaks))) /\
  In (Settled ModelB) (firstn 13 (trace (Stream.combine request aBreaks))) /\
  forallb (fun b => negb (isBaseTaskAction b))
    (skipn 13 (trace (Stream.combine request aBreaks))) = true.
Proof.
  exact (proj1 (C8_join_before_synthesis request aBreaks aMentionsError)
           (firstn 13 (trace (Stream.combine request aBreaks)))
           (Send (fallback_log "Model A failed. Refining Model B's response."))
           (skipn 14 (trace (Stream.combine request aBreaks)))
           eq_refl eq_refl).
Defined.

(** C4, as the code has it.  In the streaming endpoint the step after the
    join depends on the pair (A raised, B raised) alone: both, and the
    response is closed with no synthesis action at all; one, and the
    synthesizer receives the refinement prompt built from the text of the
    other side, the first fallback log naming the side that failed; none, and
    it receives the synthesis prompt built from both texts, the first
    fallback log being empty.  In the one-shot endpoint the same four ways
    are taken on the pair of flags it derives from the two texts, with the
    FATAL record and no request to the synthesizer when both are set; its log
    for a single failure is the same sentence for either side. *)
Theorem C4_fallback_decision (p : string) (cs : option string) (h0 : list Turn)
    (ch : option (list Turn)) (w : Stream.World) (w' : Server.World) :
  JS.truthy p = true ->
  (let run := trace (Stream.combine (mkRequest (Some p) cs (Some h0)) w) in
   let h := JS.slice_0_m1 h0 in
   let textA := concatText (map deltaText (fragments (Stream.baseA w))) in
   let textB := concatText (fragments (Stream.baseB w)) in
   match decide (isSome (raises (Stream.baseA w)))
                (isSome (raises (Stream.baseB w))) with
   | DualFailureAbort =>
       filter isSynthesisAction run = [] /\
       synthesisPrompts run = [] /\
       exists front, run = front ++ [End]
   | RefineB =>
       synthesisPrompts run = [Stream.getRefinementPrompt p textB cs (Some h)] /\
       hd_error (fallbackLogs run)
       = Some "Model A failed. Refining Model B's response."
   | RefineA =>
       synthesisPrompts run = [Stream.getRefinementPrompt p textA cs (Some h)] /\
       hd_error (fallbackLogs run)
       = Some "Model B failed. Refining Model A's response."
   | SynthesizeBoth =>
       synthesisPrompts run
       = [Stream.getSynthesisPrompt p textA textB cs (Some h)] /\
       hd_error (fallbackLogs run) = Some EmptyString
   end) /\
  (let run := trace (Server.combine (mkRequest (Some p) cs ch) w') in
   let cfg :=
     config (DYNAMIC_PIPELINES (SpecRule.intentOf (ServerObs.classifierText w'))) in
   let g := ServerObs.gptText w' cfg in
   let m := ServerObs.geminiText w' cfg in
   match decide (JS.includes g "ERROR") (JS.includes m "ERROR") with
   | DualFailureAbort =>
       synthesisPrompts run = [] /\
       exists pipelineName r,
         ServerObs.answers run
         = [(200, ResultBody "FATAL: Both primary models failed. Please try again."
                    g m pipelineName "Both base models failed." r)]
   | RefineB =>
       synthesisPrompts run = [Server.getRefinementPrompt p m] /\
       exists body,
         ServerObs.answers run = [(200, body)] /\
         ServerObs.fallbackLogOf body
         = ServerObs.unavailableLog
           ^ ServerObs.synthesisNote w' cfg ServerObs.unavailableLog
   | RefineA =>
       synthesisPrompts run = [Server.getRefinementPrompt p g] /\
       exists body,
         ServerObs.answers run = [(200, body)] /\
         ServerObs.fallbackLogOf body
         = ServerObs.unavailableLog
           ^ ServerObs.synthesisNote w' cfg ServerObs.unavailableLog
   | SynthesizeBoth =>
       synthesisPrompts run = [Server.getSynthesisPrompt p g m] /\
       exists body,
         ServerObs.answers run = [(200, body)] /\
         ServerObs.fallbackLogOf body = ServerObs.synthesisNote w' cfg EmptyString
   end).
Proof.
  intros Hp. split.
  - cbv zeta.
    pose proof (stream_prompts p cs h0 w Hp) as HP.
    destruct (stream_logs p cs h0 w Hp) as (c & _ & HL).
    rewrite stream_synthesis_logs in HL.
    destruct (combine_accepted p cs h0 w Hp) as (c' & l & _ & _ & HM & HR).
    rewrite HP, HL. rewrite HR. cbn [trace fst].
    rewrite synthesis_spec, !filter_app.
    rewrite (filter_base _ l base_not_synthesis (base_merge_base w l HM)).
    rewrite joined_fields.
    unfold Stream.prepareSynthesis.
    cbn [Stream.gptFailed Stream.geminiFailed Stream.gptResult Stream.geminiResult].
    destruct (raises (Stream.baseA w)), (raises (Stream.baseB w));
      cbn [isSome decide andb fst snd hd_error]; repeat split.
    rewrite !app_assoc. eexists. reflexivity.
  - cbv zeta.
    destruct (server_prompts_and_answers (mkRequest (Some p) cs ch) p w'
                eq_refl Hp) as (c & _ & Hint & HP & HA).
    cbv zeta in HP, HA. rewrite HP, HA, <- Hint.
    rewrite server_synthesis_spec. cbn [trace fst].
    unfold Server.prepareSynthesis.
    destruct (JS.includes (ServerObs.gptText w' _) "ERROR"),
             (JS.includes (ServerObs.geminiText w' _) "ERROR");
      cbn [decide andb]; unfold synthesisPrompts, ServerObs.answers;
      cbn [collect synthesisPromptOf];
      rewrite ?server_synthesisCall_prompt, ?server_synthesisCall_no_answer;
      (split; [reflexivity|]); eauto.
Qed.

Lemma C4_fallback_decision_witness :
  JS.truthy tcp = true /\
  synthesisPrompts (trace (Stream.combine request aBreaks))
  = [Stream.getRefinementPrompt tcp
       "AIMD: additive increase, multiplicative decrease." None (Some [])] /\
  hd_error (fallbackLogs (trace (Stream.combine request aBreaks)))
  = Some "Model A failed. Refining Model B's response.".
Proof.
  split; [reflexivity|].
  exact (proj1 (C4_fallback_decision tcp None [mkTurn "user" tcp] None
                  aBreaks serverADown eq_refl)).
Defined.

(** C4 as stated fails on the one-shot endpoint: when exactly one base text
    is taken as failed its fallback log is the same sentence whichever side
    failed, and names neither side. *)
Lemma C4_server_log_names_no_side :
  map (fun a => ServerObs.fallbackLogOf (snd a))
    (ServerObs.answers (trace (Server.combine request serverADown)))
  = ["A primary model was unavailable. Refining the best available response."] /\
  map (fun a => ServerObs.fallbackLogOf (snd a))
    (ServerObs.answers (trace (Server.combine request serverBDown)))
  = ["A primary model was unavailable. Refining the best available response."] /\
  synthesisPrompts (trace (Server.combine request serverADown))
  = [Server.getRefinementPrompt tcp "draft B"] /\
  synthesisPrompts (trace (Server.combine request serverBDown))
  = [Server.getRefinementPrompt tcp "draft A"] /\
  forallb (fun side => negb (JS.includes ServerObs.unavailableLog side))
    ["Model A"; "Model B"; "GPT"; "Gemini"; "OpenAI"; "Google"] = true.
Proof. repeat split; reflexivity. Qed.

(** C2, as the code has it.  When the call of the classifier raises, the
    adapter answers its marker text and the request goes on: the parser makes
    FACTUAL of the marker, with an empty reasoning; the streaming endpoint
    announces the FACTUAL pipeline, sends the two base requests with its
    models and sends no [error] event; the one-shot endpoint answers with
    code 200 and the name of the FACTUAL pipeline. *)
Theorem C2_classifier_failure_defaults_to_factual (p : string)
    (cs : option string) (h0 : list Turn) (ch : option (list Turn))
    (w : Stream.World) (w' : Server.World) :
  JS.truthy p = true ->
  isSome (raises (Stream.classifierCall w)) = true ->
  isSome (raises (Server.classifierCall w')) = true ->
  (let run := trace (Stream.combine (mkRequest (Some p) cs (Some h0)) w) in
   parseClassification (StreamObs.classifierText w) = Some classifierDefault /\
   (exists rest,
      run = StreamObs.prelude p (JS.slice_0_m1 h0) classifierDefault
            ++ StreamObs.baseCalls p (JS.slice_0_m1 h0)
                 (config (DYNAMIC_PIPELINES FACTUAL))
            ++ rest) /\
   filter isError run = []) /\
  (let run := trace (Server.combine (mkRequest (Some p) cs ch) w') in
   parseClassification (ServerObs.classifierText w') = Some classifierDefault /\
   exists body,
     ServerObs.answers run = [(200, body)] /\
     ServerObs.pipelineNameOf body = name (DYNAMIC_PIPELINES FACTUAL)).
Proof.
  intros Hp Hw Hw'. split; cbv zeta.
  - assert (Hc : parseClassification (StreamObs.classifierText w)
                 = Some classifierDefault).
    { unfold StreamObs.classifierText.
      destruct (raises (Stream.classifierCall w)); [reflexivity | discriminate]. }
    split; [exact Hc|]. split; [|now apply stream_accepted_no_error].
    destruct (combine_accepted p cs h0 w Hp) as (c & l & Hc' & _ & _ & ->).
    rewrite Hc in Hc'. injection Hc' as <-. cbn [trace fst]. eauto.
  - assert (Hc : parseClassification (ServerObs.classifierText w')
                 = Some classifierDefault).
    { unfold ServerObs.classifierText.
      destruct (raises (Server.classifierCall w')); [reflexivity | discriminate]. }
    split; [exact Hc|].
    destruct (server_prompts_and_answers (mkRequest (Some p) cs ch) p w'
                eq_refl Hp) as (c & Hc' & _ & _ & HA).
    rewrite Hc in Hc'. injection Hc' as <-. cbv zeta in HA. rewrite HA.
    destruct (synthesis_shape w' p (DYNAMIC_PIPELINES FACTUAL) EmptyString
                (ServerObs.gptText w' (config (DYNAMIC_PIPELINES FACTUAL)))
                (ServerObs.geminiText w' (config (DYNAMIC_PIPELINES FACTUAL))))
      as (body & Hs & Hn).
    exists body. split; [|exact Hn].
    change (reasoning classifierDefault) with EmptyString.
    change (intent classifierDefault) with FACTUAL.
    rewrite Hs. cbn [trace fst]. unfold ServerObs.answers. rewrite collect_app.
    destruct (JS.includes _ "ERROR" && JS.includes _ "ERROR"); [reflexivity|].
    now destruct (JS.startsWith _ "gemini").
Qed.

Lemma C2_classifier_failure_defaults_to_factual_witness :
  parseClassification (StreamObs.classifierText classifierDown)
  = Some classifierDefault /\
  filter isError (trace (Stream.combine request classifierDown)) = [].
Proof.
  pose (H := proj1 (C2_classifier_failure_defaults_to_factual tcp None
                      [mkTurn "user" tcp] None classifierDown
                      serverClassifierDown eq_refl eq_refl eq_refl)).
  exact (conj (proj1 H) (proj2 (proj2 H))).
Defined.

(** C2 as stated fails: with a classifier whose call raises, the streaming
    run announces the FACTUAL pipeline and ends with [done], and the one-shot
    run answers 200 with a synthesized text. *)
Lemma C2_classifier_failure_is_not_fatal :
  raises (Stream.classifierCall classifierDown) = Some "socket hang up" /\
  nth_error (trace (Stream.combine request classifierDown)) 3
  = Some (Send (initial_data "Factual Pipeline (SOTA Base -> Quick Synth)"
                  EmptyString)) /\
  filter isTerminal (trace (Stream.combine request classifierDown))
  = [Send (done "Stream complete.")] /\
  raises (Server.classifierCall serverClassifierDown) = Some "socket hang up" /\
  ServerObs.answers (trace (Server.combine request serverClassifierDown))
  = [(200, ResultBody "Merged." "draft A" "draft B"
             "Factual Pipeline (SOTA Base -> Quick Synth)"
             EmptyString EmptyString)].
Proof. repeat split; reflexivity. Qed.

(** C5 (defect of the code).  The claim asks that a text a provider has
    returned never be taken as a failure for what it says.  The one-shot
    endpoint and the evaluation scripts search the text for ERROR: below,
    base A answers without raising, its text speaks of an error, and the run
    refines the text of B alone and logs that a model was unavailable. *)
Theorem C5_returned_text_with_ERROR_is_taken_as_failure :
  raises (Server.baseA aMentionsError) = None /\
  ServerObs.gptText aMentionsError (config (DYNAMIC_PIPELINES FACTUAL))
  = "A 404 ERROR means the page was not found." /\
  synthesisPrompts (trace (Server.combine request404 aMentionsError))
  = [Server.getRefinementPrompt "What does HTTP status 404 mean?"
       "HTTP 404: not found."] /\
  map (fun a => ServerObs.fallbackLogOf (snd a))
    (ServerObs.answers (trace (Server.combine request404 aMentionsError)))
  = [ServerObs.unavailableLog] /\
  Batch.gptFailed (Batch.gptContent (Server.baseA aMentionsError)) = true.
Proof. repeat split; reflexivity. Qed.

(** C6. When the call of the synthesizer raises (at once or after some
    chunks) in a run of the streaming endpoint where at least one base call
    succeeded, the request is not fatal: the run ends with the fallback log
    extended by the note of the failure, one synthesis chunk made of the
    fallback label and the text of A (the text of B when A had raised), the
    [done] event and the end of the response; no terminal event comes before
    that [done], so no [error] event is sent. *)
Theorem C6_synthesizer_failure_falls_back (p : string) (cs : option string)
    (h0 : list Turn) (w : Stream.World) :
  JS.truthy p = true ->
  isSome (raises (Stream.baseA w)) && isSome (raises (Stream.baseB w)) = false ->
  StreamObs.synthesizerRaises w
    (config (DYNAMIC_PIPELINES (SpecRule.intentOf (StreamObs.classifierText w))))
  = true ->
  let run := trace (Stream.combine (mkRequest (Some p) cs (Some h0)) w) in
  let textA := concatText (map deltaText (fragments (Stream.baseA w))) in
  let textB := concatText (fragments (Stream.baseB w)) in
  exists front log,
    run = front
          ++ [ Send (fallback_log (log ^ StreamObs.synthesisFailedNote));
               Send (synthesis_chunk
                 (StreamObs.fallbackLabel
                  ^ (if isSome (raises (Stream.baseA w)) then textB else textA)));
               Send (done "Stream complete.");
               End ] /\
    hd_error (fallbackLogs front) = Some log /\
    filter isTerminal front = [].
Proof.
  intros Hp Hone Hsynth. cbv zeta.
  destruct (combine_accepted p cs h0 w Hp) as (c & l & _ & Hint & HM & ->).
  cbn [trace fst]. rewrite synthesis_spec, joined_fields, Hint, Hsynth.
  cbn [Stream.gptFailed Stream.geminiFailed Stream.gptResult Stream.geminiResult].
  rewrite Hone.
  set (h := JS.slice_0_m1 h0).
  set (cfg := config (DYNAMIC_PIPELINES
                        (SpecRule.intentOf (StreamObs.classifierText w)))).
  destruct (Stream.prepareSynthesis p cs h _) as [sp log].
  exists (StreamObs.prelude p h c ++ StreamObs.baseCalls p h cfg ++ l
          ++ [Send (fallback_log log);
              Send (status "Synthesizing final response...")]
          ++ StreamObs.synthesisCall cfg h sp
          :: map (fun t => Send (synthesis_chunk t))
               (StreamObs.synthesizerTexts w cfg)), log.
  split; [|split].
  - rewrite <- !app_assoc. cbn [app trace fst].
    now destruct (isSome (raises (Stream.baseA w))).
  - unfold fallbackLogs. rewrite !collect_app.
    rewrite (collect_base _ l base_no_log (base_merge_base w l HM)).
    reflexivity.
  - rewrite !filter_app.
    rewrite (filter_base _ l base_not_terminal (base_merge_base w l HM)).
    cbn [app filter isTerminal]. rewrite synthesisCall_not_terminal.
    now rewrite filter_chunks.
Qed.

Lemma C6_synthesizer_failure_falls_back_witness :
  exists front log,
    trace (Stream.combine request synthesizerDown)
    = front
      ++ [ Send (fallback_log (log ^ StreamObs.synthesisFailedNote));
           Send (synthesis_chunk
                   (StreamObs.fallbackLabel ^ "TCP probes for bandwidth."));
           Send (done "Stream complete.");
           End ] /\
    hd_error (fallbackLogs front) = Some log /\
    filter isTerminal front = [].
Proof.
  exact (C6_synthesizer_failure_falls_back tcp None [mkTurn "user" tcp]
           synthesizerDown eq_refl eq_refl eq_refl).
Defined.

(** C9, as the code has it.  For a base-A stream that ends without raising,
    the chunks of model A are the fragments of the backend in their order,
    whatever the schedule, and their concatenation is the text the one-shot
    adapter returns when the backend serves the same completion. *)
Theorem C9_chunks_concatenate_to_one_shot_text (p : string) (cs : option string)
    (h0 : list Turn) (w : Stream.World) (modelName : string)
    (chatHistoryForApi : list ApiTurn) :
  JS.truthy p = true ->
  raises (Stream.baseA w) = None ->
  let run := trace (Stream.combine (mkRequest (Some p) cs (Some h0)) w) in
  chunksA run = map deltaText (fragments (Stream.baseA w)) /\
  snd (Stream.getGptResponse (Base ModelA) (Stream.baseA w) p modelName
         chatHistoryForApi)
  = Val (concatText (chunksA run)).
Proof.
  intros Hp Hok. cbv zeta.
  rewrite stream_chunksA, getGptResponse_spec, Hok, app_nil_r by exact Hp.
  now split.
Qed.

Lemma C9_chunks_concatenate_to_one_shot_text_witness :
  chunksA (trace (Stream.combine request healthy))
  = [EmptyString; "TCP probes "; "for bandwidth."] /\
  snd (Stream.getGptResponse (Base ModelA) (Stream.baseA healthy) tcp "gpt-5" [])
  = Val (concatText (chunksA (trace (Stream.combine request healthy)))).
Proof.
  exact (C9_chunks_concatenate_to_one_shot_text tcp None [mkTurn "user" tcp]
           healthy "gpt-5" [] eq_refl eq_refl).
Defined.

(** C9 as stated fails when the stream of base A raises: the chunks of
    model A then end with the marker of the catch clause, and the one-shot
    adapter, served the same completion, returns its own marker text. *)
Lemma C9_raising_stream_differs_from_one_shot :
  concatText (chunksA (trace (Stream.combine request aBreaks)))
  = "TCP pro" ^ JS.lf ^ JS.lf ^ "--- ERROR: OpenAI API call failed. ---" /\
  snd (Stream.getGptResponse (Base ModelA) (Stream.baseA aBreaks) tcp "gpt-5" [])
  = Val "ERROR: OpenAI API call failed for model gpt-5." /\
  String.eqb (concatText (chunksA (trace (Stream.combine request aBreaks))))
    "ERROR: OpenAI API call failed for model gpt-5." = false.
Proof. repeat split; reflexivity. Qed.

(** C10. In the streaming endpoint, whatever the schedule, the variables at
    the join hold the fragments of each backend and nothing else: the marker
    a failing task sends as its last chunk is not part of them.  And a base call
    that has raised leaves no trace in the synthesis part of the run: with
    any other fragments delivered before the failure, the fallback logs, the
    request to the synthesizer (so its prompt) and the synthesis chunks (so
    the text shown when the synthesizer fails) are the same. *)
Theorem C10_failed_text_stays_out_of_the_answer (p : string)
    (cs : option string) (h0 : list Turn) (w : Stream.World) :
  JS.truthy p = true ->
  let req := mkRequest (Some p) cs (Some h0) in
  (forall sched,
     snd (Stream.promiseAll sched (StreamObs.taskA w) (StreamObs.taskB w)
            Stream.vars0)
     = Stream.mkVars (concatText (map deltaText (fragments (Stream.baseA w))))
         (concatText (fragments (Stream.baseB w)))
         (isSome (raises (Stream.baseA w))) (isSome (raises (Stream.baseB w)))) /\
  chunksA (trace (Stream.combine req w))
  = map deltaText (fragments (Stream.baseA w))
    ++ (if isSome (raises (Stream.baseA w))
        then [JS.lf ^ JS.lf ^ "--- ERROR: OpenAI API call failed. ---"]
        else []) /\
  chunksB (trace (Stream.combine req w))
  = fragments (Stream.baseB w)
    ++ (if isSome (raises (Stream.baseB w))
        then [JS.lf ^ JS.lf ^ "--- ERROR: Google AI API call failed. ---"]
        else []) /\
  (forall e otherFragments,
     raises (Stream.baseA w) = Some e ->
     filter isSynthesisAction (trace (Stream.combine req w))
     = filter isSynthesisAction
         (trace (Stream.combine req
                   (StreamObs.withBaseA w (mkCompletion otherFragments (Some e)))))) /\
  (forall e otherFragments,
     raises (Stream.baseB w) = Some e ->
     filter isSynthesisAction (trace (Stream.combine req w))
     = filter isSynthesisAction
         (trace (Stream.combine req
                   (StreamObs.withBaseB w (mkCompletion otherFragments (Some e)))))).
Proof.
  intros Hp. cbv zeta.
  assert (Hview : forall w1 : Stream.World,
    exists c,
      parseClassification (StreamObs.classifierText w1) = Some c /\
      filter isSynthesisAction
        (trace (Stream.combine (mkRequest (Some p) cs (Some h0)) w1))
      = filter isSynthesisAction
          (trace (Stream.synthesis w1 p cs (JS.slice_0_m1 h0)
                    (config (DYNAMIC_PIPELINES (intent c)))
                    (StreamObs.joined w1)))).
  { intros w1.
    destruct (combine_accepted p cs h0 w1 Hp) as (c & l & Hc & _ & HM & ->).
    exists c. split; [exact Hc|]. cbn [trace fst]. rewrite !filter_app.
    rewrite (filter_base _ l base_not_synthesis (base_merge_base w1 l HM)).
    reflexivity. }
  split; [intros sched; apply stream_flags_follow_the_catch|].
  split.
  { rewrite stream_chunksA by exact Hp.
    now destruct (raises (Stream.baseA w)). }
  split.
  { rewrite stream_chunksB by exact Hp.
    now destruct (raises (Stream.baseB w)). }
  split; intros e other He.
  - destruct (Hview w) as (c & Hc & ->).
    destruct (Hview (StreamObs.withBaseA w (mkCompletion other (Some e))))
      as (c' & Hc' & ->).
    change (StreamObs.classifierText (StreamObs.withBaseA w _))
      with (StreamObs.classifierText w) in Hc'.
    rewrite Hc in Hc'. injection Hc' as <-.
    rewrite !synthesis_spec, !joined_fields. cbn [trace fst].
    unfold Stream.prepareSynthesis.
    cbn [Stream.gptFailed Stream.geminiFailed Stream.gptResult
         Stream.geminiResult StreamObs.withBaseA Stream.baseA Stream.baseB
         raises fragments].
    rewrite He. reflexivity.
  - destruct (Hview w) as (c & Hc & ->).
    destruct (Hview (StreamObs.withBaseB w (mkCompletion other (Some e))))
      as (c' & Hc' & ->).
    change (StreamObs.classifierText (StreamObs.withBaseB w _))
      with (StreamObs.classifierText w) in Hc'.
    rewrite Hc in Hc'. injection Hc' as <-.
    rewrite !synthesis_spec, !joined_fields. cbn [trace fst].
    unfold Stream.prepareSynthesis.
    cbn [Stream.gptFailed Stream.geminiFailed Stream.gptResult
         Stream.geminiResult StreamObs.withBaseB Stream.baseA Stream.baseB
         raises fragments].
    rewrite He.
    destruct (raises (Stream.baseA w)); reflexivity.
Qed.

Lemma C10_failed_text_stays_out_of_the_answer_witness :
  chunksA (trace (Stream.combine request aBreaks))
  = ["TCP pro"; JS.lf ^ JS.lf ^ "--- ERROR: OpenAI API call failed. ---"] /\
  filter isSynthesisAction (trace (Stream.combine request aBreaks))
  = filter isSynthesisAction
      (trace (Stream.combine request
                (StreamObs.withBaseA aBreaks
                   (mkCompletion [Some "ERROR: anything else"]
                      (Some "socket hang up"))))).
Proof.
  pose (H := C10_failed_text_stays_out_of_the_answer tcp None
               [mkTurn "user" tcp] aBreaks eq_refl).
  exact (conj (proj1 (proj2 H))
              (proj1 (proj2 (proj2 (proj2 H))) "socket hang up"
                 [Some "ERROR: anything else"] eq_refl)).
Defined.

End Claims.

(** * Further properties of the code *)

(** ** The prompt composer of the streaming endpoint *)

Section Composer.

Import Obs Fixtures.

Lemma formatTurn_one_line (turn : Turn) :
  StreamObs.oneLine turn = true ->
  JS.includes (Stream.formatTurn turn) JS.lf = false.
Proof.
  unfold StreamObs.oneLine, Stream.formatTurn. intros H.
  apply negb_true_iff in H.
  destruct (String.eqb (role turn) "user");
    repeat apply no_newline_append; try reflexivity; exact H.
Qed.

(** X1. A non-empty history whose turns hold no newline is rendered one
    line per turn, in order, each line being the label of the role (User for
    the role user, Assistant for any other), a colon and the content; and
    such a transcript is never the placeholder of an empty history. *)
Theorem X1_transcript_has_one_line_per_turn (h : list Turn) :
  h <> [] -> forallb StreamObs.oneLine h = true ->
  JS.split JS.nl (Stream.formatChatHistory (Some h)) = map Stream.formatTurn h /\
  Stream.formatChatHistory (Some h) <> Stream.formatChatHistory (Some []) /\
  Stream.formatChatHistory (Some []) = Stream.formatChatHistory None.
Proof.
  intros Hne Hone.
  assert (Hfmt : Stream.formatChatHistory (Some h)
                 = JS.join JS.lf (map Stream.formatTurn h)).
  { destruct h; [contradiction | reflexivity]. }
  split; [|split; [|reflexivity]].
  - rewrite Hfmt. apply split_join.
    + destruct h; [contradiction | discriminate].
    + clear Hfmt Hne. induction h as [|t h IH]; [reflexivity|].
      cbn [forallb map] in *. apply andb_prop in Hone as [Ht Hh].
      rewrite (formatTurn_one_line t Ht). now apply IH.
  - rewrite Hfmt. destruct h as [|t h]; [contradiction|].
    unfold Stream.formatTurn. simpl.
    destruct (String.eqb (role t) "user"), h; simpl; discriminate.
Qed.

Lemma X1_transcript_has_one_line_per_turn_witness :
  JS.split JS.nl
    (Stream.formatChatHistory
       (Some [mkTurn "user" "Hi"; mkTurn "assistant" "Hello."; mkTurn "system" "x"]))
  = ["User: Hi"; "Assistant: Hello."; "Assistant: x"].
Proof.
  exact (proj1 (X1_transcript_has_one_line_per_turn
                  [mkTurn "user" "Hi"; mkTurn "assistant" "Hello.";
                   mkTurn "system" "x"]
                  ltac:(discriminate) eq_refl)).
Defined.

(** Walks a concatenation up to the piece [ci]: what stands before it, and
    what stands after. *)
Ltac peel_block ci t acc k :=
  lazymatch t with
  | ci ^ ?post => k acc post
  | ?x ^ ?rest => peel_block ci rest (acc ^ x) k
  end.

(** X2. A constraint adds one block to the synthesis prompt and to the
    refinement prompt and changes nothing else: the prompt with a non-empty
    constraint is the prompt without one, with the CRITICAL INSTRUCTION block
    that quotes the constraint put in at one place; an absent and an empty
    constraint give the same prompt, with no block. *)
Theorem X2_constraint_adds_one_block (p a b c : string)
    (h : option (list Turn)) :
  JS.truthy c = true ->
  let block :=
    JS.lf ^ JS.lf ^ "CRITICAL INSTRUCTION: Adhere to this constraint: " ^ c ^ JS.lf in
  (exists pre post,
     Stream.getSynthesisPrompt p a b None h = pre ^ post /\
     Stream.getSynthesisPrompt p a b (Some EmptyString) h = pre ^ post /\
     Stream.getSynthesisPrompt p a b (Some c) h = pre ^ block ^ post) /\
  (exists pre post,
     Stream.getRefinementPrompt p a None h = pre ^ post /\
     Stream.getRefinementPrompt p a (Some EmptyString) h = pre ^ post /\
     Stream.getRefinementPrompt p a (Some c) h = pre ^ block ^ post).
Proof.
  intros Hc. cbv zeta.
  set (blk := JS.lf ^ JS.lf
              ^ "CRITICAL INSTRUCTION: Adhere to this constraint: " ^ c ^ JS.lf).
  assert (Hblk : Stream.constraintInstruction c = blk).
  { unfold Stream.constraintInstruction. now rewrite Hc. }
  assert (Hnone : Stream.constraintInstruction EmptyString = EmptyString)
    by reflexivity.
  split.
  - unfold Stream.getSynthesisPrompt. cbv beta iota zeta. rewrite Hblk, Hnone.
    lazymatch goal with
    | |- exists pre post, _ /\ _ /\ (?x ^ ?rest = _) =>
        peel_block blk rest x ltac:(fun acc post => exists acc, post)
    end.
    rewrite !append_assoc. repeat split; reflexivity.
  - unfold Stream.getRefinementPrompt. cbv beta iota zeta. rewrite Hblk, Hnone.
    lazymatch goal with
    | |- exists pre post, _ /\ _ /\ (?x ^ ?rest = _) =>
        peel_block blk rest x ltac:(fun acc post => exists acc, post)
    end.
    rewrite !append_assoc. repeat split; reflexivity.
Qed.

Lemma X2_constraint_adds_one_block_witness :
  exists pre post,
    Stream.getRefinementPrompt tcp "draft" None None = pre ^ post /\
    Stream.getRefinementPrompt tcp "draft" (Some EmptyString) None = pre ^ post /\
    Stream.getRefinementPrompt tcp "draft" (Some "without analogies") None
    = pre ^ (JS.lf ^ JS.lf ^ "CRITICAL INSTRUCTION: Adhere to this constraint: "
             ^ "without analogies" ^ JS.lf) ^ post.
Proof.
  exact (proj2 (X2_constraint_adds_one_block tcp "draft" "other"
                  "without analogies" None eq_refl)).
Defined.

(** X3. The translation of a history into the schema of a backend keeps
    every turn, in order, with its role and its content unchanged: read back,
    the translated turns are the turns of the history, for the role/content
    schema as for the role/parts schema (one part per turn).  An absent
    history, and an unknown schema name, give the empty list. *)
Theorem X3_history_translation_is_lossless (h : list Turn) (apiType : string) :
  map turnOfApi (Stream.convertHistoryForApi (Some h) "openai") = map Some h /\
  map turnOfApi (Stream.convertHistoryForApi (Some h) "gemini") = map Some h /\
  forallb isOpenAITurn (Stream.convertHistoryForApi (Some h) "openai") = true /\
  forallb isGeminiTurn (Stream.convertHistoryForApi (Some h) "gemini") = true /\
  Stream.convertHistoryForApi None apiType = [] /\
  (if String.eqb apiType "openai" || String.eqb apiType "gemini" then True
   else Stream.convertHistoryForApi (Some h) apiType = []).
Proof.
  unfold Stream.convertHistoryForApi. cbn [String.eqb Ascii.eqb Bool.eqb].
  repeat split.
  - induction h as [|[r c] h IH]; [reflexivity|]. simpl. now rewrite IH.
  - induction h as [|[r c] h IH]; [reflexivity|]. simpl. now rewrite IH.
  - induction h as [|t h IH]; [reflexivity | exact IH].
  - induction h as [|t h IH]; [reflexivity | exact IH].
  - destruct (String.eqb apiType "openai"); [exact I|].
    destruct (String.eqb apiType "gemini"); [exact I | reflexivity].
Qed.

End Composer.

(** ** Requests the endpoints turn away, and the window on the history *)

Section Requests.

Import Obs Fixtures.

(** X4. Both endpoints answer a request whose prompt is absent or empty
    with code 400 and nothing else (no header is flushed, no backend is
    called), and they answer no other request that way. *)
Theorem X4_missing_prompt_is_answered_400 (req : Request) (w : Stream.World)
    (w' : Server.World) :
  let missing :=
    match prompt req with Some p => negb (JS.truthy p) | None => true end in
  (trace (Stream.combine req w) = [Json 400 (ErrorBody "Prompt is required.")]
   <-> missing = true) /\
  (trace (Server.combine req w') = [Json 400 (ErrorBody "Prompt is required.")]
   <-> missing = true).
Proof.
  cbv zeta. destruct req as [[p|] cs ch]; cbn [prompt].
  2:{ split; split; reflexivity. }
  destruct (JS.truthy p) eqn:Hp; cbn [negb].
  - split; split; try discriminate; intros H; exfalso.
    + destruct ch as [h0|].
      * destruct (combine_accepted p cs h0 w Hp) as (c & l & _ & _ & _ & E).
        rewrite E in H. discriminate H.
      * rewrite (combine_no_history p cs w Hp) in H. discriminate H.
    + destruct (server_combine_accepted (mkRequest (Some p) cs ch) p w'
                  eq_refl Hp) as (c & _ & _ & E).
      rewrite E in H. discriminate H.
  - split; split; try reflexivity; intros _.
    + rewrite combine_no_prompt; [reflexivity | cbn [prompt]; now rewrite Hp].
    + rewrite server_combine_no_prompt;
        [reflexivity | cbn [prompt]; now rewrite Hp].
Qed.

(** X5. The streaming endpoint never reads the last turn of the history
    it is given (the turn just submitted): a run is the same whatever that
    turn is, and a history of one turn is served as the empty history. *)
Theorem X5_last_turn_is_never_read (p cs : option string) (h : list Turn)
    (t t' : Turn) (w : Stream.World) :
  Stream.combine (mkRequest p cs (Some (h ++ [t]))) w
  = Stream.combine (mkRequest p cs (Some (h ++ [t']))) w /\
  Stream.combine (mkRequest p cs (Some [t])) w
  = Stream.combine (mkRequest p cs (Some [])) w.
Proof.
  unfold Stream.combine, JS.slice_0_m1. rewrite !removelast_last.
  split; reflexivity.
Qed.
End Requests.

(** ** Runs of the streaming endpoint *)

Section StreamRunsMore.

Import Obs Fixtures.

Lemma base_not_call (a : Action) :
  isBaseTaskAction a = true -> isSome (roleOf a) = false.
Proof.
  unfold isBaseTaskAction.
  destruct a as [| |[]| | | |]; simpl; intros H; try reflexivity; discriminate H.
Qed.

Lemma base_not_closing (a : Action) :
  isBaseTaskAction a = true -> isClosing a = false.
Proof.
  unfold isBaseTaskAction.
  destruct a as [| |[]| | | |]; simpl; intros H; try reflexivity; discriminate H.
Qed.

Lemma base_no_synthesis_chunk (a : Action) :
  isBaseTaskAction a = true ->
  match a with Send (synthesis_chunk t) => Some t | _ => None end = None.
Proof.
  unfold isBaseTaskAction.
  destruct a as [| |[]| | | |]; simpl; intros H; try reflexivity; discriminate H.
Qed.

Lemma synthesisCall_is_call (config : Config) (h : list Turn) (sp : string) :
  isSome (roleOf (StreamObs.synthesisCall config h sp)) = true /\
  isClosing (StreamObs.synthesisCall config h sp) = false /\
  match StreamObs.synthesisCall config h sp with
  | Send (synthesis_chunk t) => Some t
  | _ => None
  end = None.
Proof.
  unfold StreamObs.synthesisCall.
  now destruct (JS.startsWith (synthesizer config) "gemini").
Qed.

(** X6. The requests a streaming run sends to the backends, in order, the
    classifier answering with a text or raising (the content of a one-shot
    answer is a string here, see [awaitOneShot]): on a request with a prompt
    and a history, one to the classifier (no history, the classification
    prompt), one to base A (every turn of the history but the last, then the
    prompt as a user turn), one to base B (the same turns in its schema, and
    the prompt), and then one to the synthesizer unless both base calls
    raised; on a request without history, none at all. *)
Theorem X6_backend_requests_of_a_run (p : string) (cs : option string)
    (h0 : list Turn) (w : Stream.World) :
  JS.truthy p = true ->
  let h := JS.slice_0_m1 h0 in
  let cfg :=
    config (DYNAMIC_PIPELINES (SpecRule.intentOf (StreamObs.classifierText w))) in
  filter (fun a => isSome (roleOf a))
    (trace (Stream.combine (mkRequest (Some p) cs (Some h0)) w))
  = [ CallOpenAI Classifier CLASSIFIER_MODEL
        [OpenAITurn "user" (Stream.getClassificationPrompt p (Some h))] false;
      CallOpenAI (Base ModelA) (gpt cfg)
        (Stream.convertHistoryForApi (Some h) "openai" ++ [OpenAITurn "user" p])
        true;
      CallGemini (Base ModelB) (gemini cfg)
        (Stream.convertHistoryForApi (Some h) "gemini") p true ]
    ++ (if isSome (raises (Stream.baseA w)) && isSome (raises (Stream.baseB w))
        then []
        else [StreamObs.synthesisCall cfg h
                (fst (Stream.prepareSynthesis p cs h (StreamObs.joined w)))]) /\
  filter (fun a => isSome (roleOf a))
    (trace (Stream.combine (mkRequest (Some p) cs None) w)) = [].
Proof.
  intros Hp. cbv zeta. split.
  2:{ now rewrite combine_no_history. }
  destruct (combine_accepted p cs h0 w Hp) as (c & l & _ & Hint & HM & ->).
  rewrite <- Hint. cbn [trace fst]. rewrite !filter_app.
  rewrite (filter_base _ l base_not_call (base_merge_base w l HM)).
  rewrite synthesis_spec. cbn [trace fst].
  replace (Stream.gptFailed (StreamObs.joined w)
           && Stream.geminiFailed (StreamObs.joined w))
    with (isSome (raises (Stream.baseA w)) && isSome (raises (Stream.baseB w)))
    by now rewrite joined_fields.
  unfold StreamObs.prelude, StreamObs.baseCalls.
  cbn [filter roleOf isSome app].
  destruct (isSome (raises (Stream.baseA w)) && isSome (raises (Stream.baseB w)));
    [reflexivity|].
  destruct (Stream.prepareSynthesis p cs (JS.slice_0_m1 h0) (StreamObs.joined w))
    as [sp log].
  cbn [filter roleOf isSome app fst].
  destruct (synthesisCall_is_call (config (DYNAMIC_PIPELINES (intent c)))
              (JS.slice_0_m1 h0) sp) as (-> & _ & _).
  rewrite !filter_app, filter_chunks by reflexivity.
  now destruct (StreamObs.synthesizerRaises w _).
Qed.

Lemma X6_backend_requests_of_a_run_witness :
  map roleOf
    (filter (fun a => isSome (roleOf a))
       (trace (Stream.combine request bothDown)))
  = [Some Classifier; Some (Base ModelA); Some (Base ModelB)].
Proof.
  exact (f_equal (map roleOf)
           (proj1 (X6_backend_requests_of_a_run tcp None [mkTurn "user" tcp]
                     bothDown eq_refl))).
Defined.

(** X7. The order in which the event loop resumes the two base tasks has
    no effect on anything but the interleaving of their chunks: with any
    other schedule a run has the same chunks of A in the same order, the
    same chunks of B in the same order, and the same actions apart from
    those of the two tasks, so the same requests, prompts, logs, synthesis
    chunks and terminal event. *)
Theorem X7_schedule_changes_the_interleaving_only (req : Request)
    (w : Stream.World) (schedule : list bool) :
  let run := trace (Stream.combine req w) in
  let run' := trace (Stream.combine req (StreamObs.withSchedule w schedule)) in
  chunksA run' = chunksA run /\
  chunksB run' = chunksB run /\
  filter (fun a => negb (isBaseTaskAction a)) run'
  = filter (fun a => negb (isBaseTaskAction a)) run.
Proof.
  cbv zeta. destruct req as [[p|] cs ch]; [|repeat split; reflexivity].
  destruct (JS.truthy p) eqn:Hp.
  2:{ unfold Stream.combine. rewrite Hp. repeat split; reflexivity. }
  destruct ch as [h0|].
  2:{ rewrite !combine_no_history by exact Hp. repeat split; reflexivity. }
  split; [|split].
  - now rewrite !stream_chunksA.
  - now rewrite !stream_chunksB.
  - destruct (combine_accepted p cs h0 w Hp) as (c & l & Hc & _ & HM & ->).
    destruct (combine_accepted p cs h0 (StreamObs.withSchedule w schedule) Hp)
      as (c' & l' & Hc' & _ & HM' & ->).
    change (StreamObs.classifierText (StreamObs.withSchedule w schedule))
      with (StreamObs.classifierText w) in Hc'.
    rewrite Hc in Hc'. injection Hc' as <-.
    cbn [trace fst]. rewrite !filter_app.
    assert (Hq : forall a, isBaseTaskAction a = true ->
                           negb (isBaseTaskAction a) = false)
      by (intros a ->; reflexivity).
    rewrite (filter_base _ l Hq (base_merge_base w l HM)).
    rewrite (filter_base _ l' Hq (base_merge_base _ l' HM')).
    rewrite !synthesis_spec. reflexivity.
Qed.

(** X8. How a streaming run ends, for every request and for backends that
    answer with a text or raise (the content of a one-shot answer is a
    string here, see [awaitOneShot]): the last action closes the response
    and nothing before it does; the terminal events of the run are one
    [error] event when the prompt is there and the history is not, none when
    the prompt is missing or both base calls raised, one [done] event in
    every other case; and a terminal event is the last thing sent before the
    response is closed. *)
Theorem X8_how_a_stream_ends (req : Request) (w : Stream.World) :
  let terminal :=
    match prompt req with
    | None => []
    | Some p =>
        if JS.truthy p
        then match chatHistory req with
             | None =>
                 [Send (error ("An unexpected error occurred: "
                               ^ typeErrorOfUndefined "slice"))]
             | Some _ =>
                 if isSome (raises (Stream.baseA w))
                    && isSome (raises (Stream.baseB w))
                 then []
                 else [Send (done "Stream complete.")]
             end
        else []
    end in
  exists front closing,
    trace (Stream.combine req w) = front ++ terminal ++ [closing] /\
    isClosing closing = true /\
    filter isClosing front = [] /\
    filter isTerminal front = [].
Proof.
  cbv zeta. destruct req as [[p|] cs ch]; cbn [prompt chatHistory].
  2:{ exists [], (Json 400 (ErrorBody "Prompt is required.")). now repeat split. }
  destruct (JS.truthy p) eqn:Hp.
  2:{ exists [], (Json 400 (ErrorBody "Prompt is required.")).
      unfold Stream.combine. rewrite Hp. now repeat split. }
  destruct ch as [h0|].
  2:{ exists [FlushHeaders], End. rewrite combine_no_history by exact Hp.
      now repeat split. }
  destruct (combine_accepted p cs h0 w Hp) as (c & l & _ & _ & HM & ->).
  cbn [trace fst]. rewrite synthesis_spec, joined_fields. cbn [trace fst].
  cbn [Stream.gptFailed Stream.geminiFailed].
  destruct (isSome (raises (Stream.baseA w)) && isSome (raises (Stream.baseB w))).
  - exists (StreamObs.prelude p (JS.slice_0_m1 h0) c
            ++ StreamObs.baseCalls p (JS.slice_0_m1 h0)
                 (config (DYNAMIC_PIPELINES (intent c))) ++ l), End.
    rewrite <- !app_assoc. repeat split; rewrite !filter_app.
    + now rewrite (filter_base _ l base_not_closing (base_merge_base w l HM)).
    + now rewrite (filter_base _ l base_not_terminal (base_merge_base w l HM)).
  - set (h := JS.slice_0_m1 h0).
    set (cfg := config (DYNAMIC_PIPELINES (intent c))).
    destruct (Stream.prepareSynthesis p cs h _) as [sp log].
    set (tail := if StreamObs.synthesizerRaises w cfg then _ else _).
    exists (StreamObs.prelude p h c ++ StreamObs.baseCalls p h cfg ++ l
            ++ [Send (fallback_log log);
                Send (status "Synthesizing final response...")]
            ++ StreamObs.synthesisCall cfg h sp
            :: map (fun t => Send (synthesis_chunk t))
                 (StreamObs.synthesizerTexts w cfg)
            ++ tail), End.
    destruct (synthesisCall_is_call cfg h sp) as (_ & Hcl & _).
    repeat split.
    + rewrite <- !app_assoc. cbn [app]. rewrite <- !app_assoc. reflexivity.
    + rewrite !filter_app.
      rewrite (filter_base _ l base_not_closing (base_merge_base w l HM)).
      cbn [app filter isClosing]. rewrite Hcl, filter_app.
      rewrite filter_chunks by reflexivity.
      subst tail. now destruct (StreamObs.synthesizerRaises w cfg).
    + rewrite !filter_app.
      rewrite (filter_base _ l base_not_terminal (base_merge_base w l HM)).
      cbn [app filter isTerminal].
      rewrite synthesisCall_not_terminal, filter_app.
      rewrite filter_chunks by reflexivity.
      subst tail. now destruct (StreamObs.synthesizerRaises w cfg).
Qed.

Lemma collect_synthesis_chunks (texts : list string) :
  collect (fun a => match a with Send (synthesis_chunk t) => Some t | _ => None end)
    (map (fun t => Send (synthesis_chunk t)) texts) = texts.
Proof. induction texts as [|t ts IH]; [reflexivity|]. simpl. now rewrite IH. Qed.

(** X9. The synthesis chunks of a streaming run in which at least one base
    call succeeded are the fragments of the synthesizer, as many and in the
    order it delivers them; when its stream raises, they are followed by one
    more chunk, the labelled text of the base answer shown in its place. *)
Theorem X9_synthesis_chunks_of_a_run (p : string) (cs : option string)
    (h0 : list Turn) (w : Stream.World) :
  JS.truthy p = true ->
  isSome (raises (Stream.baseA w)) && isSome (raises (Stream.baseB w)) = false ->
  let cfg :=
    config (DYNAMIC_PIPELINES (SpecRule.intentOf (StreamObs.classifierText w))) in
  synthesisChunks (trace (Stream.combine (mkRequest (Some p) cs (Some h0)) w))
  = StreamObs.synthesizerTexts w cfg
    ++ (if StreamObs.synthesizerRaises w cfg
        then [StreamObs.fallbackLabel
              ^ (if isSome (raises (Stream.baseA w))
                 then concatText (fragments (Stream.baseB w))
                 else concatText (map deltaText (fragments (Stream.baseA w))))]
        else []).
Proof.
  intros Hp Hone. cbv zeta.
  destruct (combine_accepted p cs h0 w Hp) as (c & l & _ & Hint & HM & ->).
  rewrite <- Hint. cbn [trace fst]. unfold synthesisChunks.
  rewrite !collect_app.
  rewrite (collect_base _ l base_no_synthesis_chunk (base_merge_base w l HM)).
  rewrite synthesis_spec, joined_fields. cbn [trace fst].
  cbn [Stream.gptFailed Stream.geminiFailed Stream.gptResult Stream.geminiResult].
  rewrite Hone.
  destruct (Stream.prepareSynthesis p cs (JS.slice_0_m1 h0) _) as [sp log].
  unfold StreamObs.prelude, StreamObs.baseCalls. cbn [app collect].
  destruct (synthesisCall_is_call (config (DYNAMIC_PIPELINES (intent c)))
              (JS.slice_0_m1 h0) sp) as (_ & _ & ->).
  rewrite !collect_app, collect_synthesis_chunks. f_equal.
  destruct (StreamObs.synthesizerRaises w _); [|reflexivity].
  now destruct (isSome (raises (Stream.baseA w))).
Qed.

Lemma X9_synthesis_chunks_of_a_run_witness :
  synthesisChunks (trace (Stream.combine request synthesizerDown))
  = ["TCP ad"; StreamObs.fallbackLabel ^ "TCP probes for bandwidth."].
Proof.
  exact (X9_synthesis_chunks_of_a_run tcp None [mkTurn "user" tcp]
           synthesizerDown eq_refl eq_refl).
Defined.

End StreamRunsMore.

(** ** Runs of the one-shot endpoint *)

Section ServerRunsMore.

Import Obs Fixtures.

(** X10. The one-shot endpoint answers every request once, with its last
    action: code 400 and no request to a backend when the prompt is absent
    or empty; otherwise code 200, after one request to the classifier, one
    to each base model, and one to the synthesizer unless both base texts
    are taken as failed (the content of a one-shot answer being a string,
    see [awaitOneShot]). *)
Theorem X10_one_shot_answers_once (req : Request) (w : Server.World) :
  let missing :=
    match prompt req with Some p => negb (JS.truthy p) | None => true end in
  let cfg :=
    config (DYNAMIC_PIPELINES (SpecRule.intentOf (ServerObs.classifierText w))) in
  exists front code body,
    trace (Server.combine req w) = front ++ [Json code body] /\
    filter isClosing front = [] /\
    code = (if missing then 400 else 200) /\
    calls front
    = if missing then []
      else [Classifier; Base ModelA; Base ModelB]
           ++ (if JS.includes (ServerObs.gptText w cfg) "ERROR"
                  && JS.includes (ServerObs.geminiText w cfg) "ERROR"
               then [] else [Synthesizer]).
Proof.
  cbv zeta. destruct (prompt req) as [p|] eqn:Hreq.
  2:{ exists [], 400, (ErrorBody "Prompt is required.").
      rewrite server_combine_no_prompt by now rewrite Hreq. now repeat split. }
  destruct (JS.truthy p) eqn:Hp; cbn [negb].
  2:{ exists [], 400, (ErrorBody "Prompt is required.").
      rewrite server_combine_no_prompt by now rewrite Hreq, Hp.
      now repeat split. }
  destruct (server_combine_accepted req p w Hreq Hp) as (c & _ & Hint & ->).
  rewrite <- Hint. cbn [trace fst]. rewrite server_synthesis_spec.
  cbn [trace fst].
  set (cfg := config (DYNAMIC_PIPELINES (intent c))).
  destruct (JS.includes (ServerObs.gptText w cfg) "ERROR"
            && JS.includes (ServerObs.geminiText w cfg) "ERROR").
  - eexists (ServerObs.prelude w p c), 200, _. split; [reflexivity|].
    unfold ServerObs.prelude.
    destruct (Server.aSettlesFirst w); now repeat split.
  - destruct (Server.prepareSynthesis p _ _ _ _) as [sp log].
    eexists (ServerObs.prelude w p c ++ [ServerObs.synthesisCall cfg sp]), 200, _.
    split; [now rewrite <- app_assoc|].
    unfold ServerObs.prelude, ServerObs.synthesisCall.
    destruct (Server.aSettlesFirst w), (JS.startsWith (synthesizer cfg) "gemini");
      now repeat split.
Qed.

(** X11. No answer of the one-shot endpoint carries a final response that
    contains the word ERROR: when the text of the synthesizer contains it,
    the final response is the text of a base model that does not; when both
    base texts contain it, the final response is the FATAL sentence. *)
Theorem X11_final_response_never_holds_ERROR (req : Request) (w : Server.World) :
  forallb (fun a => negb (JS.includes (ServerObs.finalResponseOf (snd a)) "ERROR"))
    (ServerObs.answers (trace (Server.combine req w))) = true.
Proof.
  destruct (prompt req) as [p|] eqn:Hreq.
  2:{ now rewrite server_combine_no_prompt by now rewrite Hreq. }
  destruct (JS.truthy p) eqn:Hp.
  2:{ now rewrite server_combine_no_prompt by now rewrite Hreq, Hp. }
  destruct (server_prompts_and_answers req p w Hreq Hp) as (c & _ & _ & _ & HA).
  cbv zeta in HA. rewrite HA, server_synthesis_spec. cbn [trace fst].
  set (cfg := config (DYNAMIC_PIPELINES (intent c))).
  destruct (JS.includes (ServerObs.gptText w cfg) "ERROR") eqn:Hg,
           (JS.includes (ServerObs.geminiText w cfg) "ERROR") eqn:Hm;
    cbn [andb]; [reflexivity|..];
    destruct (Server.prepareSynthesis p _ _ _ _) as [sp log];
    unfold ServerObs.answers; cbn [collect];
    rewrite server_synthesisCall_no_answer;
    cbn [forallb snd ServerObs.finalResponseOf negb];
    destruct (JS.includes (ServerObs.synthesizerText w cfg) "ERROR") eqn:Hs;
    cbn [negb]; rewrite ?Hg, ?Hm, ?Hs; reflexivity.
Qed.

(** X12. No failure of a backend is lost on the way to the fallback
    decision.  When the call of a backend raises, each one-shot adapter, of
    index.js and of the evaluation script, returns (it does not raise) a
    text that contains the word ERROR, whatever the name of the model and
    whatever the message of the exception, so the flag computed from that
    text is set.  And in a run of index.js in which the call of base A has
    raised, the answer carries that text as the result of A and the
    synthesizer is asked, if at all, to refine the text of B alone;
    likewise with the sides exchanged. *)
Theorem X12_a_raised_call_is_always_flagged (req : Request) (p : string)
    (w : Server.World) (r : Role) (openai : Completion (option string))
    (google : Completion string) (q modelName : string) :
  prompt req = Some p -> JS.truthy p = true ->
  (isSome (raises openai) = true ->
   exists text,
     Server.getGptResponse r openai q modelName
     = ([Server.gptRequest r q modelName], Val text) /\
     JS.includes text "ERROR" = true) /\
  (isSome (raises google) = true ->
   exists text,
     Server.getGeminiResponse r google q modelName
     = ([Server.geminiRequest r q modelName], Val text) /\
     JS.includes text "ERROR" = true) /\
  (isSome (raises openai) = true ->
   exists run,
     Batch.getGptResponse r openai q modelName
     = ([CallOpenAI r modelName [OpenAITurn "user" q] false], Val run) /\
     Batch.gptFailed (Batch.content run) = true) /\
  (isSome (raises google) = true ->
   exists run,
     Batch.getGeminiResponse r google q modelName
     = ([CallGemini r modelName [] q false], Val run) /\
     Batch.geminiFailed (Batch.content run) = true) /\
  (let run := trace (Server.combine req w) in
   (isSome (raises (Server.baseA w)) = true ->
    exists final g m pipelineName log reasoning,
      ServerObs.answers run
      = [(200, ResultBody final g m pipelineName log reasoning)] /\
      JS.includes g "ERROR" = true /\
      synthesisPrompts run
      = (if JS.includes m "ERROR" then [] else [Server.getRefinementPrompt p m])) /\
   (isSome (raises (Server.baseB w)) = true ->
    exists final g m pipelineName log reasoning,
      ServerObs.answers run
      = [(200, ResultBody final g m pipelineName log reasoning)] /\
      JS.includes m "ERROR" = true /\
      synthesisPrompts run
      = (if JS.includes g "ERROR" then [] else [Server.getRefinementPrompt p g]))).
Proof.
  intros Hreq Hp.
  split.
  { intros H. eexists. split.
    - unfold Server.getGptResponse, tell. cbn [bind].
      rewrite gptAnswer_spec. cbn [app]. reflexivity.
    - now destruct (raises openai). }
  split.
  { intros H. eexists. split.
    - unfold Server.getGeminiResponse, tell. cbn [bind].
      rewrite geminiAnswer_spec. cbn [app]. reflexivity.
    - now destruct (raises google). }
  split.
  { intros H. eexists. split; [reflexivity|].
    unfold Batch.gptContent. cbn [Batch.content].
    now destruct (raises openai). }
  split.
  { intros H. eexists. split; [reflexivity|].
    unfold Batch.geminiContent. cbn [Batch.content].
    now destruct (raises google). }
  cbv zeta.
  destruct (server_prompts_and_answers req p w Hreq Hp) as (c & _ & _ & HP & HA).
  cbv zeta in HP, HA. rewrite HP, HA, server_synthesis_spec. cbn [trace fst].
  set (cfg := config (DYNAMIC_PIPELINES (intent c))).
  split; intros H.
  - assert (Hg : JS.includes (ServerObs.gptText w cfg) "ERROR" = true).
    { unfold ServerObs.gptText.
      destruct (raises (Server.baseA w)); [reflexivity | discriminate]. }
    rewrite Hg. cbn [andb]. unfold Server.prepareSynthesis.
    destruct (JS.includes (ServerObs.geminiText w cfg) "ERROR") eqn:Hm.
    + do 6 eexists. split; [reflexivity|]. split; [exact Hg|].
      now rewrite Hm.
    + unfold ServerObs.answers, synthesisPrompts. cbn [collect].
      rewrite server_synthesisCall_no_answer, server_synthesisCall_prompt.
      do 6 eexists. split; [reflexivity|]. split; [exact Hg|].
      now rewrite Hm.
  - assert (Hm : JS.includes (ServerObs.geminiText w cfg) "ERROR" = true).
    { unfold ServerObs.geminiText.
      destruct (raises (Server.baseB w)); [reflexivity | discriminate]. }
    rewrite Hm, andb_true_r. unfold Server.prepareSynthesis.
    destruct (JS.includes (ServerObs.gptText w cfg) "ERROR") eqn:Hg.
    + do 6 eexists. split; [reflexivity|]. split; [exact Hm|].
      now rewrite Hg.
    + unfold ServerObs.answers, synthesisPrompts. cbn [collect].
      rewrite server_synthesisCall_no_answer, server_synthesisCall_prompt.
      do 6 eexists. split; [reflexivity|]. split; [exact Hm|].
      now rewrite Hg.
Qed.

Lemma X12_a_raised_call_is_always_flagged_witness :
  (exists text,
     Server.getGptResponse (Base ModelA) (breaks []) tcp "gpt-5"
     = ([Server.gptRequest (Base ModelA) tcp "gpt-5"], Val text) /\
     JS.includes text "ERROR" = true) /\
  exists final g m pipelineName log reasoning,
    ServerObs.answers (trace (Server.combine request serverADown))
    = [(200, ResultBody final g m pipelineName log reasoning)] /\
    JS.includes g "ERROR" = true /\
    synthesisPrompts (trace (Server.combine request serverADown))
    = (if JS.includes m "ERROR" then [] else [Server.getRefinementPrompt tcp m]).
Proof.
  pose (H := X12_a_raised_call_is_always_flagged request tcp serverADown
               (Base ModelA) (breaks []) (breaks []) tcp "gpt-5"
               eq_refl eq_refl).
  exact (conj (proj1 H eq_refl)
              (proj1 (proj2 (proj2 (proj2 (proj2 H)))) eq_refl)).
Defined.

(** X13. In the one-shot endpoint, when at least one base text is taken as
    good and the text of the synthesizer contains ERROR (as the marker of its
    adapter does), the request is still answered with code 200: the final
    response is the text of A, or the text of B when that of A is taken as
    failed, and the fallback log is the log of step 4 followed, after a
    space when that log is not empty, by the note of the failed synthesis. *)
Theorem X13_one_shot_synthesis_fallback (req : Request) (p : string)
    (w : Server.World) :
  prompt req = Some p -> JS.truthy p = true ->
  let pipeline :=
    DYNAMIC_PIPELINES (SpecRule.intentOf (ServerObs.classifierText w)) in
  let g := ServerObs.gptText w (config pipeline) in
  let m := ServerObs.geminiText w (config pipeline) in
  let log :=
    snd (Server.prepareSynthesis p g m (JS.includes g "ERROR")
           (JS.includes m "ERROR")) in
  JS.includes g "ERROR" && JS.includes m "ERROR" = false ->
  JS.includes (ServerObs.synthesizerText w (config pipeline)) "ERROR" = true ->
  exists r,
    ServerObs.answers (trace (Server.combine req w))
    = [(200,
        ResultBody (if JS.includes g "ERROR" then m else g) g m (name pipeline)
          (log ^ (if JS.truthy log then " " else EmptyString)
           ^ "The final synthesis step failed. Displaying the best available response.")
          r)].
Proof.
  intros Hreq Hp. cbv zeta. intros Hone Hs.
  destruct (server_prompts_and_answers req p w Hreq Hp) as (c & _ & Hint & _ & HA).
  cbv zeta in HA. rewrite HA, server_synthesis_spec, Hint, Hone.
  cbn [trace fst]. exists (reasoning c).
  destruct (Server.prepareSynthesis p _ _ _ _) as [sp log].
  unfold ServerObs.answers. cbn [collect snd].
  rewrite server_synthesisCall_no_answer.
  unfold ServerObs.synthesisNote. rewrite Hs.
  now destruct (JS.includes (ServerObs.gptText w _) "ERROR").
Qed.

Lemma X13_one_shot_synthesis_fallback_witness :
  exists r,
    ServerObs.answers (trace (Server.combine request serverSynthDown))
    = [(200,
        ResultBody "draft A" "draft A" "draft B"
          "Factual Pipeline (SOTA Base -> Quick Synth)"
          "The final synthesis step failed. Displaying the best available response."
          r)].
Proof.
  exact (X13_one_shot_synthesis_fallback request tcp serverSynthDown
           eq_refl eq_refl eq_refl eq_refl).
Defined.

End ServerRunsMore.

(** ** Tests of the evaluation script *)

Section BatchRuns.

Import Obs Fixtures.

Lemma length_append (a b : string) :
  String.length (a ^ b) = String.length a + String.length b.
Proof. induction a as [|c a IH]; simpl; [reflexivity | now rewrite IH]. Qed.

Lemma append_inj_suffix (s p p' : string) : p ^ s = p' ^ s -> p = p'.
Proof.
  revert p'. induction p as [|c p IH]; intros [|c' p'] H.
  - reflexivity.
  - apply (f_equal String.length) in H. simpl in H.
    rewrite length_append in H. lia.
  - apply (f_equal String.length) in H. simpl in H.
    rewrite length_append in H. lia.
  - simpl in H. injection H as -> H. f_equal. now apply IH.
Qed.

Lemma eqb_append_suffix (s p p' : string) :
  String.eqb (p ^ s) (p' ^ s) = String.eqb p p'.
Proof.
  destruct (String.eqb_spec p p') as [->|Hne].
  - apply String.eqb_refl.
  - destruct (String.eqb_spec (p ^ s) (p' ^ s)) as [E|]; [|reflexivity].
    now apply append_inj_suffix in E.
Qed.

Lemma lastUnit_append (p s : string) :
  s <> EmptyString -> BatchObs.lastUnit (p ^ s) = BatchObs.lastUnit s.
Proof.
  intros Hs. induction p as [|c p IH]; [reflexivity|].
  cbn [String.append BatchObs.lastUnit]. rewrite IH.
  destruct (p ^ s) eqn:E; [|reflexivity].
  destruct p; [contradiction | discriminate].
Qed.

Lemma keys_differ (p p' : string) (i i' : Intent) :
  String.eqb (Batch.gptCacheKey p (config (DYNAMIC_PIPELINES i)))
             (Batch.geminiCacheKey p' (config (DYNAMIC_PIPELINES i'))) = false.
Proof.
  destruct (String.eqb_spec
              (Batch.gptCacheKey p (config (DYNAMIC_PIPELINES i)))
              (Batch.geminiCacheKey p' (config (DYNAMIC_PIPELINES i'))))
    as [E|]; [|reflexivity].
  apply (f_equal BatchObs.lastUnit) in E.
  unfold Batch.gptCacheKey, Batch.geminiCacheKey in E.
  rewrite !lastUnit_append in E by (destruct i, i'; discriminate).
  destruct i, i'; discriminate E.
Qed.

Lemma cacheGet_set_same (k : string) (r : Batch.Run) (c : Batch.Cache) :
  Batch.cacheGet k (Batch.cacheSet k r c) = Some r.
Proof.
  unfold Batch.cacheGet, Batch.cacheSet. cbn [find fst].
  now rewrite String.eqb_refl.
Qed.

Lemma cacheGet_set_other (k k' : string) (r : Batch.Run) (c : Batch.Cache) :
  String.eqb k k' = false ->
  Batch.cacheGet k' (Batch.cacheSet k r c) = Batch.cacheGet k' c.
Proof.
  intros H. unfold Batch.cacheGet, Batch.cacheSet. cbn [find fst].
  now rewrite H.
Qed.

(** Steps 3 to 6 in full. *)
Lemma fallbackSteps_spec (w : Batch.World) (p : string) (cs : option string)
    (pl : Pipeline) (r : string) (ra rb : Batch.Run) :
  let fa := Batch.gptFailed (Batch.content ra) in
  let fb := Batch.geminiFailed (Batch.content rb) in
  let cfg := config pl in
  let sc := BatchObs.synthContent w cfg in
  Batch.fallbackSteps w p cs pl r ra rb
  = if fa && fb
    then ([], Val (Batch.mkTestResult p cs (name pl)
                     "FALLBACK: Both base models failed." r
                     (gpt cfg) (gemini cfg) (synthesizer cfg) None ra rb
                     (Batch.createTxtEntry p cs (name pl)
                        "FALLBACK: Both base models failed." cfg ra rb
                        "FATAL: Both base models failed.")))
    else
      let sp :=
        if fa then Batch.getRefinementPrompt p (Batch.content rb) cs
        else if fb then Batch.getRefinementPrompt p (Batch.content ra) cs
        else Batch.getSynthesisPrompt p (Batch.content ra) (Batch.content rb) cs in
      let log :=
        if fa then "FALLBACK: GPT-5 base failed. Refining Gemini response."
        else if fb then "FALLBACK: Gemini base failed. Refining GPT-5 response."
        else EmptyString in
      let final :=
        if JS.includes sc "ERROR"
        then (if fa then Batch.content rb else Batch.content ra) else sc in
      let log' :=
        if JS.includes sc "ERROR"
        then log ^ (if JS.truthy log then " " else EmptyString)
             ^ "FALLBACK: Synthesis step failed; returning "
             ^ (if fa then "Gemini" else "GPT-5") ^ " base."
        else log in
      ([if JS.startsWith (synthesizer cfg) "gemini"
        then CallGemini Synthesizer (synthesizer cfg) [] sp false
        else CallOpenAI Synthesizer (synthesizer cfg) [OpenAITurn "user" sp] false],
       Val (Batch.mkTestResult p cs (name pl) log' r
              (gpt cfg) (gemini cfg) (synthesizer cfg) (Some final) ra rb
              (Batch.createTxtEntry p cs (name pl) log' cfg ra rb final))).
Proof.
  cbv zeta. unfold Batch.fallbackSteps, BatchObs.synthContent.
  destruct (Batch.gptFailed (Batch.content ra)),
           (Batch.geminiFailed (Batch.content rb)); cbn [andb negb];
    try reflexivity;
    unfold Batch.getGeminiResponse, Batch.getGptResponse, tell, ret;
    destruct (JS.startsWith (synthesizer (config pl)) "gemini");
    cbn [bind app Batch.content];
    match goal with
    | |- context [if JS.includes ?x "ERROR" then (_, _) else (_, _)] =>
        destruct (JS.includes x "ERROR")
    end; reflexivity.
Qed.

(** A test in full: the request to the classifier, a request to a base
    model for each key the cache lacks, then steps 3 to 6 on the two runs;
    the cache ends with both keys set. *)
Lemma runDynamicTest_spec (w : Batch.World) (p : string) (cs : option string)
    (cache : Batch.Cache) :
  let pl := BatchObs.pipelineOf w in
  let gk := Batch.gptCacheKey p (config pl) in
  let mk := Batch.geminiCacheKey p (config pl) in
  let ra := BatchObs.runA w p cache in
  let rb := BatchObs.runB w p cache in
  exists c res l,
    parseClassification (Batch.gptContent (Batch.classifierCall w)) = Some c /\
    Batch.fallbackSteps w p cs pl (reasoning c) ra rb = (l, Val res) /\
    Batch.runDynamicTest w p cs cache
    = (CallOpenAI Classifier CLASSIFIER_MODEL
         [OpenAITurn "user" (Batch.getClassificationPrompt p)] false
       :: (if isSome (Batch.cacheGet gk cache) then []
           else [CallOpenAI (Base ModelA) (gpt (config pl))
                   [OpenAITurn "user" p] false])
       ++ (if isSome (Batch.cacheGet mk cache) then []
           else [CallGemini (Base ModelB) (gemini (config pl)) [] p false])
       ++ l,
       Val (res, Batch.cacheSet mk rb (Batch.cacheSet gk ra cache))).
Proof.
  cbv zeta.
  destruct (parseClassification_spec (Batch.gptContent (Batch.classifierCall w)))
    as (c & Hc & Hint).
  pose proof (fallbackSteps_spec w p cs (BatchObs.pipelineOf w) (reasoning c)
                (BatchObs.runA w p cache) (BatchObs.runB w p cache)) as HF.
  cbv zeta in HF.
  assert (exists res l,
            Batch.fallbackSteps w p cs (BatchObs.pipelineOf w) (reasoning c)
              (BatchObs.runA w p cache) (BatchObs.runB w p cache) = (l, Val res))
    as (res & l & Hl).
  { rewrite HF. destruct (_ && _); eauto. }
  exists c, res, l. split; [exact Hc|]. split; [exact Hl|].
  unfold Batch.runDynamicTest, Batch.getGptResponse at 1, tell, ret.
  cbn [bind app Batch.content]. rewrite Hc. cbn [bind app].
  rewrite Hint. fold (BatchObs.pipelineOf w).
  unfold Batch.cached.
  assert (Hmk : Batch.cacheGet
                  (Batch.geminiCacheKey p (config (BatchObs.pipelineOf w)))
                  (Batch.cacheSet
                     (Batch.gptCacheKey p (config (BatchObs.pipelineOf w)))
                     (BatchObs.runA w p cache) cache)
                = Batch.cacheGet
                    (Batch.geminiCacheKey p (config (BatchObs.pipelineOf w)))
                    cache).
  { apply cacheGet_set_other, keys_differ. }
  unfold BatchObs.runA, BatchObs.runB in *.
  destruct (Batch.cacheGet (Batch.gptCacheKey p _) cache) as [ra|] eqn:Ea;
    unfold Batch.getGptResponse, Batch.getGeminiResponse, tell, ret;
    cbn [bind app isSome]; rewrite Hmk;
    destruct (Batch.cacheGet (Batch.geminiCacheKey p _) cache) as [rb|] eqn:Eb;
    cbn [bind app isSome]; rewrite Hl; cbn [bind app]; rewrite ?app_nil_r;
    reflexivity.
Qed.

Lemma cacheSet_known (k0 : string) (r : Batch.Run) (c : Batch.Cache) :
  Batch.cacheGet k0 c = Some r ->
  forall k, Batch.cacheGet k (Batch.cacheSet k0 r c) = Batch.cacheGet k c.
Proof.
  intros H k. destruct (String.eqb k0 k) eqn:E.
  - apply String.eqb_eq in E. subst k. now rewrite cacheGet_set_same.
  - now apply cacheGet_set_other.
Qed.

Lemma fallbackSteps_fields (w : Batch.World) (p : string) (cs : option string)
    (pl : Pipeline) (r : string) (ra rb : Batch.Run) (l : list Action)
    (res : Batch.TestResult) :
  Batch.fallbackSteps w p cs pl r ra rb = (l, Val res) ->
  Batch.gptRun res = ra /\ Batch.geminiRun res = rb /\
  collect roleOf l
  = (if Batch.gptFailed (Batch.content ra) && Batch.geminiFailed (Batch.content rb)
     then [] else [Synthesizer]).
Proof.
  rewrite fallbackSteps_spec. cbv zeta.
  destruct (Batch.gptFailed _ && Batch.geminiFailed _);
    intros H; injection H as <- <-; repeat split.
  now destruct (JS.startsWith _ "gemini").
Qed.

(** X14. The keys of the response cache never mix two entries: the key of
    a GPT run is never the key of a Gemini run, whatever the two prompts, and
    two prompts have the same GPT key (the same Gemini key) only when they
    are the same prompt. *)
Theorem X14_cache_keys_do_not_collide (p p' : string) (i i' : Intent) :
  String.eqb (Batch.gptCacheKey p (config (DYNAMIC_PIPELINES i)))
             (Batch.geminiCacheKey p' (config (DYNAMIC_PIPELINES i'))) = false /\
  String.eqb (Batch.gptCacheKey p (config (DYNAMIC_PIPELINES i)))
             (Batch.gptCacheKey p' (config (DYNAMIC_PIPELINES i')))
  = String.eqb p p' /\
  String.eqb (Batch.geminiCacheKey p (config (DYNAMIC_PIPELINES i)))
             (Batch.geminiCacheKey p' (config (DYNAMIC_PIPELINES i')))
  = String.eqb p p'.
Proof.
  split; [apply keys_differ|].
  unfold Batch.gptCacheKey, Batch.geminiCacheKey.
  destruct i, i'; split; apply eqb_append_suffix.
Qed.

(** X15. A test asks a base model only for what the cache lacks.  With
    backends that answer with a text or raise (the content of a one-shot
    answer is a string here, see [Batch.gptContent]), the test returns a
    result; its requests are one to the classifier, one to base A when the
    cache has no run under the GPT key of the prompt, one to base B when it
    has none under the Gemini key, and one to the synthesizer unless both
    runs are taken as failed; the runs of the result are the cached ones
    where there are any; and the cache it leaves holds both runs under their
    keys and is unchanged at every other key. *)
Theorem X15_cache_decides_the_base_requests (w : Batch.World) (p : string)
    (cs : option string) (cache : Batch.Cache) :
  let pl := BatchObs.pipelineOf w in
  let gk := Batch.gptCacheKey p (config pl) in
  let mk := Batch.geminiCacheKey p (config pl) in
  let ra := BatchObs.runA w p cache in
  let rb := BatchObs.runB w p cache in
  exists l res cache',
    Batch.runDynamicTest w p cs cache = (l, Val (res, cache')) /\
    calls l
    = [Classifier]
      ++ (if isSome (Batch.cacheGet gk cache) then [] else [Base ModelA])
      ++ (if isSome (Batch.cacheGet mk cache) then [] else [Base ModelB])
      ++ (if Batch.gptFailed (Batch.content ra)
             && Batch.geminiFailed (Batch.content rb)
          then [] else [Synthesizer]) /\
    Batch.gptRun res = ra /\
    Batch.geminiRun res = rb /\
    Batch.cacheGet gk cache' = Some ra /\
    Batch.cacheGet mk cache' = Some rb /\
    forall k, String.eqb gk k = false -> String.eqb mk k = false ->
              Batch.cacheGet k cache' = Batch.cacheGet k cache.
Proof.
  cbv zeta.
  destruct (runDynamicTest_spec w p cs cache) as (c & res & l & _ & Hl & ->).
  cbv zeta in Hl.
  destruct (fallbackSteps_fields _ _ _ _ _ _ _ _ _ Hl) as (Hra & Hrb & Hcalls).
  eexists _, res, _. split; [reflexivity|].
  repeat split; try assumption.
  - unfold calls. cbn [collect roleOf]. rewrite !collect_app, Hcalls.
    now destruct (isSome (Batch.cacheGet (Batch.gptCacheKey p _) cache)),
                 (isSome (Batch.cacheGet (Batch.geminiCacheKey p _) cache)).
  - rewrite cacheGet_set_other.
    + apply cacheGet_set_same.
    + rewrite String.eqb_sym. apply keys_differ.
  - apply cacheGet_set_same.
  - intros k Hg Hm. now rewrite !cacheGet_set_other.
Qed.

(** X16. What a test has put in the cache is what a later test of the same
    prompt works with: run again on the cache the first test left, with base
    backends that would now answer anything else, the test sends no request
    to a base model, gives the same result (a failed base run included), and
    leaves every key of the cache as it was. *)
Theorem X16_second_test_reuses_the_cached_runs (w : Batch.World) (p : string)
    (cs : option string) (cache : Batch.Cache)
    (otherA : Completion (option string)) (otherB : Completion string) :
  exists l1 l2 res cache1 cache2,
    Batch.runDynamicTest w p cs cache = (l1, Val (res, cache1)) /\
    Batch.runDynamicTest (BatchObs.withBases w otherA otherB) p cs cache1
    = (l2, Val (res, cache2)) /\
    calls l2
    = [Classifier]
      ++ (if Batch.gptFailed (Batch.content (Batch.gptRun res))
             && Batch.geminiFailed (Batch.content (Batch.geminiRun res))
          then [] else [Synthesizer]) /\
    forall k, Batch.cacheGet k cache2 = Batch.cacheGet k cache1.
Proof.
  destruct (runDynamicTest_spec w p cs cache) as (c & res & l & Hc & Hl & E1).
  cbv zeta in Hl, E1.
  set (gk := Batch.gptCacheKey p (config (BatchObs.pipelineOf w))) in *.
  set (mk := Batch.geminiCacheKey p (config (BatchObs.pipelineOf w))) in *.
  set (ra := BatchObs.runA w p cache) in *.
  set (rb := BatchObs.runB w p cache) in *.
  set (cache1 := Batch.cacheSet mk rb (Batch.cacheSet gk ra cache)) in *.
  assert (Hga : Batch.cacheGet gk cache1 = Some ra).
  { unfold cache1. rewrite cacheGet_set_other.
    - apply cacheGet_set_same.
    - unfold gk, mk. rewrite String.eqb_sym. apply keys_differ. }
  assert (Hgb : Batch.cacheGet mk cache1 = Some rb)
    by apply cacheGet_set_same.
  destruct (runDynamicTest_spec (BatchObs.withBases w otherA otherB) p cs cache1)
    as (c' & res' & l' & Hc' & Hl' & E2).
  cbv zeta in Hl', E2.
  change (BatchObs.pipelineOf (BatchObs.withBases w otherA otherB))
    with (BatchObs.pipelineOf w) in Hl', E2.
  change (Batch.classifierCall (BatchObs.withBases w otherA otherB))
    with (Batch.classifierCall w) in Hc'.
  rewrite Hc in Hc'. injection Hc' as <-.
  fold gk mk in Hl', E2.
  assert (Ha : BatchObs.runA (BatchObs.withBases w otherA otherB) p cache1 = ra).
  { unfold BatchObs.runA.
    change (BatchObs.pipelineOf (BatchObs.withBases w otherA otherB))
      with (BatchObs.pipelineOf w).
    fold gk. now rewrite Hga. }
  assert (Hb : BatchObs.runB (BatchObs.withBases w otherA otherB) p cache1 = rb).
  { unfold BatchObs.runB.
    change (BatchObs.pipelineOf (BatchObs.withBases w otherA otherB))
      with (BatchObs.pipelineOf w).
    fold mk. now rewrite Hgb. }
  rewrite Ha, Hb in Hl', E2. rewrite Hga, Hgb in E2. cbn [isSome app] in E2.
  rewrite fallbackSteps_spec in Hl, Hl'. cbv zeta in Hl, Hl'.
  change (BatchObs.synthContent (BatchObs.withBases w otherA otherB))
    with (BatchObs.synthContent w) in Hl'.
  rewrite Hl in Hl'. injection Hl' as <- <-.
  destruct (fallbackSteps_fields w p cs (BatchObs.pipelineOf w) (reasoning c)
              ra rb l res) as (Hra & Hrb & Hcalls).
  { now rewrite fallbackSteps_spec. }
  exists (CallOpenAI Classifier CLASSIFIER_MODEL
            [OpenAITurn "user" (Batch.getClassificationPrompt p)] false
          :: (if isSome (Batch.cacheGet gk cache) then []
              else [CallOpenAI (Base ModelA) (gpt (config (BatchObs.pipelineOf w)))
                      [OpenAITurn "user" p] false])
          ++ (if isSome (Batch.cacheGet mk cache) then []
              else [CallGemini (Base ModelB)
                      (gemini (config (BatchObs.pipelineOf w))) [] p false])
          ++ l),
    (CallOpenAI Classifier CLASSIFIER_MODEL
       [OpenAITurn "user" (Batch.getClassificationPrompt p)] false :: l),
    res, cache1, (Batch.cacheSet mk rb (Batch.cacheSet gk ra cache1)).
  split; [exact E1|]. split; [exact E2|]. split.
  - unfold calls in *. cbn [collect roleOf app]. now rewrite Hcalls, Hra, Hrb.
  - intros k. rewrite cacheSet_known.
    + now apply cacheSet_known.
    + rewrite cacheGet_set_other; [exact Hgb|].
      unfold gk, mk. apply keys_differ.
Qed.

Lemma X16_second_test_reuses_the_cached_runs_witness :
  exists l1 l2 res cache1 cache2,
    Batch.runDynamicTest batchWorld "asdf" None [] = (l1, Val (res, cache1)) /\
    Batch.runDynamicTest
      (BatchObs.withBases batchWorld (breaks []) (answers ["now it answers"]))
      "asdf" None cache1
    = (l2, Val (res, cache2)) /\
    calls l2
    = [Classifier]
      ++ (if Batch.gptFailed (Batch.content (Batch.gptRun res))
             && Batch.geminiFailed (Batch.content (Batch.geminiRun res))
          then [] else [Synthesizer]) /\
    forall k, Batch.cacheGet k cache2 = Batch.cacheGet k cache1.
Proof.
  exact (X16_second_test_reuses_the_cached_runs batchWorld "asdf" None []
           (breaks []) (answers ["now it answers"])).
Defined.

(** X17. What a test reports.  There is no final response when both base
    runs are taken as failed; otherwise it is the content of the synthesizer
    run, or, when that content contains ERROR, the content of the run of A
    (of B when A is taken as failed), and in no case does it contain ERROR.
    The log entry is titled FALLBACK RESPONSE exactly when the synthesis was
    replaced in this way, and FINAL RESPONSE otherwise, the dual failure
    included; it is the entry of the fields of the result, with the FATAL
    sentence where there is no final response. *)
Theorem X17_what_a_test_reports (w : Batch.World) (p : string)
    (cs : option string) (cache : Batch.Cache) :
  exists l res cache',
    Batch.runDynamicTest w p cs cache = (l, Val (res, cache')) /\
    let fa := Batch.gptFailed (Batch.content (Batch.gptRun res)) in
    let fb := Batch.geminiFailed (Batch.content (Batch.geminiRun res)) in
    let cfg := config (BatchObs.pipelineOf w) in
    let sc := BatchObs.synthContent w cfg in
    Batch.finalResponse res
    = (if fa && fb then None
       else Some (if JS.includes sc "ERROR"
                  then (if fa then Batch.content (Batch.geminiRun res)
                        else Batch.content (Batch.gptRun res))
                  else sc)) /\
    Batch.finalResponseTitle (Batch.fallbackLog res)
    = (if negb (fa && fb) && JS.includes sc "ERROR"
       then "FALLBACK RESPONSE" else "FINAL RESPONSE") /\
    match Batch.finalResponse res with
    | Some f => JS.includes f "ERROR" = false
    | None => True
    end /\
    Batch.txtEntry res
    = Batch.createTxtEntry p cs (Batch.pipelineName res) (Batch.fallbackLog res)
        cfg (Batch.gptRun res) (Batch.geminiRun res)
        match Batch.finalResponse res with
        | Some f => f
        | None => "FATAL: Both base models failed."
        end.
Proof.
  destruct (runDynamicTest_spec w p cs cache) as (c & res & l & _ & Hl & ->).
  cbv zeta in Hl. rewrite fallbackSteps_spec in Hl. cbv zeta in Hl.
  eexists _, res, _. split; [reflexivity|]. cbv zeta.
  set (ra := BatchObs.runA w p cache) in *.
  set (rb := BatchObs.runB w p cache) in *.
  set (sc := BatchObs.synthContent w (config (BatchObs.pipelineOf w))) in *.
  unfold Batch.gptFailed, Batch.geminiFailed in *.
  destruct (JS.includes (Batch.content ra) "ERROR") eqn:Ha,
           (JS.includes (Batch.content rb) "ERROR") eqn:Hb;
    cbn [andb] in Hl;
    [ injection Hl as _ <-; cbn; rewrite Ha, Hb; now repeat split | ..];
    destruct (JS.includes sc "ERROR") eqn:Hs;
    injection Hl as _ <-;
    cbn [Batch.finalResponse Batch.gptRun Batch.geminiRun Batch.fallbackLog
         Batch.txtEntry Batch.pipelineName];
    rewrite Ha, Hb; cbn [andb negb]; rewrite ?Hs, ?Ha, ?Hb;
    repeat split; reflexivity.
Qed.

End BatchRuns.

(** ** Which backend a request goes to *)

Section Routing.

Import Obs Fixtures.

Lemma convert_openai_schema (h : list Turn) :
  forallb isOpenAITurn (Stream.convertHistoryForApi (Some h) "openai") = true.
Proof. induction h as [|t h IH]; [reflexivity | exact IH]. Qed.

Lemma convert_gemini_schema (h : list Turn) :
  forallb isGeminiTurn (Stream.convertHistoryForApi (Some h) "gemini") = true.
Proof. induction h as [|t h IH]; [reflexivity | exact IH]. Qed.

Lemma base_wellRouted (l : list Action) :
  forallb isBaseTaskAction l = true -> forallb wellRouted l = true.
Proof.
  induction l as [|a l IH]; [reflexivity|]. cbn [forallb].
  intros H. apply andb_prop in H as [Ha H]. rewrite (IH H), andb_true_r.
  unfold isBaseTaskAction in Ha.
  destruct a as [| |[]| | | |]; simpl in *; try reflexivity; discriminate Ha.
Qed.

Lemma stream_synthesis_wellRouted (w : Stream.World) (p : string)
    (cs : option string) (h : list Turn) (config : Config) (v : Stream.Vars) :
  forallb wellRouted (trace (Stream.synthesis w p cs h config v)) = true.
Proof.
  rewrite synthesis_spec. cbn [trace fst].
  destruct (Stream.gptFailed v && Stream.geminiFailed v); [reflexivity|].
  destruct (Stream.prepareSynthesis p cs h v) as [sp log].
  cbn [app forallb wellRouted]. rewrite !forallb_app.
  assert (Hcall : wellRouted (StreamObs.synthesisCall config h sp) = true).
  { unfold StreamObs.synthesisCall.
    destruct (JS.startsWith (synthesizer config) "gemini") eqn:E;
      cbn [wellRouted]; rewrite E; cbn [negb andb].
    - apply convert_gemini_schema.
    - rewrite forallb_app, convert_openai_schema. reflexivity. }
  rewrite Hcall.
  assert (Hchunks : forall texts,
    forallb wellRouted (map (fun t => Send (synthesis_chunk t)) texts) = true).
  { induction texts as [|t texts IH]; [reflexivity | exact IH]. }
  rewrite Hchunks.
  now destruct (StreamObs.synthesizerRaises w config).
Qed.

(** X18. Every request goes to the backend its model name stands for, with
    its turns in the schema of that backend: in every run of the two
    endpoints and in every test of the evaluation script, a request to the
    Google backend names a model that starts with gemini and carries turns
    of one part each, and a request to the OpenAI backend names a model that
    does not and carries role/content turns.  For the synthesizer this is
    the dispatch on the prefix of its name; for the other calls it rests on
    the names the two pipelines register. *)
Theorem X18_requests_reach_the_backend_of_their_model (req : Request)
    (w : Stream.World) (w' : Server.World) (w'' : Batch.World) (p : string)
    (cs : option string) (cache : Batch.Cache) :
  forallb wellRouted (trace (Stream.combine req w)) = true /\
  forallb wellRouted (trace (Server.combine req w')) = true /\
  forallb wellRouted (trace (Batch.runDynamicTest w'' p cs cache)) = true.
Proof.
  split; [|split].
  - destruct req as [[q|] cq ch]; [|reflexivity].
    destruct (JS.truthy q) eqn:Hq.
    2:{ unfold Stream.combine. now rewrite Hq. }
    destruct ch as [h0|].
    2:{ now rewrite combine_no_history. }
    destruct (combine_accepted q cq h0 w Hq) as (c & l & _ & _ & HM & ->).
    cbn [trace fst]. rewrite !forallb_app.
    rewrite (base_wellRouted l (base_merge_base w l HM)).
    rewrite stream_synthesis_wellRouted, !andb_true_r.
    unfold StreamObs.prelude, StreamObs.baseCalls.
    cbn [forallb wellRouted]. rewrite forallb_app.
    rewrite convert_openai_schema, convert_gemini_schema.
    now destruct (intent c).
  - destruct (prompt req) as [q|] eqn:Hreq.
    2:{ now rewrite server_combine_no_prompt by now rewrite Hreq. }
    destruct (JS.truthy q) eqn:Hq.
    2:{ now rewrite server_combine_no_prompt by now rewrite Hreq, Hq. }
    destruct (server_combine_accepted req q w' Hreq Hq) as (c & _ & _ & ->).
    cbn [trace fst]. rewrite server_synthesis_spec. cbn [trace fst].
    rewrite forallb_app. apply andb_true_intro. split.
    + unfold ServerObs.prelude.
      now destruct (Server.aSettlesFirst w'), (intent c).
    + destruct (JS.includes _ "ERROR" && JS.includes _ "ERROR"); [reflexivity|].
      destruct (Server.prepareSynthesis q _ _ _ _) as [sp log].
      unfold ServerObs.synthesisCall.
      destruct (JS.startsWith (synthesizer _) "gemini") eqn:E;
        cbn [forallb wellRouted Server.geminiRequest Server.gptRequest];
        rewrite E; reflexivity.
  - destruct (runDynamicTest_spec w'' p cs cache) as (c & res & l & _ & Hl & ->).
    cbv zeta in Hl. rewrite fallbackSteps_spec in Hl. cbv zeta in Hl.
    cbn [trace fst forallb wellRouted]. rewrite !forallb_app.
    assert (Hlr : forallb wellRouted l = true).
    { destruct (Batch.gptFailed _ && Batch.geminiFailed _);
        injection Hl as <- _; [reflexivity|].
      destruct (JS.startsWith (synthesizer _) "gemini") eqn:E;
        cbn [forallb wellRouted]; rewrite E; reflexivity. }
    rewrite Hlr.
    unfold BatchObs.pipelineOf.
    destruct (SpecRule.intentOf _);
      destruct (isSome (Batch.cacheGet _ cache));
      destruct (isSome (Batch.cacheGet _ cache)); reflexivity.
Qed.

End Routing.

(** ** The reasoning of the classifier *)

Section Reasoning.

Import Obs Fixtures.

Lemma trimEnd_append_clean (x b : string) :
  JS.trimEnd b = b -> b <> EmptyString -> JS.trimEnd (x ^ b) = x ^ b.
Proof.
  intros Hb Hne. induction x as [|c x IH]; [exact Hb|].
  cbn [String.append JS.trimEnd]. rewrite IH.
  destruct (x ^ b) eqn:E; [|reflexivity].
  destruct x; [contradiction | discriminate].
Qed.

Lemma split_single_line (x : string) :
  JS.includes x JS.lf = false -> JS.split JS.nl x = [x].
Proof.
  intros Hx. rewrite <- (append_empty x) at 1.
  rewrite (split_one_line x EmptyString Hx). simpl. now rewrite append_empty.
Qed.

(** X19. The parser reads back an answer written as the classification
    prompt asks: for a reasoning that holds no newline and no white space at
    either end, and a last line that holds no newline and does not end with
    white space, the answer made of the label Reasoning, the reasoning, a
    newline and the last line is parsed into that reasoning (the label
    stripped) and the uppercased, trimmed last line, with the Intent read
    off that line. *)
Theorem X19_parser_reads_back_a_formatted_answer (r lastLine : string) :
  JS.trimStart r = r -> JS.trimEnd r = r -> JS.includes r JS.lf = false ->
  JS.trimEnd lastLine = lastLine -> lastLine <> EmptyString ->
  JS.includes lastLine JS.lf = false ->
  parseClassification ("Reasoning: " ^ r ^ JS.lf ^ lastLine)
  = Some (mkClassification
            (JS.toUpperCase (JS.trim lastLine)) r
            (if JS.includes (JS.toUpperCase (JS.trim lastLine)) "CREATIVE"
             then CREATIVE else FACTUAL)).
Proof.
  intros Hr1 Hr2 Hr3 Hl1 Hl2 Hl3.
  set (x := "Reasoning: " ^ r).
  assert (Hresp : "Reasoning: " ^ r ^ JS.lf ^ lastLine = x ^ JS.lf ^ lastLine).
  { unfold x. now rewrite append_assoc. }
  assert (Hx : JS.includes x JS.lf = false).
  { unfold x. apply no_newline_append; [reflexivity | exact Hr3]. }
  assert (Htrim : JS.trim ("Reasoning: " ^ r ^ JS.lf ^ lastLine)
                  = x ^ JS.lf ^ lastLine).
  { unfold JS.trim.
    change (JS.trimStart ("Reasoning: " ^ r ^ JS.lf ^ lastLine))
      with ("Reasoning: " ^ r ^ JS.lf ^ lastLine).
    rewrite Hresp.
    rewrite <- (append_assoc x JS.lf lastLine).
    rewrite trimEnd_append_clean by assumption.
    now rewrite append_assoc. }
  assert (Hsplit : JS.split JS.nl (x ^ JS.lf ^ lastLine) = [x; lastLine]).
  { rewrite (split_one_line x _ Hx).
    change (JS.lf ^ lastLine) with (String JS.nl lastLine).
    cbn [JS.split]. rewrite Ascii.eqb_refl, (split_single_line _ Hl3).
    cbn [hd tl]. now rewrite append_empty. }
  unfold parseClassification. rewrite Htrim, Hsplit.
  cbn [JS.pop JS.join]. f_equal. f_equal.
  unfold x.
  change (JS.removeFirst "Reasoning:" ("Reasoning: " ^ r)) with (String " " r).
  unfold JS.trim.
  change (JS.trimStart (String " " r)) with (JS.trimStart r).
  now rewrite Hr1, Hr2.
Qed.

Lemma X19_parser_reads_back_a_formatted_answer_witness :
  parseClassification
    ("Reasoning: " ^ "The user asks for a poem." ^ JS.lf
     ^ "Classification: Creative")
  = Some (mkClassification "CLASSIFICATION: CREATIVE"
            "The user asks for a poem." CREATIVE).
Proof.
  exact (X19_parser_reads_back_a_formatted_answer "The user asks for a poem."
           "Classification: Creative" eq_refl eq_refl eq_refl eq_refl
           ltac:(discriminate) eq_refl).
Defined.

End Reasoning.
